(** * entropy-tunnel: configuration compiler, engine supervisor, rotation
    controllers, health monitor and control surface

  A shallow embedding of the Go sources under [internal/tunnel],
  [internal/rotation] and [internal/api], with the properties the design
  document states about them.

  Conventions.  A Go [string] is a Rocq [string] (a sequence of bytes); a
  Go [int] is a [Z] kept in the 64-bit range, with the wrap-around of
  [+] written out ([GoInt.add]); a [nil] pointer argument is [None];
  [time.Time] is a [Z] (nanoseconds); calls to the zap logger are kept as
  a trace of entries in the state of the component that logs. *)

From Stdlib Require Import ZArith Lia Bool List Ascii String.
From Stdlib Require Import DecimalString DecimalPos.
From Stdlib Require DecimalZ Permutation Sorted.
From stdpp Require Import base option list gmap strings.

Local Open Scope string_scope.
Local Open Scope Z_scope.

(** ** Go integers *)

Module GoInt.

Definition min_int : Z := - 2 ^ 63.
Definition max_int : Z := 2 ^ 63 - 1.

(** Reduction of a mathematical integer into the range of a 64-bit [int]. *)
Definition wrap (z : Z) : Z := (z + 2 ^ 63) mod 2 ^ 64 - 2 ^ 63.

Definition add (a b : Z) : Z := wrap (a + b).

Definition in_range (z : Z) : bool := (min_int <=? z) && (z <=? max_int).

End GoInt.

(** ** Go strings: the [strings] and [strconv] functions the sources call *)

Module GoStr.

Definition byte_val (c : ascii) : Z := Z.of_N (N_of_ascii c).

Definition isDigit (c : ascii) : bool :=
  (48 <=? byte_val c) && (byte_val c <=? 57).

(** [s[n:]] and [s[:n]] for [0 <= n <= len(s)]. *)
Fixpoint drop (n : nat) (s : string) : string :=
  match n, s with
  | O, _ => s
  | S n', String _ r => drop n' r
  | S _, EmptyString => EmptyString
  end.

Fixpoint take (n : nat) (s : string) : string :=
  match n, s with
  | O, _ => EmptyString
  | S n', String c r => String c (take n' r)
  | S _, EmptyString => EmptyString
  end.

Definition slice_from (s : string) (i : Z) : string := drop (Z.to_nat i) s.
Definition slice_to (s : string) (i : Z) : string := take (Z.to_nat i) s.

(** [strings.LastIndex(s, sep)] for a one-byte separator: the index of
    the last occurrence of [c] in [s], or [-1]. *)
Fixpoint lastIndexFrom (i : Z) (s : string) (c : ascii) (found : Z) : Z :=
  match s with
  | EmptyString => found
  | String x r =>
      lastIndexFrom (i + 1) r c (if Ascii.eqb x c then i else found)
  end.

Definition LastIndex (s : string) (c : ascii) : Z := lastIndexFrom 0 s c (-1).

(** [strconv.Atoi]: an optional sign, then one or more decimal digits,
    the value in the range of [int]; [None] stands for the error. *)
Fixpoint digitsValue (s : string) (acc : Z) : option Z :=
  match s with
  | EmptyString => Some acc
  | String c r =>
      if isDigit c then digitsValue r (acc * 10 + (byte_val c - 48))
      else None
  end.

Definition Atoi (s : string) : option Z :=
  let '(neg, body) :=
    match s with
    | String "-"%char r => (true, r)
    | String "+"%char r => (false, r)
    | _ => (false, s)
    end in
  match body with
  | EmptyString => None
  | _ =>
      match digitsValue body 0 with
      | Some v =>
          let n := if neg then - v else v in
          if GoInt.in_range n then Some n else None
      | None => None
      end
  end.

(** [strconv.Itoa], also the [%d] verb of [fmt.Sprintf] and the way
    [encoding/json] writes an [int]. *)
Definition Itoa (z : Z) : string := NilZero.string_of_int (Z.to_int z).

(** ASCII lower-casing of one byte, as [containsCI] of the DPI tests
    does it ([h += 32] for ['A' <= h <= 'Z']). *)
Definition lowerByte (c : ascii) : ascii :=
  if (65 <=? byte_val c) && (byte_val c <=? 90)
  then ascii_of_N (N_of_ascii c + 32) else c.

End GoStr.

(** ** JSON documents and the bytes [encoding/json] writes for them *)

Module Json.

Local Set Warnings "-register-all".

(** The values the sources hand to [json.Marshal]: struct and map fields
    become [Obj] members in the order [Marshal] writes them (declaration
    order for a struct, sorted keys for a map); a [json.RawMessage] is
    [Raw], written as it is. *)
Inductive value : Type :=
| Null
| Bool (b : bool)
| Int (z : Z)
| Str (s : string)
| Raw (bytes : string)
| Arr (items : list value)
| Obj (members : list (string * value)).

Definition dquote : ascii := "034"%char.
Definition backslash : ascii := "\"%char.

Definition hexDigit (n : Z) : ascii :=
  match String.get (Z.to_nat n) "0123456789abcdef" with
  | Some c => c
  | None => "0"%char
  end.

(** The bytes [appendString] writes for one byte below [utf8.RuneSelf],
    with [escapeHTML] set as [json.Marshal] sets it. *)
Definition escapeByte (b : ascii) : string :=
  let x := GoStr.byte_val b in
  if (x =? 92) || (x =? 34) then String backslash (String b EmptyString)
  else if x =? 8 then "\b"
  else if x =? 12 then "\f"
  else if x =? 10 then "\n"
  else if x =? 13 then "\r"
  else if x =? 9 then "\t"
  else if (x <? 32) || (x =? 60) || (x =? 62) || (x =? 38) then
    "\u00" ++ String (hexDigit (x / 16)) (String (hexDigit (x mod 16)) EmptyString)
  else String b EmptyString.

Definition between (lo hi : Z) (c : ascii) : bool :=
  (lo <=? GoStr.byte_val c) && (GoStr.byte_val c <=? hi).

(** [utf8.DecodeRuneInString] on [String b r] for [b >= 0x80]: the width
    of the first rune, [O] when the bytes are not a well-formed encoding
    (the case [RuneError, 1]). *)
Definition runeWidth (b : ascii) (r : string) : nat :=
  let x := GoStr.byte_val b in
  if (194 <=? x) && (x <=? 223) then
    match r with
    | String c1 _ => if between 128 191 c1 then 2%nat else O
    | _ => O
    end
  else if (224 <=? x) && (x <=? 239) then
    let lo := if x =? 224 then 160 else 128 in
    let hi := if x =? 237 then 159 else 191 in
    match r with
    | String c1 (String c2 _) =>
        if between lo hi c1 && between 128 191 c2 then 3%nat else O
    | _ => O
    end
  else if (240 <=? x) && (x <=? 244) then
    let lo := if x =? 240 then 144 else 128 in
    let hi := if x =? 244 then 143 else 191 in
    match r with
    | String c1 (String c2 (String c3 _)) =>
        if between lo hi c1 && between 128 191 c2 && between 128 191 c3
        then 4%nat else O
    | _ => O
    end
  else O.

(** The loop of [appendString] between the two quotes.  [copy] counts the
    continuation bytes of a rune already decoded, which are written as
    they are; U+2028 and U+2029 (bytes E2 80 A8 and E2 80 A9) and
    ill-formed bytes are escaped. *)
Fixpoint encodeFrom (copy : nat) (s : string) : string :=
  match s with
  | EmptyString => EmptyString
  | String b r =>
      match copy with
      | S k => String b (encodeFrom k r)
      | O =>
          if GoStr.byte_val b <? 128 then escapeByte b ++ encodeFrom O r
          else
            match runeWidth b r with
            | O => "\u" ++ "fffd" ++ encodeFrom O r
            | S k =>
                match r with
                | String c1 (String c2 r2) =>
                    if (GoStr.byte_val b =? 226) && (GoStr.byte_val c1 =? 128)
                       && ((GoStr.byte_val c2 =? 168) || (GoStr.byte_val c2 =? 169))
                    then "\u202" ++ String (hexDigit (GoStr.byte_val c2 mod 16))
                                      (encodeFrom O r2)
                    else String b (encodeFrom k r)
                | _ => String b (encodeFrom k r)
                end
            end
      end
  end.

Definition encodeString (s : string) : string :=
  String dquote (encodeFrom O s ++ String dquote EmptyString).

Fixpoint joinComma (l : list string) : string :=
  match l with
  | [] => EmptyString
  | [x] => x
  | x :: r => x ++ "," ++ joinComma r
  end.

(** [json.Marshal]: the compact form, no white space. *)
Fixpoint render (v : value) : string :=
  match v with
  | Null => "null"
  | Bool true => "true"
  | Bool false => "false"
  | Int z => GoStr.Itoa z
  | Str s => encodeString s
  | Raw bytes => bytes
  | Arr items => "[" ++ joinComma (map render items) ++ "]"
  | Obj members =>
      "{" ++ joinComma (map (fun kv => encodeString (fst kv) ++ ":" ++ render (snd kv))
                            members) ++ "}"
  end.

Definition Marshal (v : value) : string := render v.

(** The member [k] of an object. *)
Fixpoint assoc (k : string) (l : list (string * value)) : option value :=
  match l with
  | [] => None
  | (k', v) :: rest => if String.eqb k' k then Some v else assoc k rest
  end.

Definition member (k : string) (v : value) : option value :=
  match v with
  | Obj members => assoc k members
  | _ => None
  end.

(** *** [json.Valid] / [checkValid]: the scanner of [encoding/json] *)

Definition maxNestingDepth : Z := 10000.

Definition isSpace (c : ascii) : bool :=
  let x := GoStr.byte_val c in
  (x =? 32) || (x =? 9) || (x =? 13) || (x =? 10).

Fixpoint skipWS (s : string) : string :=
  match s with
  | EmptyString => EmptyString
  | String c r => if isSpace c then skipWS r else s
  end.

Definition isHex (c : ascii) : bool :=
  GoStr.isDigit c || between 97 102 c || between 65 70 c.

Definition isSimpleEscape (c : ascii) : bool :=
  let x := GoStr.byte_val c in
  (x =? 34) || (x =? 92) || (x =? 47) || (x =? 98) || (x =? 102) ||
  (x =? 110) || (x =? 114) || (x =? 116).

(** After the opening quote: the rest behind the closing quote. *)
Fixpoint scanString (s : string) : option string :=
  match s with
  | EmptyString => None
  | String c r =>
      if Ascii.eqb c dquote then Some r
      else if Ascii.eqb c backslash then
        match r with
        | EmptyString => None
        | String e r1 =>
            if isSimpleEscape e then scanString r1
            else if Ascii.eqb e "u" then
              match r1 with
              | String h1 (String h2 (String h3 (String h4 r2))) =>
                  if isHex h1 && isHex h2 && isHex h3 && isHex h4
                  then scanString r2 else None
              | _ => None
              end
            else None
        end
      else if GoStr.byte_val c <? 32 then None
      else scanString r
  end.

Fixpoint skipDigits (s : string) : string :=
  match s with
  | EmptyString => EmptyString
  | String c r => if GoStr.isDigit c then skipDigits r else s
  end.

Definition scanExponent (s : string) : option string :=
  match s with
  | String c r =>
      if Ascii.eqb c "e" || Ascii.eqb c "E" then
        let r1 := match r with
                  | String sg r' =>
                      if Ascii.eqb sg "+" || Ascii.eqb sg "-" then r' else r
                  | EmptyString => r
                  end in
        match r1 with
        | String d r2 => if GoStr.isDigit d then Some (skipDigits r2) else None
        | EmptyString => None
        end
      else Some s
  | EmptyString => Some s
  end.

Definition scanFraction (s : string) : option string :=
  match s with
  | String c r =>
      if Ascii.eqb c "." then
        match r with
        | String d r1 =>
            if GoStr.isDigit d then scanExponent (skipDigits r1) else None
        | EmptyString => None
        end
      else scanExponent s
  | EmptyString => Some s
  end.

Definition scanNumber (s : string) : option string :=
  let s1 := match s with
            | String c r => if Ascii.eqb c "-" then r else s
            | EmptyString => s
            end in
  match s1 with
  | String c r =>
      if Ascii.eqb c "0" then scanFraction r
      else if GoStr.isDigit c then scanFraction (skipDigits r)
      else None
  | EmptyString => None
  end.

Fixpoint scanLiteral (lit s : string) : option string :=
  match lit with
  | EmptyString => Some s
  | String a lit' =>
      match s with
      | String b r => if Ascii.eqb a b then scanLiteral lit' r else None
      | EmptyString => None
      end
  end.

(** One value at the head of [s]; [depth] is the number of open arrays
    and objects, [fuel] bounds the recursion of the model (the scanner is
    a loop over the bytes). *)
Fixpoint scanValue (fuel : nat) (depth : Z) (s : string) : option string :=
  match fuel with
  | O => None
  | S f =>
      match s with
      | EmptyString => None
      | String c r =>
          if Ascii.eqb c "{" then
            if depth <? maxNestingDepth then
              match skipWS r with
              | String c1 r1 =>
                  if Ascii.eqb c1 "}" then Some r1
                  else scanMembers f (depth + 1) (String c1 r1)
              | EmptyString => None
              end
            else None
          else if Ascii.eqb c "[" then
            if depth <? maxNestingDepth then
              match skipWS r with
              | String c1 r1 =>
                  if Ascii.eqb c1 "]" then Some r1
                  else scanElements f (depth + 1) (String c1 r1)
              | EmptyString => None
              end
            else None
          else if Ascii.eqb c dquote then scanString r
          else if Ascii.eqb c "-" || GoStr.isDigit c then scanNumber s
          else if Ascii.eqb c "t" then scanLiteral "rue" r
          else if Ascii.eqb c "f" then scanLiteral "alse" r
          else if Ascii.eqb c "n" then scanLiteral "ull" r
          else None
      end
  end
with scanMembers (fuel : nat) (depth : Z) (s : string) : option string :=
  match fuel with
  | O => None
  | S f =>
      match s with
      | EmptyString => None
      | String c r =>
          if Ascii.eqb c dquote then
            match scanString r with
            | Some r1 =>
                match skipWS r1 with
                | String c2 r2 =>
                    if Ascii.eqb c2 ":" then
                      match scanValue f depth (skipWS r2) with
                      | Some r3 =>
                          match skipWS r3 with
                          | String c4 r4 =>
                              if Ascii.eqb c4 "," then scanMembers f depth (skipWS r4)
                              else if Ascii.eqb c4 "}" then Some r4
                              else None
                          | EmptyString => None
                          end
                      | None => None
                      end
                    else None
                | EmptyString => None
                end
            | None => None
            end
          else None
      end
  end
with scanElements (fuel : nat) (depth : Z) (s : string) : option string :=
  match fuel with
  | O => None
  | S f =>
      match scanValue f depth s with
      | Some r3 =>
          match skipWS r3 with
          | String c4 r4 =>
              if Ascii.eqb c4 "," then scanElements f depth (skipWS r4)
              else if Ascii.eqb c4 "]" then Some r4
              else None
          | EmptyString => None
          end
      | None => None
      end
  end.

Definition Valid (data : string) : bool :=
  match scanValue (S (2 * String.length data)) 0 (skipWS data) with
  | Some r => match skipWS r with EmptyString => true | _ => false end
  | None => false
  end.

(** *** Texts the scanner accepts

    What may follow a value inside a document: nothing, or one of the
    bytes [,], []] and [}]. *)
Definition delimited (rest : string) : Prop :=
  match rest with
  | EmptyString => True
  | String c _ => c = ","%char \/ c = "]"%char \/ c = "}"%char
  end.

(** The first byte of a value: no white space and no closing bracket. *)
Definition startsValue (s : string) : Prop :=
  match s with
  | EmptyString => False
  | String c _ => isSpace c = false /\ c <> "]"%char /\ c <> "}"%char
  end.

(** [s] is the text of one value that the scanner reads to its end, with
    [depth] arrays and objects open around it, whatever follows. *)
Definition accepted (depth : Z) (s : string) : Prop :=
  startsValue s /\
  forall (fuel : nat) (rest : string),
    delimited rest -> (2 * String.length s < fuel)%nat ->
    scanValue fuel depth (s ++ rest) = Some rest.

(** The first [k] bytes of [s] are there and are not ASCII. *)
Fixpoint highBytes (k : nat) (s : string) : Prop :=
  match k with
  | O => True
  | S k' =>
      match s with
      | EmptyString => False
      | String c r => (GoStr.byte_val c <? 128) = false /\ highBytes k' r
      end
  end.

(** The text of one member of an object whose value is accepted. *)
Definition memberText (depth : Z) (m : string) : Prop :=
  exists k v, m = (encodeString k ++ ":" ++ v)%string /\ accepted depth v.

(** A value that [Marshal] turns into a text the scanner accepts: its
    raw messages are such texts, and it nests no deeper than the scanner
    allows. *)
Inductive wellFormed : Z -> value -> Prop :=
| wf_null d : wellFormed d Null
| wf_bool d b : wellFormed d (Bool b)
| wf_int d z : wellFormed d (Int z)
| wf_str d s : wellFormed d (Str s)
| wf_raw d bytes : accepted d bytes -> wellFormed d (Raw bytes)
| wf_arr d items :
    d < maxNestingDepth -> Forall (wellFormed (d + 1)) items ->
    wellFormed d (Arr items)
| wf_obj d members :
    d < maxNestingDepth ->
    Forall (fun kv => wellFormed (d + 1) (snd kv)) members ->
    wellFormed d (Obj members).

(** A path into a document: member names and array indices. *)
Inductive step : Type :=
| Key (k : string)
| Idx (i : nat).

Fixpoint lookup (path : list step) (v : value) : option value :=
  match path with
  | [] => Some v
  | Key k :: rest =>
      match member k v with
      | Some x => lookup rest x
      | None => None
      end
  | Idx i :: rest =>
      match v with
      | Arr items =>
          match nth_error items i with
          | Some x => lookup rest x
          | None => None
          end
      | _ => None
      end
  end.

End Json.

(** ** Results of fallible functions *)

Inductive result (A E : Type) : Type :=
| Ok (a : A)
| Err (e : E).

Arguments Ok {A E} a.
Arguments Err {A E} e.

Definition isOk {A E} (r : result A E) : bool :=
  match r with Ok _ => true | Err _ => false end.

(** The zap logger: the level and the message of each call, fields left out. *)
Inductive Level : Type := LDebug | LInfo | LWarn | LError.

Definition LogEntry : Type := (Level * string)%type.

(** ** internal/tunnel: configuration model and compiler *)

Module Tunnel.

(** *** config.go *)

Record RealityConfig : Type := {
  SNI : string;
  PrivateKey : string;
  RealityPublicKey : string;
  ShortIDs : list string
}.

Record FallbackConfig : Type := {
  FbProtocol : string;
  FbListen : string;
  FbTransport : string;
  FbPath : string
}.

Record RotationConfig : Type := {
  RotEnabled : bool;
  RotProvider : string;
  RotInterval : string;
  CFAPIToken : string;
  CFAccountID : string;
  CFZoneID : string;
  AWSRegion : string;
  AWSKey : string;
  AWSSecret : string
}.

Record PaymentConfig : Type := {
  PayEnabled : bool;
  BTCPayURL : string;
  BTCPayKey : string;
  StoreID : string
}.

Record Config : Type := {
  Listen : string;
  Protocol : string;
  UUID : string;
  Reality : RealityConfig;
  Fingerprint : string;
  Fallbacks : list FallbackConfig;
  LogLevel : string;
  SportsMode : bool;
  Rotation : RotationConfig;
  Payment : PaymentConfig
}.

Record ClientConfig : Type := {
  Server : string;
  CUUID : string;
  CSNI : string;
  CFingerprint : string;
  PublicKey : string;
  ShortID : string;
  LocalListen : string;
  HTTPListen : string;
  CLogLevel : string;
  CSportsMode : bool;
  APIListen : string
}.

Definition setProtocol (p : string) (c : Config) : Config :=
  {| Listen := Listen c; Protocol := p; UUID := UUID c; Reality := Reality c;
     Fingerprint := Fingerprint c; Fallbacks := Fallbacks c;
     LogLevel := LogLevel c; SportsMode := SportsMode c;
     Rotation := Rotation c; Payment := Payment c |}.

Definition setFingerprint (f : string) (c : Config) : Config :=
  {| Listen := Listen c; Protocol := Protocol c; UUID := UUID c;
     Reality := Reality c; Fingerprint := f; Fallbacks := Fallbacks c;
     LogLevel := LogLevel c; SportsMode := SportsMode c;
     Rotation := Rotation c; Payment := Payment c |}.

Inductive ValidateError : Type :=
| ErrListenRequired
| ErrUUIDRequired
| ErrSNIRequired
| ErrPrivateKeyRequired
| ErrUnsupportedProtocol (p : string)
| ErrServerRequired
| ErrPublicKeyRequired.

Definition validProtocols (p : string) : bool :=
  String.eqb p "vless" || String.eqb p "trojan".

(** [Config.Validate]: the receiver as the call leaves it, and the
    error ([None] for [nil]).  The defaults are written to the receiver
    as the checks go, so a failed call may already have set [Protocol]. *)
Definition Validate (c : Config) : Config * option ValidateError :=
  if String.eqb (Listen c) "" then (c, Some ErrListenRequired)
  else
    let c := if String.eqb (Protocol c) "" then setProtocol "vless" c else c in
    if String.eqb (UUID c) "" then (c, Some ErrUUIDRequired)
    else if String.eqb (SNI (Reality c)) "" then (c, Some ErrSNIRequired)
    else if String.eqb (PrivateKey (Reality c)) ""
    then (c, Some ErrPrivateKeyRequired)
    else
      let c := if String.eqb (Fingerprint c) ""
               then setFingerprint "chrome" c else c in
      if negb (validProtocols (Protocol c))
      then (c, Some (ErrUnsupportedProtocol (Protocol c)))
      else (c, None).

Definition setClientDefaults (local fp api : string) (c : ClientConfig)
  : ClientConfig :=
  {| Server := Server c; CUUID := CUUID c; CSNI := CSNI c; CFingerprint := fp;
     PublicKey := PublicKey c; ShortID := ShortID c; LocalListen := local;
     HTTPListen := HTTPListen c; CLogLevel := CLogLevel c;
     CSportsMode := CSportsMode c; APIListen := api |}.

(** [ClientConfig.Validate]: the defaults are set only after the four
    checks have passed. *)
Definition ValidateClient (c : ClientConfig)
  : ClientConfig * option ValidateError :=
  if String.eqb (Server c) "" then (c, Some ErrServerRequired)
  else if String.eqb (CUUID c) "" then (c, Some ErrUUIDRequired)
  else if String.eqb (CSNI c) "" then (c, Some ErrSNIRequired)
  else if String.eqb (PublicKey c) "" then (c, Some ErrPublicKeyRequired)
  else
    (setClientDefaults
       (if String.eqb (LocalListen c) "" then "127.0.0.1:1080" else LocalListen c)
       (if String.eqb (CFingerprint c) "" then "chrome" else CFingerprint c)
       (if String.eqb (APIListen c) "" then "127.0.0.1:9876" else APIListen c)
       c,
     None).

(** A validated configuration: what a successful [Validate] leaves in
    the receiver. *)
Definition validated (c : Config) : Prop :=
  exists c0, Validate c0 = (c, None).

Definition validatedClient (c : ClientConfig) : Prop :=
  exists c0, ValidateClient c0 = (c, None).

(** *** config_builder.go: the structures of the runtime's JSON *)

Definition RawMessage : Type := option string.

Record xrayLog : Type := { XLogLevel : string }.

Record xrayRealityStream : Type := {
  Show : bool;
  Dest : string;
  Xver : Z;
  ServerNames : list string;
  RPrivateKey : string;
  RShortIDs : list string;
  ServerName : string;
  RFingerprint : string;
  RPublicKey : string;
  RShortID : string
}.

Record xrayTLSStream : Type := { TLSServerName : string }.

Record xrayWSStream : Type := { WSPath : string }.

Record xrayStream : Type := {
  Network : string;
  Security : string;
  RealityS : option xrayRealityStream;
  TLS : option xrayTLSStream;
  WS : option xrayWSStream
}.

Record xrayInbound : Type := {
  InTag : string;
  InListen : string;
  InPort : Z;
  InProtocol : string;
  InSettings : RawMessage;
  InStream : option xrayStream
}.

Record xrayOutbound : Type := {
  OutTag : string;
  OutProtocol : string;
  OutSettings : RawMessage;
  OutStream : option xrayStream
}.

Record xrayFullConfig : Type := {
  Log : option xrayLog;
  Inbounds : list xrayInbound;
  Outbounds : list xrayOutbound
}.

(** What [json.Marshal] makes of the structures: the members in the
    order of the fields, those tagged [omitempty] left out when they hold
    the zero value, an empty string, an empty slice or a nil pointer. *)

Definition field (k : string) (v : Json.value) : list (string * Json.value) :=
  [(k, v)].

Definition strOmit (k s : string) : list (string * Json.value) :=
  if String.eqb s "" then [] else [(k, Json.Str s)].

Definition strsOmit (k : string) (l : list string) : list (string * Json.value) :=
  match l with
  | [] => []
  | _ => [(k, Json.Arr (map Json.Str l))]
  end.

Definition intOmit (k : string) (z : Z) : list (string * Json.value) :=
  if z =? 0 then [] else [(k, Json.Int z)].

Definition optOmit {A} (k : string) (f : A -> Json.value) (o : option A)
  : list (string * Json.value) :=
  match o with
  | Some a => [(k, f a)]
  | None => []
  end.

Definition rawValue (m : RawMessage) : Json.value :=
  match m with
  | Some bytes => Json.Raw bytes
  | None => Json.Null
  end.

Definition rawOmit (k : string) (m : RawMessage) : list (string * Json.value) :=
  match m with
  | Some bytes => if String.eqb bytes "" then [] else [(k, Json.Raw bytes)]
  | None => []
  end.

(** A raw message whose bytes, if any, the scanner accepts at [depth]. *)
Definition rawAccepted (depth : Z) (m : RawMessage) : Prop :=
  match m with
  | Some bytes => Json.accepted depth bytes
  | None => True
  end.

Definition logJSON (l : xrayLog) : Json.value :=
  Json.Obj (field "loglevel" (Json.Str (XLogLevel l))).

Definition realityJSON (r : xrayRealityStream) : Json.value :=
  Json.Obj (field "show" (Json.Bool (Show r))
            ++ strOmit "dest" (Dest r)
            ++ intOmit "xver" (Xver r)
            ++ strsOmit "serverNames" (ServerNames r)
            ++ strOmit "privateKey" (RPrivateKey r)
            ++ strsOmit "shortIds" (RShortIDs r)
            ++ strOmit "serverName" (ServerName r)
            ++ strOmit "fingerprint" (RFingerprint r)
            ++ strOmit "publicKey" (RPublicKey r)
            ++ strOmit "shortId" (RShortID r)).

Definition tlsJSON (t : xrayTLSStream) : Json.value :=
  Json.Obj (strOmit "serverName" (TLSServerName t)).

Definition wsJSON (w : xrayWSStream) : Json.value :=
  Json.Obj (field "path" (Json.Str (WSPath w))).

Definition streamJSON (s : xrayStream) : Json.value :=
  Json.Obj (field "network" (Json.Str (Network s))
            ++ field "security" (Json.Str (Security s))
            ++ optOmit "realitySettings" realityJSON (RealityS s)
            ++ optOmit "tlsSettings" tlsJSON (TLS s)
            ++ optOmit "wsSettings" wsJSON (WS s)).

Definition inboundJSON (i : xrayInbound) : Json.value :=
  Json.Obj (field "tag" (Json.Str (InTag i))
            ++ strOmit "listen" (InListen i)
            ++ field "port" (Json.Int (InPort i))
            ++ field "protocol" (Json.Str (InProtocol i))
            ++ field "settings" (rawValue (InSettings i))
            ++ optOmit "streamSettings" streamJSON (InStream i)).

Definition outboundJSON (o : xrayOutbound) : Json.value :=
  Json.Obj (field "tag" (Json.Str (OutTag o))
            ++ field "protocol" (Json.Str (OutProtocol o))
            ++ rawOmit "settings" (OutSettings o)
            ++ optOmit "streamSettings" streamJSON (OutStream o)).

Definition fullConfigJSON (xc : xrayFullConfig) : Json.value :=
  Json.Obj (optOmit "log" logJSON (Log xc)
            ++ field "inbounds" (Json.Arr (map inboundJSON (Inbounds xc)))
            ++ field "outbounds" (Json.Arr (map outboundJSON (Outbounds xc)))).

(** *** config_builder.go: helpers *)

Inductive AddrError : Type :=
| ErrEmptyAddress
| ErrInvalidPort (addr : string)
| ErrNoPort (addr : string).

Definition splitHostPort (addr : string) : result (string * Z) AddrError :=
  match addr with
  | EmptyString => Err ErrEmptyAddress
  | String c _ =>
      if Ascii.eqb c ":" then
        match GoStr.Atoi (GoStr.slice_from addr 1) with
        | None => Err (ErrInvalidPort addr)
        | Some port => Ok ("0.0.0.0", port)
        end
      else
        let idx := GoStr.LastIndex addr ":" in
        if idx <? 0 then Err (ErrNoPort addr)
        else
          let host := GoStr.slice_to addr idx in
          match GoStr.Atoi (GoStr.slice_from addr (idx + 1)) with
          | None => Err (ErrInvalidPort addr)
          | Some port => Ok (host, port)
          end
  end.

(** An address [splitHostPort] accepts. *)
Definition parses (addr : string) : Prop := isOk (splitHostPort addr) = true.

Definition parseServerAddr (addr : string) : string * Z :=
  let idx := GoStr.LastIndex addr ":" in
  if idx <? 0 then (addr, 443)
  else
    let host := GoStr.slice_to addr idx in
    match GoStr.Atoi (GoStr.slice_from addr (idx + 1)) with
    | None => (addr, 443)
    | Some port => (host, port)
    end.

Fixpoint coalesce (values : list string) : string :=
  match values with
  | [] => ""
  | v :: rest => if String.eqb v "" then coalesce rest else v
  end.

(** *** config_builder.go: the two builders *)

Inductive BuildError : Type :=
| ErrConfigNil
| ErrInvalidListen (e : AddrError)
| ErrInvalidFallbackListen (e : AddrError)
| ErrClientConfigNil
| ErrInvalidLocalListen (e : AddrError).

(** The kinds of the design document's error taxonomy. *)
Inductive ErrorKind : Type := InvalidInput | BadAddress.

Definition kindOf (e : BuildError) : ErrorKind :=
  match e with
  | ErrConfigNil | ErrClientConfigNil => InvalidInput
  | ErrInvalidListen _ | ErrInvalidFallbackListen _ | ErrInvalidLocalListen _ =>
      BadAddress
  end.

Definition vlessSettings (uuid : string) : string :=
  Json.Marshal
    (Json.Obj
       [("clients",
         Json.Arr [Json.Obj [("flow", Json.Str "xtls-rprx-vision");
                             ("id", Json.Str uuid)]]);
        ("decryption", Json.Str "none")]).

Definition fallbackInbound (i : Z) (fb : FallbackConfig) (fbHost : string)
    (fbPort : Z) : xrayInbound :=
  {| InTag := "fallback-" ++ FbProtocol fb ++ "-" ++ GoStr.Itoa i;
     InListen := fbHost;
     InPort := fbPort;
     InProtocol := FbProtocol fb;
     InSettings := Some (Json.Marshal (Json.Obj []));
     InStream :=
       if String.eqb (FbTransport fb) "ws"
       then Some {| Network := "ws"; Security := "tls"; RealityS := None;
                    TLS := None; WS := Some {| WSPath := FbPath fb |} |}
       else None |}.

(** The loop over [cfg.Fallbacks]: [inbounds] is [xc.Inbounds] so far,
    [i] the index of the head of [fbs]. *)
Fixpoint addFallbacks (i : Z) (fbs : list FallbackConfig)
    (inbounds : list xrayInbound) : result (list xrayInbound) BuildError :=
  match fbs with
  | [] => Ok inbounds
  | fb :: rest =>
      match splitHostPort (FbListen fb) with
      | Err e => Err (ErrInvalidFallbackListen e)
      | Ok (fbHost, fbPort) =>
          addFallbacks (i + 1) rest
            (inbounds ++ [fallbackInbound i fb fbHost fbPort])
      end
  end.

(** The structure [xc] that [BuildServerJSON] hands to [json.Marshal]. *)
Definition serverXrayConfig (cfg : Config) : result xrayFullConfig BuildError :=
  match splitHostPort (Listen cfg) with
  | Err e => Err (ErrInvalidListen e)
  | Ok (host, port) =>
      let shortIDs :=
        match ShortIDs (Reality cfg) with
        | [] => [""]
        | l => l
        end in
      let primary :=
        {| InTag := "vless-reality";
           InListen := host;
           InPort := port;
           InProtocol := "vless";
           InSettings := Some (vlessSettings (UUID cfg));
           InStream :=
             Some {| Network := "tcp"; Security := "reality";
                     RealityS :=
                       Some {| Show := false;
                               Dest := SNI (Reality cfg) ++ ":443";
                               Xver := 0;
                               ServerNames := [SNI (Reality cfg)];
                               RPrivateKey := PrivateKey (Reality cfg);
                               RShortIDs := shortIDs;
                               ServerName := ""; RFingerprint := "";
                               RPublicKey := ""; RShortID := "" |};
                     TLS := None; WS := None |} |} in
      match addFallbacks 0 (Fallbacks cfg) [primary] with
      | Err e => Err e
      | Ok inbounds =>
          Ok {| Log := Some {| XLogLevel := coalesce [LogLevel cfg; "info"] |};
                Inbounds := inbounds;
                Outbounds :=
                  [ {| OutTag := "direct"; OutProtocol := "freedom";
                       OutSettings := None; OutStream := None |};
                    {| OutTag := "block"; OutProtocol := "blackhole";
                       OutSettings := None; OutStream := None |} ] |}
      end
  end.

Definition BuildServerJSON (cfg : option Config) : result string BuildError :=
  match cfg with
  | None => Err ErrConfigNil
  | Some cfg =>
      match serverXrayConfig cfg with
      | Err e => Err e
      | Ok xc => Ok (Json.Marshal (fullConfigJSON xc))
      end
  end.

Definition vlessOutSettings (serverHost : string) (serverPort : Z)
    (uuid : string) : string :=
  Json.Marshal
    (Json.Obj
       [("vnext",
         Json.Arr
           [Json.Obj
              [("address", Json.Str serverHost);
               ("port", Json.Int serverPort);
               ("users",
                Json.Arr [Json.Obj [("encryption", Json.Str "none");
                                    ("flow", Json.Str "xtls-rprx-vision");
                                    ("id", Json.Str uuid)]])]])]).

(** The structure [xc] that [BuildClientJSON] hands to [json.Marshal]. *)
Definition clientXrayConfig (cfg : ClientConfig) : result xrayFullConfig BuildError :=
  match splitHostPort (LocalListen cfg) with
  | Err e => Err (ErrInvalidLocalListen e)
  | Ok (localHost, localPort) =>
      let '(serverHost, serverPort) := parseServerAddr (Server cfg) in
      let socksSettings := Json.Marshal (Json.Obj [("udp", Json.Bool true)]) in
      let fingerprint :=
        if String.eqb (CFingerprint cfg) "" then "chrome" else CFingerprint cfg in
      let socks :=
        {| InTag := "socks-in"; InListen := localHost; InPort := localPort;
           InProtocol := "socks"; InSettings := Some socksSettings;
           InStream := None |} in
      let outbounds :=
        [ {| OutTag := "proxy"; OutProtocol := "vless";
             OutSettings :=
               Some (vlessOutSettings serverHost serverPort (CUUID cfg));
             OutStream :=
               Some {| Network := "tcp"; Security := "reality";
                       RealityS :=
                         Some {| Show := false; Dest := ""; Xver := 0;
                                 ServerNames := []; RPrivateKey := "";
                                 RShortIDs := [];
                                 ServerName := CSNI cfg;
                                 RFingerprint := fingerprint;
                                 RPublicKey := PublicKey cfg;
                                 RShortID := ShortID cfg |};
                       TLS := None; WS := None |} |};
          {| OutTag := "direct"; OutProtocol := "freedom";
             OutSettings := None; OutStream := None |} ] in
      let inbounds :=
        if String.eqb (HTTPListen cfg) "" then [socks]
        else
          match splitHostPort (HTTPListen cfg) with
          | Ok (hHost, hPort) =>
              [socks;
               {| InTag := "http-in"; InListen := hHost; InPort := hPort;
                  InProtocol := "http";
                  InSettings :=
                    Some (Json.Marshal
                            (Json.Obj [("allowTransparent", Json.Bool false)]));
                  InStream := None |}]
          | Err _ => [socks]
          end in
      Ok {| Log := Some {| XLogLevel := coalesce [CLogLevel cfg; "info"] |};
            Inbounds := inbounds;
            Outbounds := outbounds |}
  end.

Definition BuildClientJSON (cfg : option ClientConfig)
  : result string BuildError :=
  match cfg with
  | None => Err ErrClientConfigNil
  | Some cfg =>
      match clientXrayConfig cfg with
      | Err e => Err e
      | Ok xc => Ok (Json.Marshal (fullConfigJSON xc))
      end
  end.

(** The tag and the protocol of each inbound and outbound, in order. *)
Definition inboundLabels (xc : xrayFullConfig) : list (string * string) :=
  map (fun i => (InTag i, InProtocol i)) (Inbounds xc).

Definition outboundLabels (xc : xrayFullConfig) : list (string * string) :=
  map (fun o => (OutTag o, OutProtocol o)) (Outbounds xc).

(** The labels of one inbound per fallback binding, the first with
    index [i]. *)
Fixpoint fallbackLabels (i : Z) (fbs : list FallbackConfig)
  : list (string * string) :=
  match fbs with
  | [] => []
  | fb :: rest =>
      ("fallback-" ++ FbProtocol fb ++ "-" ++ GoStr.Itoa i, FbProtocol fb)
      :: fallbackLabels (i + 1) rest
  end.

(** The secondary mapping-port address is present and parses. *)
Definition httpListenUsable (cfg : ClientConfig) : bool :=
  negb (String.eqb (HTTPListen cfg) "") && isOk (splitHostPort (HTTPListen cfg)).

Definition directOutbound : xrayOutbound :=
  {| OutTag := "direct"; OutProtocol := "freedom"; OutSettings := None;
     OutStream := None |}.

Definition blockOutbound : xrayOutbound :=
  {| OutTag := "block"; OutProtocol := "blackhole"; OutSettings := None;
     OutStream := None |}.

(** *** dpi_test.go: the case-insensitive scan *)

Fixpoint matchesAtCI (haystack needle : string) : bool :=
  match needle with
  | EmptyString => true
  | String n needle' =>
      match haystack with
      | EmptyString => false
      | String h haystack' =>
          Ascii.eqb (GoStr.lowerByte h) (GoStr.lowerByte n)
          && matchesAtCI haystack' needle'
      end
  end.

Fixpoint containsCI (haystack needle : string) : bool :=
  matchesAtCI haystack needle
  || match haystack with
     | EmptyString => false
     | String _ haystack' => containsCI haystack' needle
     end.

Definition leakyStrings : list string :=
  ["entropy"; "tunnel"; "vpn"; "proxy"; "shadowsocks"; "v2ray"; "xray"].

Definition leaks (raw : string) : bool :=
  existsb (containsCI raw) leakyStrings.

(** *** What the scan can find in a compiled document

    [c] matches no byte of [needle], whatever the case; [c] does not
    match the first byte of [needle]. *)
Fixpoint foreign (c : ascii) (needle : string) : bool :=
  match needle with
  | EmptyString => true
  | String x needle' =>
      negb (Ascii.eqb (GoStr.lowerByte c) (GoStr.lowerByte x))
      && foreign c needle'
  end.

Definition headForeign (c : ascii) (needle : string) : bool :=
  match needle with
  | EmptyString => false
  | String x _ => negb (Ascii.eqb (GoStr.lowerByte c) (GoStr.lowerByte x))
  end.

Fixpoint allBytes (p : ascii -> bool) (s : string) : bool :=
  match s with
  | EmptyString => true
  | String c r => p c && allBytes p r
  end.

(** The bytes [Marshal] puts around and between strings, and the sign. *)
Definition punctuation : string :=
  String Json.dquote ":,[]{}-".

Definition numberBytes : string := "0123456789-".

(** A needle that no punctuation, number or literal of a document can
    be part of. *)
Definition scanSafe (needle : string) : bool :=
  negb (String.eqb needle "")
  && allBytes (fun c => foreign c needle) punctuation
  && allBytes (fun c => headForeign c needle) numberBytes
  && negb (containsCI "true" needle)
  && negb (containsCI "false" needle)
  && negb (containsCI "null" needle).

(** Whether [needle] occurs in one of the strings or raw messages of a
    value, the strings escaped as [Marshal] writes them. *)
Fixpoint atomsContain (needle : string) (v : Json.value) : bool :=
  match v with
  | Json.Null | Json.Bool _ | Json.Int _ => false
  | Json.Str s => containsCI (Json.encodeFrom O s) needle
  | Json.Raw bytes => containsCI bytes needle
  | Json.Arr items => existsb (atomsContain needle) items
  | Json.Obj members =>
      existsb (fun kv => containsCI (Json.encodeFrom O (fst kv)) needle
                         || atomsContain needle (snd kv)) members
  end.

(** The member names and the constant values of the server documents. *)
Definition schemaStrings : list string :=
  ["log"; "loglevel"; "inbounds"; "outbounds"; "tag"; "listen"; "port";
   "protocol"; "settings"; "streamSettings"; "network"; "security";
   "realitySettings"; "tlsSettings"; "wsSettings"; "show"; "dest"; "xver";
   "serverNames"; "privateKey"; "shortIds"; "serverName"; "fingerprint";
   "publicKey"; "shortId"; "path"; "clients"; "flow"; "id"; "decryption";
   "vless-reality"; "vless"; "tcp"; "reality"; "xtls-rprx-vision"; "none";
   "direct"; "freedom"; "block"; "blackhole"; "ws"; "tls"; "info";
   "fallback-"; ""].

Definition schemaClean (needle : string) : bool :=
  forallb (fun k => negb (containsCI (Json.encodeFrom O k) needle))
          schemaStrings.

(** [t] is empty or starts with an ASCII byte. *)
Definition asciiHead (t : string) : Prop :=
  match t with
  | EmptyString => True
  | String a _ => (GoStr.byte_val a <? 128) = true
  end.

(** The host [splitHostPort] takes from an address. *)
Definition listenHost (addr : string) : string :=
  match splitHostPort addr with
  | Ok (host, _) => host
  | Err _ => ""
  end.

Definition listenPort (addr : string) : Z :=
  match splitHostPort addr with
  | Ok (_, port) => port
  | Err _ => 0
  end.

(** The strings of a server configuration that [BuildServerJSON] copies
    into the document. *)
Definition fallbackStrings (fb : FallbackConfig) : list string :=
  [FbProtocol fb; listenHost (FbListen fb)]
  ++ (if String.eqb (FbTransport fb) "ws" then [FbPath fb] else []).

Definition embeddedStrings (cfg : Config) : list string :=
  [LogLevel cfg; listenHost (Listen cfg); UUID cfg; SNI (Reality cfg);
   PrivateKey (Reality cfg)]
  ++ ShortIDs (Reality cfg)
  ++ flat_map fallbackStrings (Fallbacks cfg).

(** An identifying substring occurs in [s] as [Marshal] escapes it. *)
Definition escapedLeaks (s : string) : bool := leaks (Json.encodeFrom O s).

(** The inbounds the loop of [BuildServerJSON] appends when every
    fallback address parses. *)
Fixpoint fallbackInbounds (i : Z) (fbs : list FallbackConfig)
  : list xrayInbound :=
  match fbs with
  | [] => []
  | fb :: rest =>
      fallbackInbound i fb (listenHost (FbListen fb)) (listenPort (FbListen fb))
      :: fallbackInbounds (i + 1) rest
  end.

(** *** engine.go *)

Inductive EngineStatus : Type :=
| StatusStopped
| StatusStarting
| StatusRunning
| StatusStopping
| StatusError.

Definition statusString (s : EngineStatus) : string :=
  match s with
  | StatusStopped => "stopped"
  | StatusStarting => "starting"
  | StatusRunning => "running"
  | StatusStopping => "stopping"
  | StatusError => "error"
  end.

Definition statusEqb (a b : EngineStatus) : bool :=
  String.eqb (statusString a) (statusString b).

(** [EngineMode] is a string type; [ModeOther] stands for any value other
    than the two constants. *)
Inductive EngineMode : Type :=
| ModeServer
| ModeClient
| ModeOther (m : string).

(** An [XrayInstance]: what its [Start] and its [Close] return ([None]
    for [nil]). *)
Record XrayInstance : Type := {
  InstStart : option string;
  InstClose : option string
}.

Definition XrayLoader : Type := string -> result XrayInstance string.

Record Engine : Type := {
  config : option Config;
  clientConfig : option ClientConfig;
  mode : EngineMode;
  logger : list LogEntry;
  status : EngineStatus;
  instance : option XrayInstance;
  stopChClosed : nat;
  loader : XrayLoader;
  jsonConfig : option string
}.

Inductive EngineError : Type :=
| ErrConfigMustNotBeNil
| ErrInvalidConfig (e : ValidateError)
| ErrAlreadyRunning
| ErrUnknownMode (m : string)
| ErrBuildFailed (e : BuildError)
| ErrLoadFailed (msg : string)
| ErrInstanceStartFailed (msg : string)
| ErrNotRunning (s : EngineStatus).

Definition setStatus (s : EngineStatus) (e : Engine) : Engine :=
  {| config := config e; clientConfig := clientConfig e; mode := mode e;
     logger := logger e; status := s; instance := instance e;
     stopChClosed := stopChClosed e; loader := loader e;
     jsonConfig := jsonConfig e |}.

Definition logTo (l : Level) (msg : string) (e : Engine) : Engine :=
  {| config := config e; clientConfig := clientConfig e; mode := mode e;
     logger := (logger e ++ [(l, msg)])%list; status := status e;
     instance := instance e; stopChClosed := stopChClosed e;
     loader := loader e; jsonConfig := jsonConfig e |}.

Definition setInstance (i : option XrayInstance) (e : Engine) : Engine :=
  {| config := config e; clientConfig := clientConfig e; mode := mode e;
     logger := logger e; status := status e; instance := i;
     stopChClosed := stopChClosed e; loader := loader e;
     jsonConfig := jsonConfig e |}.

Definition setJSONConfig (j : string) (e : Engine) : Engine :=
  {| config := config e; clientConfig := clientConfig e; mode := mode e;
     logger := logger e; status := status e; instance := instance e;
     stopChClosed := stopChClosed e; loader := loader e;
     jsonConfig := Some j |}.

(** [close(e.stopCh)] followed, at the end of [Stop], by a fresh channel:
    the count of the channels closed so far. *)
Definition closeStopCh (e : Engine) : Engine :=
  {| config := config e; clientConfig := clientConfig e; mode := mode e;
     logger := logger e; status := status e; instance := instance e;
     stopChClosed := S (stopChClosed e); loader := loader e;
     jsonConfig := jsonConfig e |}.

(** [NewEngine] and [NewClientEngine]; [defaultLoader] is the package
    variable the build tags set. *)
Definition NewEngine (defaultLoader : XrayLoader) (cfg : option Config)
  : result Engine EngineError :=
  match cfg with
  | None => Err ErrConfigMustNotBeNil
  | Some cfg =>
      match Validate cfg with
      | (_, Some err) => Err (ErrInvalidConfig err)
      | (cfg, None) =>
          Ok {| config := Some cfg; clientConfig := None; mode := ModeServer;
                logger := []; status := StatusStopped; instance := None;
                stopChClosed := O; loader := defaultLoader;
                jsonConfig := None |}
      end
  end.

Definition NewClientEngine (defaultLoader : XrayLoader)
    (cfg : option ClientConfig) : result Engine EngineError :=
  match cfg with
  | None => Err ErrConfigMustNotBeNil
  | Some cfg =>
      match ValidateClient cfg with
      | (_, Some err) => Err (ErrInvalidConfig err)
      | (cfg, None) =>
          Ok {| config := None; clientConfig := Some cfg; mode := ModeClient;
                logger := []; status := StatusStopped; instance := None;
                stopChClosed := O; loader := defaultLoader;
                jsonConfig := None |}
      end
  end.

(** The part of [Start] behind the [switch]: [built] is what the builder
    returned. *)
Definition startBuilt (e : Engine) (built : result string BuildError)
  : Engine * option EngineError :=
  match built with
  | Err err => (setStatus StatusError e, Some (ErrBuildFailed err))
  | Ok jsonCfg =>
      let e := setJSONConfig jsonCfg e in
      let e := logTo LDebug "xray-core JSON config generated" e in
      match loader e jsonCfg with
      | Err err => (setStatus StatusError e, Some (ErrLoadFailed err))
      | Ok inst =>
          match InstStart inst with
          | Some err =>
              (setStatus StatusError e, Some (ErrInstanceStartFailed err))
          | None =>
              let e := setInstance (Some inst) e in
              let e := setStatus StatusRunning e in
              (logTo LInfo "entropy tunnel engine is running" e, None)
          end
      end
  end.

(** [Engine.Start]: the engine as the call leaves it and the error
    returned; the outer [None] is the nil dereference of the logging call
    in an engine that holds no configuration for its mode, which the two
    constructors never build. *)
Definition Start (e : Engine) : option (Engine * option EngineError) :=
  if statusEqb (status e) StatusRunning then Some (e, Some ErrAlreadyRunning)
  else
    let e := setStatus StatusStarting e in
    match mode e with
    | ModeServer =>
        match config e with
        | None => None
        | Some cfg =>
            let e := logTo LInfo "building server config" e in
            Some (startBuilt e (BuildServerJSON (Some cfg)))
        end
    | ModeClient =>
        match clientConfig e with
        | None => None
        | Some cfg =>
            let e := logTo LInfo "building client config" e in
            Some (startBuilt e (BuildClientJSON (Some cfg)))
        end
    | ModeOther m => Some (setStatus StatusError e, Some (ErrUnknownMode m))
    end.

(** [Engine.Stop]. *)
Definition Stop (e : Engine) : Engine * option EngineError :=
  if negb (statusEqb (status e) StatusRunning)
  then (e, Some (ErrNotRunning (status e)))
  else
    let e := setStatus StatusStopping e in
    let e := logTo LInfo "stopping entropy tunnel engine" e in
    let e := closeStopCh e in
    let e :=
      match instance e with
      | Some inst =>
          match InstClose inst with
          | Some _ => logTo LError "error closing xray instance" e
          | None => e
          end
      | None => e
      end in
    let e := setInstance None e in
    let e := setStatus StatusStopped e in
    (logTo LInfo "tunnel engine stopped" e, None).

Definition Status (e : Engine) : EngineStatus := status e.

(** What the builder returns for the configuration of the engine's mode,
    [None] when the engine holds none or its mode is unknown. *)
Definition compiled (e : Engine) : option (result string BuildError) :=
  match mode e with
  | ModeServer =>
      match config e with
      | Some cfg => Some (BuildServerJSON (Some cfg))
      | None => None
      end
  | ModeClient =>
      match clientConfig e with
      | Some cfg => Some (BuildClientJSON (Some cfg))
      | None => None
      end
  | ModeOther _ => None
  end.

(** The stub loader of engine.go. *)
Definition stubInstance : XrayInstance :=
  {| InstStart := None; InstClose := None |}.

Definition stubLoader : XrayLoader :=
  fun jsonCfg =>
    if Json.Valid jsonCfg then Ok stubInstance else Err "invalid JSON config".

(** [Engine.JSONConfig]: the document cached by the last [Start] that
    compiled one; [None] is the nil slice. *)
Definition JSONConfig (e : Engine) : option string := jsonConfig e.

(** A sequence of [Start] and [Stop] calls on one engine: the engine at
    the end and what each call returned, in order; [None] when a call
    panics. *)
Inductive EngineCall : Type :=
| CallStart
| CallStop.

Fixpoint runCalls (calls : list EngineCall) (e : Engine)
  : option (Engine * list (option EngineError)) :=
  match calls with
  | [] => Some (e, [])
  | CallStart :: rest =>
      match Start e with
      | None => None
      | Some (e, err) =>
          match runCalls rest e with
          | None => None
          | Some (e, errs) => Some (e, err :: errs)
          end
      end
  | CallStop :: rest =>
      let '(e, err) := Stop e in
      match runCalls rest e with
      | None => None
      | Some (e, errs) => Some (e, err :: errs)
      end
  end.

(** The calls of a sequence that returned [nil], by kind. *)
Fixpoint succeeded (kind : EngineCall) (calls : list EngineCall)
    (errs : list (option EngineError)) : nat :=
  match calls, errs with
  | c :: calls, err :: errs =>
      let here :=
        match kind, c, err with
        | CallStart, CallStart, None => 1%nat
        | CallStop, CallStop, None => 1%nat
        | _, _, _ => O
        end in
      (here + succeeded kind calls errs)%nat
  | _, _ => O
  end.

End Tunnel.

(** ** internal/rotation: controllers and health monitor *)

Module Rotation.

(** *** controller.go *)

Record Endpoint : Type := {
  ID : string;
  Address : string;
  Region : string;
  Provider : string;
  CreatedAt : Z;
  ExpiresAt : Z;
  Metadata : list (string * string)
}.

Definition hour : Z := 3600 * 1000000000.

(** [Endpoint.IsExpired] when the clock reads [now]. *)
Definition IsExpired (now : Z) (e : Endpoint) : bool := ExpiresAt e <? now.

Inductive RetireError : Type :=
| ErrEndpointNotFound (id : string).

Record NoOpController : Type := {
  endpoints : list Endpoint;
  logger : list LogEntry;
  stopChClosed : nat;
  counter : Z
}.

Definition NewNoOpController : NoOpController :=
  {| endpoints := []; logger := []; stopChClosed := O; counter := 0 |}.

(** [NoOpController.Rotate]; [t1] and [t2] are the two readings of the
    clock. *)
Definition Rotate (t1 t2 : Z) (c : NoOpController)
  : NoOpController * Endpoint :=
  let counter := GoInt.add (counter c) 1 in
  let ep :=
    {| ID := "noop-" ++ GoStr.Itoa counter;
       Address := "127.0.0.1:" ++ GoStr.Itoa (GoInt.add 10000 counter);
       Region := "local";
       Provider := "noop";
       CreatedAt := t1;
       ExpiresAt := t2 + hour;
       Metadata := [] |} in
  ({| endpoints := (endpoints c ++ [ep])%list;
      logger := (logger c ++ [(LInfo, "rotated endpoint (noop)")])%list;
      stopChClosed := stopChClosed c;
      counter := counter |},
   ep).

(** The loop of the three [Retire] methods: the list without the first
    endpoint whose [ID] is [id], [None] when there is none. *)
Fixpoint removeFirst (id : string) (l : list Endpoint) : option (list Endpoint) :=
  match l with
  | [] => None
  | e :: rest =>
      if String.eqb (ID e) id then Some rest
      else
        match removeFirst id rest with
        | Some rest' => Some (e :: rest')
        | None => None
        end
  end.

(** [NoOpController.Retire]. *)
Definition Retire (c : NoOpController) (ep : Endpoint)
  : NoOpController * option RetireError :=
  match removeFirst (ID ep) (endpoints c) with
  | Some rest =>
      ({| endpoints := rest;
          logger := (logger c ++ [(LInfo, "retired endpoint (noop)")])%list;
          stopChClosed := stopChClosed c;
          counter := counter c |},
       None)
  | None => (c, Some (ErrEndpointNotFound (ID ep)))
  end.

(** [NoOpController.ActiveEndpoints] when the clock reads [now]. *)
Definition ActiveEndpoints (now : Z) (c : NoOpController) : list Endpoint :=
  List.filter (fun ep => negb (IsExpired now ep)) (endpoints c).

(** One tick of the goroutine of [NoOpController.StartAutoRotation]:
    [Rotate], then a goroutine [Retire(ep)] for every endpoint that has
    expired when the list is scanned.  The result is the controller after
    the tick and the endpoints handed to the goroutines started, in
    order.  [Rotate] of this controller returns no error, so the branch
    that logs one is never taken.  [CloudflareController] and
    [AWSController] embed [NoOpController] and do not redefine the
    method. *)
Definition autoRotationTick (tRotate tScan : Z) (c : NoOpController)
  : NoOpController * list Endpoint :=
  let '(c, _) := Rotate tRotate tRotate c in
  (c, List.filter (IsExpired tScan) (endpoints c)).

(** A goroutine started by the tick: [_ = c.Retire(ctx, ep)]. *)
Definition runRetire (ep : Endpoint) (c : NoOpController) : NoOpController :=
  fst (Retire c ep).

(** The ticks at the readings [ticks], no goroutine having run yet: the
    controller and the goroutines pending. *)
Fixpoint autoRotationTicks (ticks : list Z) (c : NoOpController)
    (pending : list Endpoint) : NoOpController * list Endpoint :=
  match ticks with
  | [] => (c, pending)
  | t :: rest =>
      let '(c, spawned) := autoRotationTick t t c in
      autoRotationTicks rest c (pending ++ spawned)
  end.

(** *** cloudflare.go and aws.go: [Retire] *)

Record CloudflareController : Type := {
  cfBase : NoOpController;
  apiToken : string;
  accountID : string;
  zoneID : string
}.

Record AWSController : Type := {
  awsBase : NoOpController;
  region : string;
  accessKey : string;
  secretKey : string
}.

Definition dropFirst (id : string) (c : NoOpController) : NoOpController :=
  match removeFirst id (endpoints c) with
  | Some rest =>
      {| endpoints := rest; logger := logger c;
         stopChClosed := stopChClosed c; counter := counter c |}
  | None => c
  end.

Definition logBase (l : Level) (msg : string) (c : NoOpController)
  : NoOpController :=
  {| endpoints := endpoints c; logger := (logger c ++ [(l, msg)])%list;
     stopChClosed := stopChClosed c; counter := counter c |}.

(** [CloudflareController.Retire]; [deleteWorker] is what the provider
    call returns for a worker name ([None] for [nil]). *)
Definition CloudflareRetire (deleteWorker : string -> option string)
    (c : CloudflareController) (ep : Endpoint)
  : CloudflareController * option RetireError :=
  if negb (String.eqb (Provider ep) "cloudflare") then
    let '(b, err) := Retire (cfBase c) ep in
    ({| cfBase := b; apiToken := apiToken c; accountID := accountID c;
        zoneID := zoneID c |}, err)
  else
    let b := logBase LInfo "retiring cloudflare worker" (cfBase c) in
    let b :=
      match deleteWorker (ID ep) with
      | Some _ => logBase LWarn "failed to delete worker (may not exist)" b
      | None => b
      end in
    ({| cfBase := dropFirst (ID ep) b; apiToken := apiToken c;
        accountID := accountID c; zoneID := zoneID c |}, None).

(** [AWSController.Retire]. *)
Definition AWSRetire (deleteFunction : string -> option string)
    (a : AWSController) (ep : Endpoint)
  : AWSController * option RetireError :=
  if negb (String.eqb (Provider ep) "aws") then
    let '(b, err) := Retire (awsBase a) ep in
    ({| awsBase := b; region := region a; accessKey := accessKey a;
        secretKey := secretKey a |}, err)
  else
    let b := logBase LInfo "retiring aws lambda" (awsBase a) in
    let b :=
      match deleteFunction (ID ep) with
      | Some _ => logBase LWarn "failed to delete lambda" b
      | None => b
      end in
    ({| awsBase := dropFirst (ID ep) b; region := region a;
        accessKey := accessKey a; secretKey := secretKey a |}, None).

(** *** health.go *)

Record HealthResult : Type := {
  EndpointID : string;
  Healthy : bool;
  Latency : Z;
  LastCheck : Z;
  FailCount : Z;
  Error : string
}.

(** What one probe meets: the clock when the result is created, the time
    the probe takes, and what [probeHTTPS] and [probeTCP] return for an
    address ([None] for [nil], else the text of the error). *)
Record ProbeEnv : Type := {
  clock : Z;
  elapsed : Z;
  probeHTTPS : string -> option string;
  probeTCP : string -> option string
}.

Record HealthChecker : Type := {
  results : gmap string HealthResult;
  hcLogger : list LogEntry
}.

Definition NewHealthChecker : HealthChecker :=
  {| results := ∅; hcLogger := [] |}.

Definition probeOutcome (env : ProbeEnv) (ep : Endpoint) : option string :=
  if String.eqb (Provider ep) "cloudflare" then probeHTTPS env (Address ep)
  else if String.eqb (Provider ep) "aws" then probeHTTPS env (Address ep)
  else probeTCP env (Address ep).

(** [HealthChecker.checkEndpoint]. *)
Definition checkEndpoint (hc : HealthChecker) (env : ProbeEnv) (ep : Endpoint)
  : HealthResult :=
  let failCount :=
    match results hc !! ID ep with
    | Some prev => FailCount prev
    | None => 0
    end in
  match probeOutcome env ep with
  | Some err =>
      {| EndpointID := ID ep; Healthy := false; Latency := elapsed env;
         LastCheck := clock env; FailCount := GoInt.add failCount 1;
         Error := err |}
  | None =>
      {| EndpointID := ID ep; Healthy := true; Latency := elapsed env;
         LastCheck := clock env; FailCount := 0; Error := "" |}
  end.

(** The goroutine [checkAll] starts for an endpoint that keeps failing:
    [Retire(ep)], then [Rotate()], both results dropped. *)
Inductive Task : Type :=
| RetireThenRotate (ep : Endpoint).

(** The body of the loop of [checkAll] for one endpoint: the checker
    afterwards and the goroutines started. *)
Definition checkOne (env : ProbeEnv) (hc : HealthChecker) (ep : Endpoint)
  : HealthChecker * list Task :=
  let result := checkEndpoint hc env ep in
  let stored := <[ID ep := result]> (results hc) in
  if Healthy result then ({| results := stored; hcLogger := hcLogger hc |}, [])
  else
    let logged := (hcLogger hc ++ [(LWarn, "endpoint unhealthy")])%list in
    if 3 <=? FailCount result then
      ({| results := stored;
          hcLogger :=
            (logged ++ [(LInfo, "triggering rotation due to unhealthy endpoint")])%list |},
       [RetireThenRotate ep])
    else ({| results := stored; hcLogger := logged |}, []).

(** [HealthChecker.checkAll] over the list [ActiveEndpoints] returned;
    [envs] gives what each probe meets, in order. *)
Fixpoint checkAll (probes : list (Endpoint * ProbeEnv)) (hc : HealthChecker)
  : HealthChecker * list Task :=
  match probes with
  | [] => (hc, [])
  | (ep, env) :: rest =>
      let '(hc, started) := checkOne env hc ep in
      let '(hc, more) := checkAll rest hc in
      (hc, (started ++ more)%list)
  end.

(** The rounds of the monitor's ticker, in order: the number of probes
    made, and the checker and the goroutines started at the end. *)
Definition probeCount (rounds : list (list (Endpoint * ProbeEnv))) : nat :=
  length (concat rounds).

Fixpoint runRounds (rounds : list (list (Endpoint * ProbeEnv)))
    (hc : HealthChecker) : HealthChecker * list Task :=
  match rounds with
  | [] => (hc, [])
  | probes :: rest =>
      let '(hc, started) := checkAll probes hc in
      let '(hc, more) := runRounds rest hc in
      (hc, (started ++ more)%list)
  end.

(** The counter of the last result stored for [id], [0] when there is
    none: what [checkEndpoint] starts from. *)
Definition previousFailCount (hc : HealthChecker) (id : string) : Z :=
  match results hc !! id with
  | Some prev => FailCount prev
  | None => 0
  end.

(** After at most [n] probes every stored counter lies in [0, n], and it
    is [0] exactly when the stored result is healthy. *)
Definition countersWithin (n : Z) (hc : HealthChecker) : Prop :=
  forall id r, results hc !! id = Some r ->
    0 <= FailCount r <= n /\ (FailCount r = 0 <-> Healthy r = true).

(** No endpoint of [l] has the identifier [id]. *)
Definition unknownID (id : string) (l : list Endpoint) : Prop :=
  Forall (fun e => ID e <> id) l.

(** What a goroutine of the monitor does to a [NoOpController]. *)
Definition runTask (t1 t2 : Z) (t : Task) (c : NoOpController) : NoOpController :=
  match t with
  | RetireThenRotate ep => fst (Rotate t1 t2 (fst (Retire c ep)))
  end.

(** *** controller.go: sequences of calls on one controller *)

Inductive NoOpCall : Type :=
| CallRotate (t1 t2 : Z)
| CallRetire (ep : Endpoint).

Fixpoint runNoOp (calls : list NoOpCall) (c : NoOpController) : NoOpController :=
  match calls with
  | [] => c
  | CallRotate t1 t2 :: rest => runNoOp rest (fst (Rotate t1 t2 c))
  | CallRetire ep :: rest => runNoOp rest (fst (Retire c ep))
  end.

Fixpoint rotations (calls : list NoOpCall) : nat :=
  match calls with
  | [] => O
  | CallRotate _ _ :: rest => S (rotations rest)
  | CallRetire _ :: rest => rotations rest
  end.

(** *** cloudflare.go and aws.go: [Rotate] *)

Inductive RotateError : Type :=
| ErrDeployWorker (name err : string)
| ErrCreateLambda (name err : string)
| ErrCreateFunctionURL (name err : string).

(** [time.Time.Unix]: whole seconds. *)
Definition unixSeconds (t : Z) : Z := t / 1000000000.

Definition setBase (l : list Endpoint) (n : Z) (c : NoOpController)
  : NoOpController :=
  {| endpoints := l; logger := logger c; stopChClosed := stopChClosed c;
     counter := n |}.

(** [CloudflareController.Rotate]: [deployWorker] is what the provider
    call returns for a worker name; [tName], [t1] and [t2] are the three
    readings of the clock. *)
Definition CloudflareRotate (deployWorker : string -> option string)
    (tName t1 t2 : Z) (c : CloudflareController)
  : CloudflareController * result Endpoint RotateError :=
  let counter := GoInt.add (counter (cfBase c)) 1 in
  let workerName :=
    "entropy-worker-" ++ GoStr.Itoa (unixSeconds tName) ++ "-"
    ++ GoStr.Itoa counter in
  let b := setBase (endpoints (cfBase c)) counter (cfBase c) in
  let b := logBase LInfo "deploying new cloudflare worker" b in
  match deployWorker workerName with
  | Some err =>
      ({| cfBase := b; apiToken := apiToken c; accountID := accountID c;
          zoneID := zoneID c |},
       Err (ErrDeployWorker workerName err))
  | None =>
      let ep :=
        {| ID := workerName;
           Address := workerName ++ ".workers.dev";
           Region := "global";
           Provider := "cloudflare";
           CreatedAt := t1;
           ExpiresAt := t2 + hour;
           Metadata := [("type", "workers"); ("worker_name", workerName)] |} in
      let b := setBase (endpoints b ++ [ep])%list (counter) b in
      let b := logBase LInfo "cloudflare worker deployed" b in
      ({| cfBase := b; apiToken := apiToken c; accountID := accountID c;
          zoneID := zoneID c |},
       Ok ep)
  end.

(** The calls [AWSController.Rotate] makes to the provider. *)
Inductive AWSCall : Type :=
| CreateFunction (name : string)
| CreateFunctionURL (name : string)
| DeleteFunction (name : string).

Record AWSProvider : Type := {
  createFunction : string -> option string;
  createFunctionURL : string -> result string string;
  deleteFunction : string -> option string
}.

(** [AWSController.Rotate]: the controller afterwards, what is returned
    and the provider calls made, in order. *)
Definition AWSRotate (provider : AWSProvider) (tName t1 t2 : Z)
    (a : AWSController)
  : AWSController * result Endpoint RotateError * list AWSCall :=
  let counter := GoInt.add (counter (awsBase a)) 1 in
  let functionName :=
    "entropy-lambda-" ++ GoStr.Itoa (unixSeconds tName) ++ "-"
    ++ GoStr.Itoa counter in
  let b := setBase (endpoints (awsBase a)) counter (awsBase a) in
  let b := logBase LInfo "deploying new aws lambda" b in
  let with_ b :=
    {| awsBase := b; region := region a; accessKey := accessKey a;
       secretKey := secretKey a |} in
  match createFunction provider functionName with
  | Some err =>
      (with_ b, Err (ErrCreateLambda functionName err),
       [CreateFunction functionName])
  | None =>
      match createFunctionURL provider functionName with
      | Err err =>
          (with_ b, Err (ErrCreateFunctionURL functionName err),
           [CreateFunction functionName; CreateFunctionURL functionName;
            DeleteFunction functionName])
      | Ok funcURL =>
          let ep :=
            {| ID := functionName;
               Address := funcURL;
               Region := region a;
               Provider := "aws";
               CreatedAt := t1;
               ExpiresAt := t2 + hour;
               Metadata := [("function_name", functionName); ("type", "lambda")] |} in
          let b := setBase (endpoints b ++ [ep])%list counter b in
          let b := logBase LInfo "aws lambda deployed" b in
          (with_ b, Ok ep,
           [CreateFunction functionName; CreateFunctionURL functionName])
      end
  end.

(** The identifiers the monitor has probed in [rounds]. *)
Definition probedIDs (rounds : list (list (Endpoint * ProbeEnv))) : list string :=
  map (fun p => ID (fst p)) (concat rounds).

(** *** controller.go: the auto-rotation with the goroutines it starts *)










End Rotation.

(** ** internal/api: the control surface *)

Module Api.

Record Server : Type := {
  addr : string;
  engine : Tunnel.Engine;
  logger : list LogEntry;
  connected : bool;
  sportsMode : bool;
  startTime : option Z;
  bytesSent : Z;
  bytesRecv : Z
}.

Definition NewServer (addr : string) (engine : Tunnel.Engine) : Server :=
  {| addr := addr; engine := engine; logger := []; connected := false;
     sportsMode := false; startTime := None; bytesSent := 0; bytesRecv := 0 |}.

(** [statusResponse]; [Uptime] is the duration in whole seconds, [None]
    when the field is left empty. *)
Record statusResponse : Type := {
  Connected : bool;
  StatusText : string;
  SportsMode : bool;
  Uptime : option Z;
  BytesSent : Z;
  BytesRecv : Z;
  ServerAddr : string
}.

Definition StatusOK : Z := 200.
Definition StatusConflict : Z := 409.
Definition StatusInternalServerError : Z := 500.

(** The text of an error body: a literal of the handler, or [err.Error()]
    of what the engine returned. *)
Inductive ErrorText : Type :=
| Literal (msg : string)
| ErrorOf (err : Tunnel.EngineError).

(** What a handler writes: the status code and the body. *)
Inductive Response : Type :=
| WriteStatus (r : statusResponse)
| WriteJSON (body : list (string * string))
| WriteError (code : Z) (msg : ErrorText).

Definition responseCode (r : Response) : Z :=
  match r with
  | WriteStatus _ | WriteJSON _ => StatusOK
  | WriteError code _ => code
  end.

(** [Server.handleStatus] when the clock reads [now]. *)
Definition handleStatus (now : Z) (s : Server) : Response :=
  let engineStatus := Tunnel.Status (engine s) in
  let isConnected := Tunnel.statusEqb engineStatus Tunnel.StatusRunning in
  WriteStatus
    {| Connected := isConnected;
       StatusText := Tunnel.statusString engineStatus;
       SportsMode := sportsMode s;
       Uptime :=
         match startTime s with
         | Some t0 =>
             if isConnected then Some ((now - t0) / 1000000000) else None
         | None => None
         end;
       BytesSent := bytesSent s;
       BytesRecv := bytesRecv s;
       ServerAddr := "" |}.

Definition setEngine (e : Tunnel.Engine) (s : Server) : Server :=
  {| addr := addr s; engine := e; logger := logger s; connected := connected s;
     sportsMode := sportsMode s; startTime := startTime s;
     bytesSent := bytesSent s; bytesRecv := bytesRecv s |}.

(** [Server.handleConnect] when the clock reads [now]; the outer [None] is
    a panic of [Engine.Start]. *)
Definition handleConnect (now : Z) (s : Server) : option (Server * Response) :=
  if connected s then Some (s, WriteError StatusConflict (Literal "already connected"))
  else
    match Tunnel.Start (engine s) with
    | None => None
    | Some (e, Some err) =>
        Some (setEngine e s, WriteError StatusInternalServerError (ErrorOf err))
    | Some (e, None) =>
        Some ({| addr := addr s; engine := e;
                 logger := (logger s ++ [(LInfo, "tunnel connected via API")])%list;
                 connected := true; sportsMode := sportsMode s;
                 startTime := Some now; bytesSent := bytesSent s;
                 bytesRecv := bytesRecv s |},
              WriteJSON [("status", "connected")])
    end.

(** [Server.handleDisconnect]. *)
Definition handleDisconnect (s : Server) : Server * Response :=
  if negb (connected s) then (s, WriteError StatusConflict (Literal "not connected"))
  else
    match Tunnel.Stop (engine s) with
    | (e, Some err) =>
        (setEngine e s, WriteError StatusInternalServerError (ErrorOf err))
    | (e, None) =>
        ({| addr := addr s; engine := e;
            logger := (logger s ++ [(LInfo, "tunnel disconnected via API")])%list;
            connected := false; sportsMode := sportsMode s;
            startTime := None; bytesSent := bytesSent s;
            bytesRecv := bytesRecv s |},
         WriteJSON [("status", "disconnected")])
    end.

(** The cached flag agrees with the engine. *)
Definition inSync (s : Server) : Prop :=
  connected s = Tunnel.statusEqb (Tunnel.Status (engine s)) Tunnel.StatusRunning.

(** The loop of [FormatBytes]: [n] is the loop variable, [div] and [exp]
    the two accumulators; [fuel] bounds the iterations. *)
Fixpoint formatLoop (fuel : nat) (n div exp : Z) : option (Z * Z) :=
  match fuel with
  | O => None
  | S fuel =>
      if 1024 <=? n
      then formatLoop fuel (n / 1024) (GoInt.wrap (div * 1024)) (GoInt.add exp 1)
      else Some (div, exp)
  end.

(** [FormatBytes] for an [int64] [b]; [sprintf1f b div] is the text the
    verb [%.1f] writes for [float64(b)/float64(div)].  [None] is a run
    that does not return: an index out of the range of the unit letters,
    or a loop that has not stopped after 64 rounds. *)
Definition FormatBytes (sprintf1f : Z -> Z -> string) (b : Z) : option string :=
  if b <? 1024 then Some (GoStr.Itoa b ++ " B")
  else
    match formatLoop 64 (b / 1024) 1024 0 with
    | None => None
    | Some (div, exp) =>
        if (0 <=? exp) && (exp <? 6) then
          match String.get (Z.to_nat exp) "KMGTPE" with
          | Some letter =>
              Some (sprintf1f b div ++ " " ++ String letter "B")
          | None => None
          end
        else None
    end.

End Api.

(** ** internal/camouflage: the fingerprint table *)

Module Camouflage.

(** [SupportedFingerprints]: the entries of the map literal. *)
Definition SupportedFingerprints : list (string * string) :=
  [("chrome", "HelloChrome_Auto");
   ("chrome-120", "HelloChrome_120");
   ("chrome-115", "HelloChrome_115");
   ("firefox", "HelloFirefox_Auto");
   ("firefox-121", "HelloFirefox_121");
   ("firefox-120", "HelloFirefox_120");
   ("safari", "HelloSafari_Auto");
   ("edge", "HelloEdge_Auto");
   ("ios", "HelloIOS_Auto");
   ("android", "HelloAndroid_11_OkHttp");
   ("random", "HelloRandomized");
   ("randomized", "HelloRandomizedALPN")].

Fixpoint mapLookup (name : string) (m : list (string * string)) : option string :=
  match m with
  | [] => None
  | (k, v) :: rest => if String.eqb k name then Some v else mapLookup name rest
  end.

Inductive FingerprintError : Type :=
| ErrUnsupportedFingerprint (name : string).

(** [SelectFingerprint]. *)
Definition SelectFingerprint (name : string) : result string FingerprintError :=
  match mapLookup name SupportedFingerprints with
  | Some fp => Ok fp
  | None => Err (ErrUnsupportedFingerprint name)
  end.

End Camouflage.

(** ** cmd/entropy-server: the commands *)

Module EntropyServer.

Inductive RunError : Type :=
| ErrCreateLogger (msg : string)
| ErrLoadConfig (msg : string)
| ErrCreateEngine (e : Tunnel.EngineError)
| ErrStartEngine (e : Tunnel.EngineError)
| ErrBuild (e : Tunnel.BuildError).

(** [runServer]: [NewProduction] is the error [zap.NewProduction]
    returns ([None] for [nil]), [LoadConfig] what reading and parsing
    the file gives.  [Ok (serving, final)] is a run that reached the
    wait for a signal: [serving] is the engine during the wait, [final]
    the engine after the [Stop] that follows the signal, whose error is
    only logged.  The outer [None] is a panic of [Engine.Start]. *)
Definition runServer (NewProduction : option string)
    (LoadConfig : string -> result Tunnel.Config string)
    (defaultLoader : Tunnel.XrayLoader) (configPath : string)
  : option (result (Tunnel.Engine * Tunnel.Engine) RunError) :=
  match NewProduction with
  | Some msg => Some (Err (ErrCreateLogger msg))
  | None =>
      match LoadConfig configPath with
      | Err msg => Some (Err (ErrLoadConfig msg))
      | Ok cfg =>
          match Tunnel.NewEngine defaultLoader (Some cfg) with
          | Err e => Some (Err (ErrCreateEngine e))
          | Ok engine =>
              match Tunnel.Start engine with
              | None => None
              | Some (_, Some e) => Some (Err (ErrStartEngine e))
              | Some (engine, None) =>
                  Some (Ok (engine, fst (Tunnel.Stop engine)))
              end
          end
      end
  end.

(** [showConfig]: the text printed. *)
Definition showConfig (LoadConfig : string -> result Tunnel.Config string)
    (configPath : string) : result string RunError :=
  match LoadConfig configPath with
  | Err msg => Err (ErrLoadConfig msg)
  | Ok cfg =>
      match Tunnel.BuildServerJSON (Some cfg) with
      | Err e => Err (ErrBuild e)
      | Ok jsonBytes => Ok jsonBytes
      end
  end.

End EntropyServer.

(** ** cmd/entropy-client: the commands *)

Module EntropyClient.

Inductive RunError : Type :=
| ErrCreateLogger (msg : string)
| ErrLoadConfig (msg : string)
| ErrInvalidConfiguration (e : Tunnel.ValidateError)
| ErrFingerprint (e : Camouflage.FingerprintError)
| ErrCreateEngine (e : Tunnel.EngineError)
| ErrStartTunnel (e : Tunnel.EngineError)
| ErrConfigRequired
| ErrBuild (e : Tunnel.BuildError).

(** The configuration [runClient] works with: the file when a path is
    given, else the values of the flags. *)
Definition clientConfigOf
    (LoadClientConfig : string -> result Tunnel.ClientConfig string)
    (configPath server uuid sni fingerprint publicKey shortID localListen
       apiListen : string) (sportsMode : bool)
  : result Tunnel.ClientConfig RunError :=
  if negb (String.eqb configPath "") then
    match LoadClientConfig configPath with
    | Err msg => Err (ErrLoadConfig msg)
    | Ok cfg => Ok cfg
    end
  else
    Ok {| Tunnel.Server := server; Tunnel.CUUID := uuid; Tunnel.CSNI := sni;
          Tunnel.CFingerprint := fingerprint; Tunnel.PublicKey := publicKey;
          Tunnel.ShortID := shortID; Tunnel.LocalListen := localListen;
          Tunnel.HTTPListen := ""; Tunnel.CLogLevel := "";
          Tunnel.CSportsMode := sportsMode; Tunnel.APIListen := apiListen |}.

(** [runClient] up to the wait for a signal: the engine and the API
    server at that point.  [NewProduction] is the error
    [zap.NewProduction] returns ([None] for [nil]).  The outer [None]
    is a panic of [Engine.Start]. *)
Definition runClient (NewProduction : option string)
    (LoadClientConfig : string -> result Tunnel.ClientConfig string)
    (defaultLoader : Tunnel.XrayLoader)
    (configPath server uuid sni fingerprint publicKey shortID localListen
       apiListen : string) (sportsMode : bool)
  : option (result (Tunnel.Engine * Api.Server) RunError) :=
  match NewProduction with
  | Some msg => Some (Err (ErrCreateLogger msg))
  | None =>
      match clientConfigOf LoadClientConfig configPath server uuid sni
              fingerprint publicKey shortID localListen apiListen
              sportsMode with
      | Err e => Some (Err e)
      | Ok cfg =>
          match Tunnel.ValidateClient cfg with
          | (_, Some err) => Some (Err (ErrInvalidConfiguration err))
          | (cfg, None) =>
              match Camouflage.SelectFingerprint (Tunnel.CFingerprint cfg) with
              | Err e => Some (Err (ErrFingerprint e))
              | Ok _ =>
                  match Tunnel.NewClientEngine defaultLoader (Some cfg) with
                  | Err e => Some (Err (ErrCreateEngine e))
                  | Ok engine =>
                      match Tunnel.Start engine with
                      | None => None
                      | Some (_, Some e) => Some (Err (ErrStartTunnel e))
                      | Some (engine, None) =>
                          Some (Ok (engine,
                                    Api.NewServer (Tunnel.APIListen cfg)
                                      engine))
                      end
                  end
              end
          end
      end
  end.

(** The [show-config] command: the text printed. *)
Definition showConfig
    (LoadClientConfig : string -> result Tunnel.ClientConfig string)
    (configPath : string) : result string RunError :=
  if String.eqb configPath "" then Err ErrConfigRequired
  else
    match LoadClientConfig configPath with
    | Err msg => Err (ErrLoadConfig msg)
    | Ok cfg =>
        match Tunnel.BuildClientJSON (Some cfg) with
        | Err e => Err (ErrBuild e)
        | Ok jsonBytes => Ok jsonBytes
        end
    end.

End EntropyClient.

(** ** Configurations and engines used as concrete inputs *)

Module Samples.

Import Tunnel.

Definition noRotation : RotationConfig :=
  {| RotEnabled := false; RotProvider := ""; RotInterval := "";
     CFAPIToken := ""; CFAccountID := ""; CFZoneID := ""; AWSRegion := "";
     AWSKey := ""; AWSSecret := "" |}.

Definition noPayment : PaymentConfig :=
  {| PayEnabled := false; BTCPayURL := ""; BTCPayKey := ""; StoreID := "" |}.

(** The server configuration of [TestEngineStartStop], with the defaults
    [Validate] sets, listening on [listen] with the fallbacks [fbs]. *)
Definition server (listen : string) (fbs : list FallbackConfig) : Config :=
  {| Listen := listen; Protocol := "vless"; UUID := "test-uuid";
     Reality := {| SNI := "www.google.com"; PrivateKey := "key";
                   RealityPublicKey := ""; ShortIDs := [] |};
     Fingerprint := "chrome"; Fallbacks := fbs; LogLevel := "";
     SportsMode := false; Rotation := noRotation; Payment := noPayment |}.

Definition wsFallback (listen : string) : FallbackConfig :=
  {| FbProtocol := "trojan"; FbListen := listen; FbTransport := "ws";
     FbPath := "/ws" |}.

(** The client configuration of [TestBuildClientJSON_WithHTTPListen], with
    the defaults [Validate] sets. *)
Definition client (server local http : string) : ClientConfig :=
  {| Server := server; CUUID := "u"; CSNI := "g.com"; CFingerprint := "chrome";
     PublicKey := "pk"; ShortID := ""; LocalListen := local; HTTPListen := http;
     CLogLevel := ""; CSportsMode := false; APIListen := "127.0.0.1:9876" |}.

(** A server engine with the stub loader in the given status, no
    instance held. *)
Definition serverEngine (st : EngineStatus) (listen : string) : Engine :=
  {| config := Some (server listen []); clientConfig := None;
     mode := ModeServer; logger := []; status := st; instance := None;
     stopChClosed := O; loader := stubLoader; jsonConfig := None |}.

(** A running engine that holds the instance [inst]. *)
Definition runningEngine (inst : XrayInstance) : Engine :=
  {| config := Some (server ":443" []); clientConfig := None;
     mode := ModeServer; logger := []; status := StatusRunning;
     instance := Some inst; stopChClosed := O; loader := fun _ => Ok inst;
     jsonConfig := None |}.

Definition endpoint (id provider : string) : Rotation.Endpoint :=
  {| Rotation.ID := id; Rotation.Address := "203.0.113.7:443";
     Rotation.Region := "global"; Rotation.Provider := provider;
     Rotation.CreatedAt := 0; Rotation.ExpiresAt := Rotation.hour;
     Rotation.Metadata := [] |}.

Definition cloudflare : Rotation.CloudflareController :=
  {| Rotation.cfBase := Rotation.NewNoOpController;
     Rotation.apiToken := "token"; Rotation.accountID := "account";
     Rotation.zoneID := "zone" |}.

Definition aws : Rotation.AWSController :=
  {| Rotation.awsBase := Rotation.NewNoOpController;
     Rotation.region := "us-east-1"; Rotation.accessKey := "key";
     Rotation.secretKey := "secret" |}.

(** A provider whose delete call fails for every name. *)
Definition failingProvider : string -> option string :=
  fun _ => Some "404 Not Found".

(** A probe that fails, however the endpoint is probed. *)
Definition deadProbe (now : Z) : Rotation.ProbeEnv :=
  {| Rotation.clock := now; Rotation.elapsed := 5;
     Rotation.probeHTTPS := fun _ => Some "HTTPS probe failed";
     Rotation.probeTCP := fun _ => Some "TCP probe failed" |}.

Definition minute : Z := 60 * 1000000000.

(** Three rounds of the monitor, each probing one dead endpoint. *)
Definition deadRounds : list (list (Rotation.Endpoint * Rotation.ProbeEnv)) :=
  [[(endpoint "noop-1" "noop", deadProbe 0)];
   [(endpoint "noop-1" "noop", deadProbe minute)];
   [(endpoint "noop-1" "noop", deadProbe (2 * minute))]].


End Samples.

(** * Properties *)

Local Open Scope list_scope.

(** ** Go integers and strings *)

Lemma wrap_small z :
  GoInt.min_int <= z <= GoInt.max_int -> GoInt.wrap z = z.
Proof.
  unfold GoInt.wrap, GoInt.min_int, GoInt.max_int. intros H.
  rewrite Z.mod_small by lia. lia.
Qed.

Lemma wrap_range z : GoInt.min_int <= GoInt.wrap z <= GoInt.max_int.
Proof.
  unfold GoInt.wrap, GoInt.min_int, GoInt.max_int.
  pose proof (Z.mod_pos_bound (z + 2 ^ 63) (2 ^ 64)). lia.
Qed.

Example Atoi_samples :
  GoStr.Atoi "443" = Some 443 /\ GoStr.Atoi "-12" = Some (-12) /\
  GoStr.Atoi "+7" = Some 7 /\ GoStr.Atoi "" = None /\ GoStr.Atoi "-" = None /\
  GoStr.Atoi "4a" = None /\ GoStr.Atoi "9223372036854775808" = None.
Proof. repeat split; reflexivity. Qed.

Example Itoa_samples :
  GoStr.Itoa 0 = "0" /\ GoStr.Itoa 443 = "443" /\ GoStr.Itoa (-8) = "-8".
Proof. repeat split; reflexivity. Qed.

Example LastIndex_samples :
  GoStr.LastIndex "127.0.0.1:1080" ":" = 9 /\
  GoStr.LastIndex "noport" ":" = -1 /\ GoStr.LastIndex "[::1]:80" ":" = 5.
Proof. repeat split; reflexivity. Qed.

(** The cases of [TestSplitHostPort]. *)
Example splitHostPort_samples :
  Tunnel.splitHostPort ":443" = Ok ("0.0.0.0", 443) /\
  Tunnel.splitHostPort ":8080" = Ok ("0.0.0.0", 8080) /\
  Tunnel.splitHostPort "127.0.0.1:1080" = Ok ("127.0.0.1", 1080) /\
  Tunnel.splitHostPort "" = Err Tunnel.ErrEmptyAddress /\
  Tunnel.splitHostPort "noport" = Err (Tunnel.ErrNoPort "noport").
Proof. repeat split; reflexivity. Qed.

(** ** Validation *)

Lemma Validate_fixpoint (c : Tunnel.Config) :
  Tunnel.Validate c = (c, None) -> Tunnel.validated c.
Proof. intros H. exists c. exact H. Qed.

Lemma ValidateClient_fixpoint (c : Tunnel.ClientConfig) :
  Tunnel.ValidateClient c = (c, None) -> Tunnel.validatedClient c.
Proof. intros H. exists c. exact H. Qed.

Lemma validated_sample_server listen fbs :
  listen <> "" -> Tunnel.validated (Samples.server listen fbs).
Proof.
  intros Hne. apply Validate_fixpoint.
  unfold Tunnel.Validate. cbn [Tunnel.Listen Samples.server].
  destruct (String.eqb_spec listen "") as [->|_]; [congruence|].
  reflexivity.
Qed.

Lemma validated_sample_client srv local http :
  srv <> "" -> local <> "" ->
  Tunnel.validatedClient (Samples.client srv local http).
Proof.
  intros Hs Hl. apply ValidateClient_fixpoint.
  unfold Tunnel.ValidateClient.
  cbn [Tunnel.Server Tunnel.LocalListen Samples.client].
  destruct (String.eqb_spec srv "") as [->|_]; [congruence|].
  destruct (String.eqb_spec local "") as [->|_]; [congruence|].
  reflexivity.
Qed.

(** ** The configuration compiler *)

Section Builder.

Import Tunnel.

Lemma parses_inv addr :
  parses addr -> exists host port, splitHostPort addr = Ok (host, port).
Proof.
  unfold parses. destruct (splitHostPort addr) as [[h p]|e]; [eauto|discriminate].
Qed.

Lemma not_parses_inv addr :
  ~ parses addr -> exists e, splitHostPort addr = Err e.
Proof.
  unfold parses. destruct (splitHostPort addr) as [hp|e]; [|eauto].
  intros H. exfalso. apply H. reflexivity.
Qed.

Lemma parses_dec addr : {parses addr} + {~ parses addr}.
Proof.
  unfold parses. destruct (isOk (splitHostPort addr)); [left|right]; congruence.
Qed.

(** The loop over the fallbacks keeps what it is given and appends one
    inbound per binding, in order, each tagged with its index. *)
Lemma addFallbacks_ok fbs : forall i acc,
  Forall (fun fb => parses (FbListen fb)) fbs ->
  exists added,
    addFallbacks i fbs acc = Ok (acc ++ added) /\
    length added = length fbs /\
    map (fun i => (InTag i, InProtocol i)) added = fallbackLabels i fbs.
Proof.
  induction fbs as [|fb fbs IH]; intros i acc HF.
  - exists []. cbn. rewrite app_nil_r. repeat split.
  - apply Forall_cons in HF as [Hfb HF].
    destruct (parses_inv _ Hfb) as (h & p & Hhp).
    destruct (IH (i + 1) (acc ++ [fallbackInbound i fb h p]) HF)
      as (added & Hadd & Hlen & Hlab).
    exists (fallbackInbound i fb h p :: added). cbn [addFallbacks].
    rewrite Hhp, Hadd, <- app_assoc. cbn [app length map fallbackLabels].
    rewrite Hlen, Hlab. repeat split.
Qed.

Lemma addFallbacks_err fbs : forall i acc,
  ~ Forall (fun fb => parses (FbListen fb)) fbs ->
  exists e, addFallbacks i fbs acc = Err (ErrInvalidFallbackListen e).
Proof.
  induction fbs as [|fb fbs IH]; intros i acc HF.
  - exfalso. apply HF. constructor.
  - cbn [addFallbacks]. destruct (parses_dec (FbListen fb)) as [Hp|Hn].
    + destruct (parses_inv _ Hp) as (h & p & ->).
      apply IH. intros HF'. apply HF. constructor; assumption.
    + destruct (not_parses_inv _ Hn) as (e & ->). eauto.
Qed.

Lemma Forall_parses_dec fbs :
  {Forall (fun fb => parses (FbListen fb)) fbs} +
  {~ Forall (fun fb => parses (FbListen fb)) fbs}.
Proof. apply Forall_dec. intros fb. apply parses_dec. Qed.

End Builder.

Section BuilderShape.

Import Tunnel.

Lemma member_tag_inbound i :
  Json.member "tag" (inboundJSON i) = Some (Json.Str (InTag i)).
Proof. reflexivity. Qed.

Lemma member_protocol_inbound i :
  Json.member "protocol" (inboundJSON i) = Some (Json.Str (InProtocol i)).
Proof.
  unfold inboundJSON, strOmit. destruct (String.eqb (InListen i) ""); reflexivity.
Qed.

Lemma member_tag_outbound o :
  Json.member "tag" (outboundJSON o) = Some (Json.Str (OutTag o)).
Proof. reflexivity. Qed.

Lemma member_protocol_outbound o :
  Json.member "protocol" (outboundJSON o) = Some (Json.Str (OutProtocol o)).
Proof. reflexivity. Qed.

Lemma member_inbounds xc :
  Json.member "inbounds" (fullConfigJSON xc)
  = Some (Json.Arr (map inboundJSON (Inbounds xc))).
Proof. unfold fullConfigJSON. destruct (Log xc); reflexivity. Qed.

Lemma member_outbounds xc :
  Json.member "outbounds" (fullConfigJSON xc)
  = Some (Json.Arr (map outboundJSON (Outbounds xc))).
Proof. unfold fullConfigJSON. destruct (Log xc); reflexivity. Qed.

(** What [serverXrayConfig] builds when every address parses. *)
Lemma serverXrayConfig_ok cfg :
  parses (Listen cfg) ->
  Forall (fun fb => parses (FbListen fb)) (Fallbacks cfg) ->
  exists xc,
    serverXrayConfig cfg = Ok xc /\
    length (Inbounds xc) = S (length (Fallbacks cfg)) /\
    inboundLabels xc
    = ("vless-reality", "vless") :: fallbackLabels 0 (Fallbacks cfg) /\
    Outbounds xc = [directOutbound; blockOutbound].
Proof.
  intros HL HF. unfold serverXrayConfig.
  destruct (parses_inv _ HL) as (h & p & ->).
  match goal with
  | |- context [addFallbacks 0 _ [?x]] => set (primary := x)
  end.
  destruct (addFallbacks_ok (Fallbacks cfg) 0 [primary] HF)
    as (added & -> & Hlen & Hlab).
  eexists. split; [reflexivity|].
  unfold inboundLabels. cbn [Inbounds Outbounds app length map].
  rewrite Hlen, Hlab. repeat split.
Qed.

Lemma serverXrayConfig_err cfg :
  ~ (parses (Listen cfg) /\
     Forall (fun fb => parses (FbListen fb)) (Fallbacks cfg)) ->
  exists e, serverXrayConfig cfg = Err e /\ kindOf e = BadAddress.
Proof.
  intros H. unfold serverXrayConfig.
  destruct (parses_dec (Listen cfg)) as [HL|HL].
  - destruct (parses_inv _ HL) as (h & p & ->).
    destruct (Forall_parses_dec (Fallbacks cfg)) as [HF|HF]; [tauto|].
    match goal with
    | |- context [addFallbacks 0 _ ?acc] =>
        destruct (addFallbacks_err (Fallbacks cfg) 0 acc HF) as (e & ->)
    end.
    eexists. split; reflexivity.
  - destruct (not_parses_inv _ HL) as (e & ->). eexists. split; reflexivity.
Qed.

(** What [clientXrayConfig] builds when the local address parses. *)
Lemma clientXrayConfig_ok cfg :
  parses (LocalListen cfg) ->
  exists xc,
    clientXrayConfig cfg = Ok xc /\
    inboundLabels xc
    = (if httpListenUsable cfg
       then [("socks-in", "socks"); ("http-in", "http")]
       else [("socks-in", "socks")]) /\
    outboundLabels xc = [("proxy", "vless"); ("direct", "freedom")] /\
    Outbounds xc !! 1%nat = Some directOutbound.
Proof.
  intros HL. unfold clientXrayConfig, httpListenUsable.
  destruct (parses_inv _ HL) as (h & p & ->).
  destruct (parseServerAddr (Server cfg)) as [sh sp].
  destruct (String.eqb (HTTPListen cfg) "").
  - eexists. split; [reflexivity|]. repeat split.
  - destruct (splitHostPort (HTTPListen cfg)) as [[hh hp]|e];
      (eexists; split; [reflexivity|]; repeat split).
Qed.

Lemma clientXrayConfig_err cfg :
  ~ parses (LocalListen cfg) ->
  exists e, clientXrayConfig cfg = Err (ErrInvalidLocalListen e).
Proof.
  intros HL. unfold clientXrayConfig.
  destruct (not_parses_inv _ HL) as (e & ->). eauto.
Qed.

End BuilderShape.

Section BuilderClaims.

Import Tunnel.

(** C1, as stated, fails: a configuration that [Validate] accepts may
    carry a listen address without a port, and [BuildServerJSON] rejects
    it. *)
Lemma C1_validated_config_rejected :
  validated (Samples.server "localhost" []) /\
  BuildServerJSON (Some (Samples.server "localhost" []))
  = Err (ErrInvalidListen (ErrNoPort "localhost")).
Proof.
  split; [apply validated_sample_server; discriminate | reflexivity].
Qed.

(** C1, amended: for every server configuration whose listen address and
    whose fallback listen addresses [splitHostPort] accepts (validated or
    not), [BuildServerJSON] succeeds; the document it writes has
    [len(Fallbacks) + 1] inbounds, the inbound tagged [vless-reality]
    first and then one inbound per fallback binding, in order, tagged
    [fallback-<protocol>-<index>]; and exactly two outbounds, [direct]
    with protocol [freedom] and then [block] with protocol [blackhole]
    (the passthrough and the sinkhole protocol of the runtime). *)
Theorem C1_server_document_shape (cfg : Config) :
  parses (Listen cfg) ->
  Forall (fun fb => parses (FbListen fb)) (Fallbacks cfg) ->
  exists xc,
    serverXrayConfig cfg = Ok xc /\
    BuildServerJSON (Some cfg) = Ok (Json.Marshal (fullConfigJSON xc)) /\
    Json.member "inbounds" (fullConfigJSON xc)
    = Some (Json.Arr (map inboundJSON (Inbounds xc))) /\
    length (map inboundJSON (Inbounds xc)) = S (length (Fallbacks cfg)) /\
    inboundLabels xc
    = ("vless-reality", "vless") :: fallbackLabels 0 (Fallbacks cfg) /\
    Json.member "outbounds" (fullConfigJSON xc)
    = Some (Json.Arr
              [Json.Obj [("tag", Json.Str "direct");
                         ("protocol", Json.Str "freedom")];
               Json.Obj [("tag", Json.Str "block");
                         ("protocol", Json.Str "blackhole")]]).
Proof.
  intros HL HF.
  destruct (serverXrayConfig_ok cfg HL HF) as (xc & Hxc & Hlen & Hlab & Hout).
  exists xc. unfold BuildServerJSON. rewrite Hxc.
  rewrite member_inbounds, member_outbounds, length_map, Hout.
  repeat split; assumption.
Qed.

Lemma C1_server_document_shape_witness :
  exists xc,
    serverXrayConfig (Samples.server ":443" [Samples.wsFallback ":8443"]) = Ok xc /\
    length (Inbounds xc) = 2%nat /\
    inboundLabels xc = [("vless-reality", "vless"); ("fallback-trojan-0", "trojan")].
Proof.
  destruct (C1_server_document_shape
              (Samples.server ":443" [Samples.wsFallback ":8443"]))
    as (xc & Hxc & _ & _ & Hlen & Hlab & _).
  - reflexivity.
  - repeat constructor.
  - exists xc. rewrite length_map in Hlen. repeat split; assumption.
Defined.

(** C3, as stated, fails: a secondary mapping-port address that is
    present but has no port is skipped, and the document has one
    inbound. *)
Lemma C3_present_http_listen_one_inbound :
  let cfg := Samples.client "1.2.3.4:443" "127.0.0.1:1080" "8080" in
  validatedClient cfg /\ HTTPListen cfg <> "" /\
  exists xc,
    clientXrayConfig cfg = Ok xc /\
    BuildClientJSON (Some cfg) = Ok (Json.Marshal (fullConfigJSON xc)) /\
    length (Inbounds xc) = 1%nat.
Proof.
  cbv zeta. split; [apply validated_sample_client; discriminate|].
  split; [discriminate|].
  eexists. split; [reflexivity|]. split; reflexivity.
Qed.

(** C3, amended: for every client configuration whose local mapping-port
    address [splitHostPort] accepts, [BuildClientJSON] succeeds; the
    document has two inbounds ([socks-in], [http-in]) when the secondary
    address is present and parses, and the single inbound [socks-in] when
    it is absent or does not parse; in every case it has exactly two
    outbounds, [proxy] with protocol [vless] and then [direct] with
    protocol [freedom]. *)
Theorem C3_client_document_shape (cfg : ClientConfig) :
  parses (LocalListen cfg) ->
  exists xc,
    clientXrayConfig cfg = Ok xc /\
    BuildClientJSON (Some cfg) = Ok (Json.Marshal (fullConfigJSON xc)) /\
    Json.member "inbounds" (fullConfigJSON xc)
    = Some (Json.Arr (map inboundJSON (Inbounds xc))) /\
    length (map inboundJSON (Inbounds xc))
    = (if httpListenUsable cfg then 2%nat else 1%nat) /\
    inboundLabels xc
    = (if httpListenUsable cfg
       then [("socks-in", "socks"); ("http-in", "http")]
       else [("socks-in", "socks")]) /\
    Json.member "outbounds" (fullConfigJSON xc)
    = Some (Json.Arr (map outboundJSON (Outbounds xc))) /\
    length (map outboundJSON (Outbounds xc)) = 2%nat /\
    outboundLabels xc = [("proxy", "vless"); ("direct", "freedom")] /\
    Outbounds xc !! 1%nat = Some directOutbound.
Proof.
  intros HL.
  destruct (clientXrayConfig_ok cfg HL) as (xc & Hxc & Hin & Hout & Hd).
  exists xc. unfold BuildClientJSON. rewrite Hxc.
  rewrite member_inbounds, member_outbounds.
  assert (Hli : length (Inbounds xc) = length (inboundLabels xc))
    by (unfold inboundLabels; now rewrite length_map).
  assert (Hlo : length (Outbounds xc) = length (outboundLabels xc))
    by (unfold outboundLabels; now rewrite length_map).
  rewrite !length_map, Hli, Hlo, Hin, Hout.
  repeat split; try assumption.
  destruct (httpListenUsable cfg); reflexivity.
Qed.

Lemma C3_client_document_shape_witness :
  exists xc,
    clientXrayConfig (Samples.client "1.2.3.4:443" "127.0.0.1:1080" "127.0.0.1:8080")
    = Ok xc /\
    inboundLabels xc = [("socks-in", "socks"); ("http-in", "http")] /\
    outboundLabels xc = [("proxy", "vless"); ("direct", "freedom")].
Proof.
  destruct (C3_client_document_shape
              (Samples.client "1.2.3.4:443" "127.0.0.1:1080" "127.0.0.1:8080"))
    as (xc & Hxc & _ & _ & _ & Hin & _ & _ & Hout & _).
  - reflexivity.
  - exists xc. repeat split; assumption.
Defined.

(** C9, as stated, fails: a remote server address whose port is not a
    number, and a secondary mapping-port address without a port, both
    rejected by [splitHostPort], leave [BuildClientJSON] successful. *)
Lemma C9_unparseable_addresses_accepted :
  let cfg := Samples.client "example.com:https" "127.0.0.1:1080" "8080" in
  validatedClient cfg /\
  ~ parses (Server cfg) /\ ~ parses (HTTPListen cfg) /\ HTTPListen cfg <> "" /\
  isOk (BuildClientJSON (Some cfg)) = true /\
  parseServerAddr (Server cfg) = ("example.com:https", 443).
Proof.
  cbv zeta. split; [apply validated_sample_client; discriminate|].
  repeat split; try discriminate; reflexivity.
Qed.

(** C9, amended: both builders return the InvalidInput error for a nil
    configuration.  [BuildServerJSON] fails on a configuration exactly
    when its listen address or one of its fallback listen addresses is
    rejected by [splitHostPort], and [BuildClientJSON] exactly when its
    local mapping-port address is; the error is then of kind BadAddress.
    The remote server address never makes [BuildClientJSON] fail
    ([parseServerAddr] falls back to the whole string and port 443), nor
    does the secondary mapping-port address (its inbound is left out). *)
Theorem C9_builder_errors :
  (BuildServerJSON None = Err ErrConfigNil /\ kindOf ErrConfigNil = InvalidInput) /\
  (BuildClientJSON None = Err ErrClientConfigNil /\
   kindOf ErrClientConfigNil = InvalidInput) /\
  (forall cfg : Config,
     (isOk (BuildServerJSON (Some cfg)) = true <->
      parses (Listen cfg) /\
      Forall (fun fb => parses (FbListen fb)) (Fallbacks cfg)) /\
     (forall e, BuildServerJSON (Some cfg) = Err e -> kindOf e = BadAddress)) /\
  (forall cfg : ClientConfig,
     (isOk (BuildClientJSON (Some cfg)) = true <-> parses (LocalListen cfg)) /\
     (forall e, BuildClientJSON (Some cfg) = Err e ->
        kindOf e = BadAddress /\
        exists a, e = ErrInvalidLocalListen a /\
                  splitHostPort (LocalListen cfg) = Err a)).
Proof.
  split; [split; reflexivity|]. split; [split; reflexivity|]. split.
  - intros cfg. unfold BuildServerJSON.
    destruct (parses_dec (Listen cfg)) as [HL|HL];
      [destruct (Forall_parses_dec (Fallbacks cfg)) as [HF|HF]|].
    + destruct (serverXrayConfig_ok cfg HL HF) as (xc & -> & _).
      split; [split; [intros _; split; assumption | reflexivity]|].
      intros e He. discriminate.
    + destruct (serverXrayConfig_err cfg) as (e & -> & Hk); [tauto|].
      split; [split; [discriminate | tauto]|].
      intros e' [= <-]. exact Hk.
    + destruct (serverXrayConfig_err cfg) as (e & -> & Hk); [tauto|].
      split; [split; [discriminate | tauto]|].
      intros e' [= <-]. exact Hk.
  - intros cfg. unfold BuildClientJSON.
    destruct (parses_dec (LocalListen cfg)) as [HL|HL].
    + destruct (clientXrayConfig_ok cfg HL) as (xc & -> & _).
      split; [split; [intros _; assumption | reflexivity]|].
      intros e He. discriminate.
    + destruct (clientXrayConfig_err cfg HL) as (a & Ha). rewrite Ha.
      split; [split; [discriminate | tauto]|].
      intros e' [= <-]. split; [reflexivity|]. exists a. split; [reflexivity|].
      unfold clientXrayConfig in Ha.
      destruct (splitHostPort (LocalListen cfg)) as [[h p]|a'].
      * destruct (parseServerAddr (Server cfg)). discriminate.
      * congruence.
Qed.

Lemma C9_builder_errors_witness :
  isOk (BuildClientJSON (Some (Samples.client "example.com" "127.0.0.1:1080" "")))
  = true /\
  isOk (BuildServerJSON (Some (Samples.server ":443" []))) = true.
Proof.
  destruct C9_builder_errors as (_ & _ & Hs & Hc). split.
  - apply (proj1 (Hc _)). reflexivity.
  - apply (proj1 (Hs _)). split; [reflexivity | constructor].
Defined.

End BuilderClaims.

(** ** The engine supervisor *)

Section EngineFacts.

Import Tunnel.

Lemma statusEqb_eq a b : statusEqb a b = true <-> a = b.
Proof. destruct a, b; cbn; split; congruence. Qed.

Lemma statusEqb_running s :
  statusEqb s StatusRunning = false <-> s <> StatusRunning.
Proof. destruct s; cbn; split; congruence. Qed.

Lemma startBuilt_not_already_running e built e' :
  startBuilt e built <> (e', Some ErrAlreadyRunning).
Proof.
  unfold startBuilt. destruct built as [j|err]; [|congruence].
  destruct (loader _ j) as [inst|err]; [|congruence].
  destruct (InstStart inst); congruence.
Qed.

Lemma startBuilt_ok e jsonCfg inst :
  loader e jsonCfg = Ok inst -> InstStart inst = None ->
  exists e',
    startBuilt e (Ok jsonCfg) = (e', None) /\
    status e' = StatusRunning /\ instance e' = Some inst /\
    jsonConfig e' = Some jsonCfg /\ loader e' = loader e /\
    config e' = config e /\ clientConfig e' = clientConfig e /\
    mode e' = mode e /\ stopChClosed e' = stopChClosed e.
Proof.
  intros HL HS. unfold startBuilt. cbn [loader logTo setJSONConfig].
  rewrite HL, HS. eexists. split; [reflexivity|]. repeat split.
Qed.

(** [Start] of a running engine changes nothing. *)
Lemma Start_running e :
  status e = StatusRunning -> Start e = Some (e, Some ErrAlreadyRunning).
Proof. intros H. unfold Start. rewrite H. reflexivity. Qed.

Lemma Start_not_running e jsonCfg inst :
  status e <> StatusRunning ->
  compiled e = Some (Ok jsonCfg) ->
  loader e jsonCfg = Ok inst ->
  InstStart inst = None ->
  exists e',
    Start e = Some (e', None) /\
    status e' = StatusRunning /\ instance e' = Some inst /\
    jsonConfig e' = Some jsonCfg /\ loader e' = loader e /\
    config e' = config e /\ clientConfig e' = clientConfig e /\
    mode e' = mode e /\ stopChClosed e' = stopChClosed e.
Proof.
  intros Hs Hc HL HI. unfold Start, compiled in *.
  apply statusEqb_running in Hs. rewrite Hs.
  cbn [mode config clientConfig setStatus].
  destruct (mode e) eqn:Hm;
    [destruct (config e) as [c|] eqn:Hcfg
    | destruct (clientConfig e) as [c|] eqn:Hcfg |];
    try discriminate.
  - assert (Hb : BuildServerJSON (Some c) = Ok jsonCfg) by congruence.
    rewrite Hb.
    edestruct startBuilt_ok as (e' & -> & H); [exact HL | exact HI |].
    cbn [loader config clientConfig mode stopChClosed logTo setStatus] in H.
    rewrite Hm, Hcfg in H. exists e'. split; [reflexivity | exact H].
  - assert (Hb : BuildClientJSON (Some c) = Ok jsonCfg) by congruence.
    rewrite Hb.
    edestruct startBuilt_ok as (e' & -> & H); [exact HL | exact HI |].
    cbn [loader config clientConfig mode stopChClosed logTo setStatus] in H.
    rewrite Hm, Hcfg in H. exists e'. split; [reflexivity | exact H].
Qed.

(** [Stop] of a running engine: stopped, the instance dropped, the
    channel closed and replaced, no error returned whatever [Close]
    returned. *)
Lemma Stop_running e :
  status e = StatusRunning ->
  exists e',
    Stop e = (e', None) /\ status e' = StatusStopped /\ instance e' = None /\
    stopChClosed e' = S (stopChClosed e) /\ loader e' = loader e /\
    config e' = config e /\ clientConfig e' = clientConfig e /\
    mode e' = mode e /\
    (forall inst err, instance e = Some inst -> InstClose inst = Some err ->
       In (LError, "error closing xray instance") (logger e')).
Proof.
  intros H. unfold Stop. rewrite H. cbn [statusEqb statusString String.eqb negb].
  cbn [instance closeStopCh logTo setStatus].
  destruct (instance e) as [i0|] eqn:Hi0; [destruct (InstClose i0) eqn:Hc0|];
    (eexists; split; [reflexivity|];
     cbn [status instance stopChClosed loader config clientConfig mode logger
          logTo setStatus setInstance closeStopCh];
     repeat split; try reflexivity; intros inst err Hi Hc; try congruence).
  rewrite !in_app_iff. cbn. tauto.
Qed.

Lemma Stop_not_running e :
  status e <> StatusRunning -> Stop e = (e, Some (ErrNotRunning (status e))).
Proof.
  intros H. unfold Stop. apply statusEqb_running in H. rewrite H. reflexivity.
Qed.

(** C10: [Start] returns the already-running error exactly when the
    status is [running]; from every other status, [error] included, it
    goes on, and when the builder, the loader and the instance's [Start]
    succeed it returns [nil] and leaves the engine [running] with the
    instance. *)
Theorem C10_start_rejected_only_when_running (e : Engine) :
  ((exists e', Start e = Some (e', Some ErrAlreadyRunning))
   <-> status e = StatusRunning) /\
  (forall jsonCfg inst,
     status e <> StatusRunning ->
     compiled e = Some (Ok jsonCfg) ->
     loader e jsonCfg = Ok inst ->
     InstStart inst = None ->
     exists e',
       Start e = Some (e', None) /\ status e' = StatusRunning /\
       instance e' = Some inst).
Proof.
  split.
  - split.
    + intros [e' H]. unfold Start in H.
      destruct (statusEqb (status e) StatusRunning) eqn:Hs;
        [now apply statusEqb_eq|].
      exfalso. cbn [mode config clientConfig setStatus] in H.
      destruct (mode e);
        [destruct (config e) as [c|] | destruct (clientConfig e) as [c|] |];
        try discriminate.
      * injection H as H. exact (startBuilt_not_already_running _ _ _ H).
      * injection H as H. exact (startBuilt_not_already_running _ _ _ H).
    + intros H. exists e. now apply Start_running.
  - intros jsonCfg inst Hs Hc HL HI.
    destruct (Start_not_running e jsonCfg inst Hs Hc HL HI)
      as (e' & H1 & H2 & H3 & _).
    exists e'. repeat split; assumption.
Qed.

Lemma C10_start_rejected_only_when_running_witness :
  exists e',
    Start (Samples.serverEngine StatusError ":443") = Some (e', None) /\
    status e' = StatusRunning.
Proof.
  destruct (proj2 (C10_start_rejected_only_when_running
                     (Samples.serverEngine StatusError ":443"))
              (match BuildServerJSON (Some (Samples.server ":443" [])) with
               | Ok j => j
               | Err _ => ""
               end)
              stubInstance)
    as (e' & H1 & H2 & _).
  - discriminate.
  - vm_compute. reflexivity.
  - vm_compute. reflexivity.
  - reflexivity.
  - exists e'. split; assumption.
Defined.

End EngineFacts.

(** ** The rotation controllers *)

Section RotationFacts.

Import Rotation.

Lemma removeFirst_unknown id l : unknownID id l -> removeFirst id l = None.
Proof.
  unfold unknownID. induction 1 as [|e l He _ IH]; [reflexivity|].
  cbn. destruct (String.eqb_spec (ID e) id); [contradiction|].
  now rewrite IH.
Qed.

Lemma removeFirst_known id l :
  ~ unknownID id l -> exists rest, removeFirst id l = Some rest.
Proof.
  unfold unknownID. induction l as [|e l IH]; intros H.
  - exfalso. apply H. constructor.
  - cbn. destruct (String.eqb_spec (ID e) id) as [Heq|Hne]; [eauto|].
    destruct IH as [rest ->]; [|eauto].
    intros HF. apply H. constructor; assumption.
Qed.

Lemma removeFirst_length id l rest :
  removeFirst id l = Some rest -> length l = S (length rest).
Proof.
  revert rest. induction l as [|e l IH]; intros rest; [discriminate|].
  cbn. destruct (String.eqb (ID e) id); [congruence|].
  destruct (removeFirst id l) as [r|]; [|discriminate].
  intros [= <-]. cbn. now rewrite (IH r).
Qed.

(** C7, as stated, fails for the CDN-worker and the serverless variant:
    [Retire] of an endpoint that carries the variant's own provider tag
    and is not in the list returns [nil], also when the provider call
    fails. *)
Lemma C7_provider_retire_unknown_returns_nil :
  unknownID "ghost" (endpoints (cfBase Samples.cloudflare)) /\
  snd (CloudflareRetire Samples.failingProvider Samples.cloudflare
         (Samples.endpoint "ghost" "cloudflare")) = None /\
  unknownID "ghost" (endpoints (awsBase Samples.aws)) /\
  snd (AWSRetire Samples.failingProvider Samples.aws
         (Samples.endpoint "ghost" "aws")) = None.
Proof. repeat split; constructor. Qed.

(** C7, amended: [Retire] with an endpoint whose identifier is not in
    the controller's list returns NotFound and changes nothing for the
    local variant, and for the CDN-worker and serverless variants when
    the endpoint does not carry the variant's own provider tag (they hand
    it to the local [Retire]).  For an endpoint with their own tag these
    two call the provider, log its error as a warning without raising
    it, leave the list as it is and return [nil]. *)
Theorem C7_retire_unknown_endpoint (ep : Endpoint) :
  (forall c : NoOpController,
     unknownID (ID ep) (endpoints c) ->
     Retire c ep = (c, Some (ErrEndpointNotFound (ID ep)))) /\
  (forall provider (c : CloudflareController),
     unknownID (ID ep) (endpoints (cfBase c)) ->
     (Provider ep <> "cloudflare" ->
      CloudflareRetire provider c ep = (c, Some (ErrEndpointNotFound (ID ep)))) /\
     (Provider ep = "cloudflare" ->
      snd (CloudflareRetire provider c ep) = None /\
      endpoints (cfBase (fst (CloudflareRetire provider c ep)))
      = endpoints (cfBase c) /\
      (forall err, provider (ID ep) = Some err ->
         In (LWarn, "failed to delete worker (may not exist)")
            (logger (cfBase (fst (CloudflareRetire provider c ep))))))) /\
  (forall provider (a : AWSController),
     unknownID (ID ep) (endpoints (awsBase a)) ->
     (Provider ep <> "aws" ->
      AWSRetire provider a ep = (a, Some (ErrEndpointNotFound (ID ep)))) /\
     (Provider ep = "aws" ->
      snd (AWSRetire provider a ep) = None /\
      endpoints (awsBase (fst (AWSRetire provider a ep)))
      = endpoints (awsBase a) /\
      (forall err, provider (ID ep) = Some err ->
         In (LWarn, "failed to delete lambda")
            (logger (awsBase (fst (AWSRetire provider a ep))))))).
Proof.
  assert (Hno : forall c : NoOpController,
             unknownID (ID ep) (endpoints c) ->
             Retire c ep = (c, Some (ErrEndpointNotFound (ID ep)))).
  { intros c H. unfold Retire. now rewrite (removeFirst_unknown _ _ H). }
  split; [exact Hno|]. split.
  - intros provider c H. split.
    + intros Hp. unfold CloudflareRetire.
      destruct (String.eqb_spec (Provider ep) "cloudflare"); [contradiction|].
      cbn [negb]. rewrite (Hno _ H). now destruct c.
    + intros Hp. unfold CloudflareRetire. rewrite Hp. cbn [String.eqb negb fst snd].
      split; [reflexivity|].
      unfold dropFirst.
      destruct (provider (ID ep)) as [err|];
        cbn [endpoints logBase cfBase]; rewrite (removeFirst_unknown _ _ H);
        (split; [reflexivity|]); intros err' Herr; [|discriminate].
      cbn. rewrite !in_app_iff. cbn. tauto.
  - intros provider a H. split.
    + intros Hp. unfold AWSRetire.
      destruct (String.eqb_spec (Provider ep) "aws"); [contradiction|].
      cbn [negb]. rewrite (Hno _ H). now destruct a.
    + intros Hp. unfold AWSRetire. rewrite Hp. cbn [String.eqb negb fst snd].
      split; [reflexivity|].
      unfold dropFirst.
      destruct (provider (ID ep)) as [err|];
        cbn [endpoints logBase awsBase]; rewrite (removeFirst_unknown _ _ H);
        (split; [reflexivity|]); intros err' Herr; [|discriminate].
      cbn. rewrite !in_app_iff. cbn. tauto.
Qed.

Lemma C7_retire_unknown_endpoint_witness :
  Retire NewNoOpController (Samples.endpoint "nonexistent" "noop")
  = (NewNoOpController, Some (ErrEndpointNotFound "nonexistent")) /\
  CloudflareRetire Samples.failingProvider Samples.cloudflare
    (Samples.endpoint "nonexistent" "noop")
  = (Samples.cloudflare, Some (ErrEndpointNotFound "nonexistent")).
Proof.
  destruct (C7_retire_unknown_endpoint (Samples.endpoint "nonexistent" "noop"))
    as (Hn & Hc & _).
  split.
  - apply (Hn NewNoOpController). constructor.
  - apply (Hc Samples.failingProvider Samples.cloudflare).
    + constructor.
    + discriminate.
Defined.

End RotationFacts.

Section AutoRotation.

Import Rotation.

Lemma Rotate_endpoints t1 t2 c :
  endpoints (fst (Rotate t1 t2 c)) = endpoints c ++ [snd (Rotate t1 t2 c)] /\
  ExpiresAt (snd (Rotate t1 t2 c)) = t2 + hour /\
  Provider (snd (Rotate t1 t2 c)) = "noop".
Proof. repeat split. Qed.

(** One tick: one endpoint appended, a goroutine for each endpoint whose
    expiry has passed, the length of the list playing no part. *)
Lemma autoRotationTick_spec tRotate tScan c :
  let ep := snd (Rotate tRotate tRotate c) in
  autoRotationTick tRotate tScan c
  = (fst (Rotate tRotate tRotate c),
     List.filter (IsExpired tScan) (endpoints c ++ [ep])).
Proof. reflexivity. Qed.

Lemma filter_none {A} (f : A -> bool) l :
  Forall (fun x => f x = false) l -> List.filter f l = [].
Proof.
  induction 1 as [|x l Hx _ IH]; [reflexivity|]. cbn. now rewrite Hx.
Qed.

Lemma autoRotationTicks_within_hour T ticks : forall c pending,
  Forall (fun t => T <= t <= T + hour) ticks ->
  Forall (fun ep => T + hour <= ExpiresAt ep) (endpoints c) ->
  let r := autoRotationTicks ticks c pending in
  length (endpoints (fst r)) = (length (endpoints c) + length ticks)%nat /\
  snd r = pending /\
  Forall (fun ep => T + hour <= ExpiresAt ep) (endpoints (fst r)).
Proof.
  induction ticks as [|t ticks IH]; intros c pending Ht Hc; cbn zeta.
  - cbn. repeat split; [lia | assumption].
  - apply Forall_cons in Ht as [Ht Hts].
    cbn [autoRotationTicks]. rewrite autoRotationTick_spec. cbn zeta.
    assert (Hc' : Forall (fun ep => T + hour <= ExpiresAt ep)
                    (endpoints c ++ [snd (Rotate t t c)])).
    { apply Forall_app. split; [assumption|]. constructor; [|constructor].
      cbn. lia. }
    rewrite filter_none.
    2:{ eapply Forall_impl; [exact Hc'|]. intros ep Hep.
        unfold IsExpired. cbn beta in Hep. apply Z.ltb_ge. lia. }
    rewrite app_nil_r.
    specialize (IH (fst (Rotate t t c)) pending Hts Hc').
    cbn zeta in IH. destruct IH as (Hlen & Hp & Hall).
    repeat split; [|assumption|assumption].
    rewrite Hlen. cbn [Rotate fst endpoints]. rewrite length_app. cbn. lia.
Qed.


End AutoRotation.

(** ** The health monitor *)

Section HealthFacts.

Import Rotation.

Lemma previousFailCount_within n hc id :
  0 <= n -> countersWithin n hc -> 0 <= previousFailCount hc id <= n.
Proof.
  intros Hn H. unfold previousFailCount.
  destruct (results hc !! id) as [r|] eqn:Hr; [|lia].
  now destruct (H id r Hr).
Qed.

Lemma checkEndpoint_failure hc env ep err :
  probeOutcome env ep = Some err ->
  checkEndpoint hc env ep
  = {| EndpointID := ID ep; Healthy := false; Latency := elapsed env;
       LastCheck := clock env;
       FailCount := GoInt.add (previousFailCount hc (ID ep)) 1;
       Error := err |}.
Proof. intros H. unfold checkEndpoint, previousFailCount. now rewrite H. Qed.

Lemma checkEndpoint_success hc env ep :
  probeOutcome env ep = None ->
  checkEndpoint hc env ep
  = {| EndpointID := ID ep; Healthy := true; Latency := elapsed env;
       LastCheck := clock env; FailCount := 0; Error := "" |}.
Proof. intros H. unfold checkEndpoint. now rewrite H. Qed.

Lemma checkOne_results env hc ep :
  results (fst (checkOne env hc ep))
  = <[ID ep := checkEndpoint hc env ep]> (results hc).
Proof.
  unfold checkOne. destruct (Healthy _); [reflexivity|].
  destruct (3 <=? _); reflexivity.
Qed.

Lemma checkOne_started env hc ep :
  snd (checkOne env hc ep)
  = if negb (Healthy (checkEndpoint hc env ep))
       && (3 <=? FailCount (checkEndpoint hc env ep))
    then [RetireThenRotate ep] else [].
Proof.
  unfold checkOne. destruct (Healthy _); [reflexivity|].
  destruct (3 <=? _); reflexivity.
Qed.

Lemma checkOne_within n env hc ep :
  0 <= n < GoInt.max_int ->
  countersWithin n hc -> countersWithin (n + 1) (fst (checkOne env hc ep)).
Proof.
  intros Hn H id r. rewrite checkOne_results.
  destruct (decide (ID ep = id)) as [<-|Hne].
  - rewrite lookup_insert_eq. intros [= <-].
    pose proof (previousFailCount_within n hc (ID ep) ltac:(lia) H) as Hp.
    destruct (probeOutcome env ep) as [err|] eqn:Ho.
    + rewrite (checkEndpoint_failure _ _ _ _ Ho). cbn [FailCount Healthy].
      unfold GoInt.add. rewrite wrap_small
        by (unfold GoInt.min_int, GoInt.max_int in *; lia).
      split; [lia|]. split; [lia | discriminate].
    + rewrite (checkEndpoint_success _ _ _ Ho). cbn [FailCount Healthy].
      split; [lia|]. split; reflexivity.
  - rewrite lookup_insert_ne by assumption. intros Hr.
    destruct (H id r Hr) as [Hb Hh]. split; [lia | assumption].
Qed.

Lemma checkAll_within probes : forall n hc,
  0 <= n -> n + Z.of_nat (length probes) <= GoInt.max_int ->
  countersWithin n hc ->
  countersWithin (n + Z.of_nat (length probes)) (fst (checkAll probes hc)).
Proof.
  induction probes as [|[ep env] probes IH]; intros n hc Hn Hb H.
  - cbn [checkAll fst length]. change (Z.of_nat 0) with 0.
    rewrite Z.add_0_r. exact H.
  - cbn [checkAll length] in *.
    destruct (checkOne env hc ep) as [hc1 started] eqn:H1.
    destruct (checkAll probes hc1) as [hc2 more] eqn:H2. cbn [fst].
    assert (Hw : countersWithin (n + 1) hc1).
    { change hc1 with (fst (hc1, started)). rewrite <- H1.
      apply checkOne_within; [lia | assumption]. }
    specialize (IH (n + 1) hc1 ltac:(lia) ltac:(lia) Hw).
    rewrite H2 in IH. cbn [fst] in IH.
    replace (n + Z.of_nat (S (length probes)))
      with (n + 1 + Z.of_nat (length probes)) by lia.
    exact IH.
Qed.

Lemma runRounds_within rounds : forall n hc,
  0 <= n -> n + Z.of_nat (probeCount rounds) <= GoInt.max_int ->
  countersWithin n hc ->
  countersWithin (n + Z.of_nat (probeCount rounds)) (fst (runRounds rounds hc)).
Proof.
  unfold probeCount.
  induction rounds as [|probes rounds IH]; intros n hc Hn Hb H.
  - cbn [runRounds fst concat length]. change (Z.of_nat 0) with 0.
    rewrite Z.add_0_r. exact H.
  - cbn [runRounds concat] in *. rewrite length_app in *.
    destruct (checkAll probes hc) as [hc1 started] eqn:H1.
    destruct (runRounds rounds hc1) as [hc2 more] eqn:H2. cbn [fst].
    assert (Hw : countersWithin (n + Z.of_nat (length probes)) hc1).
    { change hc1 with (fst (hc1, started)). rewrite <- H1.
      apply (checkAll_within probes n hc);
        [lia | unfold GoInt.max_int in *; lia | assumption]. }
    specialize (IH (n + Z.of_nat (length probes)) hc1 ltac:(lia)
                  ltac:(unfold GoInt.max_int in *; lia) Hw).
    rewrite H2 in IH. cbn [fst] in IH.
    replace (n + Z.of_nat (length probes + length (concat rounds)))
      with (n + Z.of_nat (length probes) + Z.of_nat (length (concat rounds)))
      by lia.
    exact IH.
Qed.

End HealthFacts.

(** ** The control surface *)

Section ApiFacts.

Import Tunnel Api.

(** [handleConnect] decides on the server's own [connected] field and
    never reads the status of the engine. *)
Lemma handleConnect_cached_flag now s :
  connected s = true ->
  handleConnect now s
  = Some (s, WriteError StatusConflict (Literal "already connected")).
Proof. intros H. unfold handleConnect. now rewrite H. Qed.

(** With the field unset and the engine running, [connect] answers 500
    with the engine's already-running error, while [status] reports the
    engine as connected. *)
Lemma handleConnect_running_engine now s :
  connected s = false -> status (engine s) = StatusRunning ->
  handleConnect now s
  = Some (s, WriteError StatusInternalServerError (ErrorOf ErrAlreadyRunning)) /\
  exists r, handleStatus now s = WriteStatus r /\ Connected r = true.
Proof.
  intros Hc Hs. unfold handleConnect, handleStatus, Tunnel.Status.
  rewrite Hc, (Start_running _ Hs), Hs. split.
  - now destruct s.
  - eexists. split; reflexivity.
Qed.

(** C8 at its failing input, the start-up sequence of [runClient]: the
    client engine is built and started, then the API server is created
    around it.  The engine is running, [status] reports
    [connected = true], and [connect] answers 500 (Internal) with the
    already-running error instead of 409 (Conflict). *)
Theorem C8_connect_after_client_start :
  exists e0 e1,
    NewClientEngine stubLoader
      (Some (Samples.client "1.2.3.4:443" "127.0.0.1:1080" "")) = Ok e0 /\
    Start e0 = Some (e1, None) /\
    status e1 = StatusRunning /\
    (exists r, handleStatus 0 (NewServer "127.0.0.1:9876" e1) = WriteStatus r /\
               Connected r = true) /\
    exists s' resp,
      handleConnect 0 (NewServer "127.0.0.1:9876" e1) = Some (s', resp) /\
      resp = WriteError StatusInternalServerError (ErrorOf ErrAlreadyRunning) /\
      responseCode resp = 500 /\ responseCode resp <> StatusConflict.
Proof.
  set (cfg := Samples.client "1.2.3.4:443" "127.0.0.1:1080" "").
  set (e0 := {| config := None; clientConfig := Some cfg; mode := ModeClient;
                Tunnel.logger := []; status := StatusStopped; instance := None;
                stopChClosed := O; loader := stubLoader; jsonConfig := None |}).
  destruct (Start_not_running e0
              (match BuildClientJSON (Some cfg) with Ok j => j | Err _ => "" end)
              stubInstance)
    as (e1 & HS & Hst & _).
  - discriminate.
  - vm_compute. reflexivity.
  - vm_compute. reflexivity.
  - reflexivity.
  - exists e0, e1. split; [reflexivity|]. split; [exact HS|].
    split; [exact Hst|].
    destruct (handleConnect_running_engine 0 (NewServer "127.0.0.1:9876" e1))
      as (Hc & Hr); [reflexivity | exact Hst |].
    split; [exact Hr|].
    eexists _, _. split; [exact Hc|]. repeat split. discriminate.
Qed.

End ApiFacts.

(** ** The scanner accepts what [Marshal] writes *)

Section ScannerFacts.

Import Json.

Local Arguments String.append : simpl nomatch.

Lemma string_length_app (a b : string) :
  String.length (a ++ b)%string = (String.length a + String.length b)%nat.
Proof. induction a as [|c a IH]; simpl; congruence. Qed.

Lemma string_app_assoc (a b c : string) :
  ((a ++ b) ++ c)%string = (a ++ (b ++ c))%string.
Proof. induction a as [|x a IH]; simpl; congruence. Qed.

Lemma string_app_cons (c : ascii) (a b : string) :
  (String c a ++ b)%string = String c (a ++ b)%string.
Proof. reflexivity. Qed.

Lemma skipWS_startsValue s rest :
  startsValue s -> skipWS (s ++ rest)%string = (s ++ rest)%string.
Proof.
  destruct s as [|c s]; cbn; [contradiction|]. intros (Hs & _). now rewrite Hs.
Qed.

Lemma skipWS_head c r : isSpace c = false -> skipWS (String c r) = String c r.
Proof. intros H. cbn. now rewrite H. Qed.

Lemma delimited_not_digit c r :
  delimited (String c r) ->
  GoStr.isDigit c = false /\ Ascii.eqb c "." = false /\
  Ascii.eqb c "e" = false /\ Ascii.eqb c "E" = false /\ isSpace c = false.
Proof. cbn. intros [-> | [-> | ->]]; repeat split. Qed.

(** *** Strings *)

Lemma scanString_escapeByte b tail :
  (GoStr.byte_val b <? 128) = true ->
  scanString (escapeByte b ++ tail)%string = scanString tail.
Proof.
  destruct b as [[] [] [] [] [] [] [] []]; intros H;
    first [ discriminate H | reflexivity ].
Qed.

Lemma scanString_high b tail :
  (GoStr.byte_val b <? 128) = false ->
  scanString (String b tail) = scanString tail.
Proof.
  destruct b as [[] [] [] [] [] [] [] []]; intros H;
    first [ discriminate H | reflexivity ].
Qed.

Lemma between_high lo hi c :
  128 <= lo -> between lo hi c = true -> (GoStr.byte_val c <? 128) = false.
Proof.
  unfold between. intros Hlo H. apply andb_prop in H as [H _].
  apply Z.leb_le in H. apply Z.ltb_ge. lia.
Qed.

Lemma runeWidth_high b r k : runeWidth b r = S k -> highBytes k r.
Proof.
  unfold runeWidth.
  destruct ((194 <=? GoStr.byte_val b) && (GoStr.byte_val b <=? 223)).
  { destruct r as [|c1 r]; [discriminate|].
    destruct (between 128 191 c1) eqn:H1; [|discriminate].
    intros [= <-]. cbn. split; [|exact I].
    eapply between_high; [|exact H1]. lia. }
  destruct ((224 <=? GoStr.byte_val b) && (GoStr.byte_val b <=? 239)).
  { destruct r as [|c1 [|c2 r]]; try discriminate.
    match goal with
    | |- (if ?c then _ else _) = _ -> _ => destruct c eqn:H; [|discriminate]
    end.
    apply andb_prop in H as [H1 H2]. intros [= <-]. cbn.
    split; [|split; [|exact I]].
    - eapply between_high; [|exact H1]. destruct (_ =? 224); lia.
    - eapply between_high; [|exact H2]. lia. }
  destruct ((240 <=? GoStr.byte_val b) && (GoStr.byte_val b <=? 244)).
  { destruct r as [|c1 [|c2 [|c3 r]]]; try discriminate.
    match goal with
    | |- (if ?c then _ else _) = _ -> _ => destruct c eqn:H; [|discriminate]
    end.
    apply andb_prop in H as [H H3]. apply andb_prop in H as [H1 H2].
    intros [= <-]. cbn. split; [|split; [|split; [|exact I]]].
    - eapply between_high; [|exact H1]. destruct (_ =? 240); lia.
    - eapply between_high; [|exact H2]. lia.
    - eapply between_high; [|exact H3]. lia. }
  discriminate.
Qed.

Lemma scanString_encodeFrom n : forall s k rest,
  (String.length s <= n)%nat -> highBytes k s ->
  scanString (encodeFrom k s ++ String dquote rest)%string = Some rest.
Proof.
  induction n as [|n IH]; intros s k rest Hlen Hk.
  - destruct s; [reflexivity | cbn in Hlen; lia].
  - destruct s as [|b r]; [reflexivity|]. cbn in Hlen.
    destruct k as [|k].
    + cbn [encodeFrom]. destruct (GoStr.byte_val b <? 128) eqn:Hb.
      * rewrite string_app_assoc, scanString_escapeByte by exact Hb.
        apply IH; [lia | exact I].
      * destruct (runeWidth b r) as [|k0] eqn:Hw.
        { change (scanString (encodeFrom 0 r ++ String dquote rest)%string
                  = Some rest).
          apply IH; [lia | exact I]. }
        assert (Hplain :
                  scanString (String b (encodeFrom k0 r) ++ String dquote rest)%string
                  = Some rest).
        { rewrite string_app_cons, scanString_high by exact Hb.
          apply IH; [lia | now apply runeWidth_high with b]. }
        destruct r as [|c1 [|c2 r2]]; try exact Hplain.
        destruct ((GoStr.byte_val b =? 226) && (GoStr.byte_val c1 =? 128)
                  && ((GoStr.byte_val c2 =? 168) || (GoStr.byte_val c2 =? 169)))
          eqn:Hsep; [|exact Hplain].
        apply andb_prop in Hsep as [_ Hc2].
        assert (Hhex : isHex (hexDigit (GoStr.byte_val c2 mod 16)) = true).
        { apply orb_prop in Hc2 as [H|H]; apply Z.eqb_eq in H; rewrite H;
            reflexivity. }
        simpl. rewrite Hhex. cbn in Hlen. apply IH; [lia | exact I].
    + destruct Hk as [Hb Hk]. cbn [encodeFrom].
      rewrite string_app_cons, scanString_high by exact Hb.
      apply IH; [lia | exact Hk].
Qed.

Lemma accepted_str d s : accepted d (encodeString s).
Proof.
  split; [cbn; repeat split; discriminate|].
  intros fuel rest _ Hf. destruct fuel as [|f]; [lia|].
  unfold encodeString. rewrite string_app_cons, string_app_assoc.
  change (scanString (encodeFrom 0 s ++ String dquote rest)%string = Some rest).
  apply (scanString_encodeFrom (String.length s)); [lia | exact I].
Qed.

(** *** Literals and numbers *)

Lemma accepted_literal d s :
  s = "null" \/ s = "true" \/ s = "false" -> accepted d s.
Proof.
  intros [-> | [-> | ->]];
    (split; [cbn; repeat split; discriminate|];
     intros fuel rest _ Hf; destruct fuel as [|f]; [cbn in Hf; lia | reflexivity]).
Qed.

Lemma nzhead_head u : forall v, Decimal.nzhead u <> Decimal.D0 v.
Proof. induction u; cbn; intros v; try discriminate. apply IHu. Qed.

Lemma to_uint_head p : forall v, Pos.to_uint p <> Decimal.D0 v.
Proof.
  intros v Hp.
  assert (Hn : Decimal.unorm (Pos.to_uint p) = Pos.to_uint p).
  { rewrite <- DecimalPos.Unsigned.to_of, DecimalPos.Unsigned.of_to.
    reflexivity. }
  rewrite Hp in Hn. unfold Decimal.unorm in Hn. cbn [Decimal.nzhead] in Hn.
  destruct (Decimal.nzhead v) eqn:Hv; try discriminate.
  - injection Hn as <-. now apply (DecimalPos.Unsigned.to_uint_nonzero p).
  - exact (nzhead_head v _ Hv).
Qed.

Lemma skipDigits_uint u rest :
  delimited rest ->
  skipDigits (NilEmpty.string_of_uint u ++ rest)%string = rest.
Proof.
  intros Hr. induction u; simpl; try exact IHu.
  destruct rest as [|c r]; [reflexivity|].
  destruct (delimited_not_digit c r Hr) as (Hd & _). cbn. now rewrite Hd.
Qed.

Lemma scanFraction_delimited rest : delimited rest -> scanFraction rest = Some rest.
Proof.
  destruct rest as [|c r]; [reflexivity|]. intros Hr.
  destruct (delimited_not_digit c r Hr) as (_ & H1 & H2 & H3 & _).
  cbn. now rewrite H1, H2, H3.
Qed.

Lemma scanNumber_uint p rest :
  delimited rest ->
  scanNumber (NilEmpty.string_of_uint (Pos.to_uint p) ++ rest)%string = Some rest.
Proof.
  intros Hr. pose proof (to_uint_head p) as H0.
  pose proof (DecimalPos.Unsigned.to_uint_nonnil p) as Hnil.
  destruct (Pos.to_uint p) as [|u|u|u|u|u|u|u|u|u|u];
    [contradiction | now elim (H0 u) | ..];
    (simpl;
     match goal with
     | |- scanNumber (String ?c ?r) = _ =>
         change (scanNumber (String c r)) with (scanFraction (skipDigits r))
     end;
     rewrite (skipDigits_uint u rest Hr);
     now apply scanFraction_delimited).
Qed.

Lemma Itoa_cases z :
  (z = 0 /\ GoStr.Itoa z = "0") \/
  (exists p, GoStr.Itoa z = NilEmpty.string_of_uint (Pos.to_uint p)) \/
  (exists p, GoStr.Itoa z
             = String "-" (NilEmpty.string_of_uint (Pos.to_uint p))).
Proof.
  destruct z as [|p|p]; [left; split; reflexivity | right; left | right; right];
    exists p; unfold GoStr.Itoa; cbn [Z.to_int NilZero.string_of_int];
    unfold NilZero.string_of_uint;
    pose proof (DecimalPos.Unsigned.to_uint_nonnil p) as Hnil;
    destruct (Pos.to_uint p); try reflexivity; contradiction.
Qed.

Lemma accepted_int d z : accepted d (GoStr.Itoa z).
Proof.
  destruct (Itoa_cases z) as [[_ ->] | [[p ->] | [p ->]]].
  - split; [cbn; repeat split; discriminate|].
    intros fuel rest Hr Hf. destruct fuel as [|f]; [lia|].
    change (scanFraction rest = Some rest). now apply scanFraction_delimited.
  - pose proof (scanNumber_uint p) as Hs.
    pose proof (to_uint_head p) as H0.
    pose proof (DecimalPos.Unsigned.to_uint_nonnil p) as Hnil.
    destruct (Pos.to_uint p) as [|u|u|u|u|u|u|u|u|u|u];
      [contradiction | now elim (H0 u) | ..];
      (split; [cbn; repeat split; discriminate|];
       intros fuel rest Hr Hf; destruct fuel as [|f]; [lia|];
       exact (Hs rest Hr)).
  - pose proof (scanNumber_uint p) as Hs.
    pose proof (to_uint_head p) as H0.
    pose proof (DecimalPos.Unsigned.to_uint_nonnil p) as Hnil.
    destruct (Pos.to_uint p) as [|u|u|u|u|u|u|u|u|u|u];
      [contradiction | now elim (H0 u) | ..];
      (split; [cbn; repeat split; discriminate|];
       intros fuel rest Hr Hf; destruct fuel as [|f]; [lia|];
       exact (Hs rest Hr)).
Qed.

(** *** Arrays and objects *)

Lemma startsValue_app s t : startsValue s -> startsValue (s ++ t)%string.
Proof. destruct s; [contradiction | exact id]. Qed.

Lemma joinComma_cons x y ys :
  joinComma (x :: y :: ys) = (x ++ "," ++ joinComma (y :: ys))%string.
Proof. reflexivity. Qed.

Lemma startsValue_joinComma x xs :
  startsValue x -> startsValue (joinComma (x :: xs)).
Proof.
  destruct xs as [|y ys]; [exact id|]. rewrite joinComma_cons.
  apply startsValue_app.
Qed.

Lemma scanElements_joinComma d rest xs : forall fuel,
  xs <> [] -> Forall (accepted d) xs ->
  (2 * String.length (joinComma xs) + 2 <= fuel)%nat ->
  scanElements fuel d (joinComma xs ++ String "]" rest)%string = Some rest.
Proof.
  induction xs as [|x xs IH]; intros fuel Hne HF Hf; [congruence|].
  apply Forall_cons in HF as [[Hx Hscan] HF].
  destruct fuel as [|f]; [lia|]. cbn [scanElements].
  destruct xs as [|y ys].
  - cbn [joinComma] in *.
    rewrite (Hscan f (String "]" rest)); [reflexivity | cbn; tauto | lia].
  - rewrite joinComma_cons in *. rewrite !string_length_app in Hf.
    rewrite !string_app_assoc, string_app_cons.
    rewrite (Hscan f); [| cbn; tauto | lia].
    change (scanElements f d
              (skipWS (EmptyString ++ joinComma (y :: ys) ++ String "]" rest)%string)
            = Some rest).
    change (EmptyString ++ ?t)%string with t.
    assert (Hy : startsValue (joinComma (y :: ys))).
    { apply startsValue_joinComma. apply Forall_cons in HF as [[Hy _] _].
      exact Hy. }
    rewrite (skipWS_startsValue _ _ Hy).
    change (String.length ",") with 1%nat in Hf.
    apply IH; [discriminate | exact HF | lia].
Qed.

Lemma bracket_text (o c : ascii) (body rest : string) :
  ((String o EmptyString ++ body ++ String c EmptyString) ++ rest)%string
  = String o (body ++ String c rest)%string.
Proof. rewrite !string_app_assoc. reflexivity. Qed.

Lemma accepted_arr d xs :
  d < maxNestingDepth -> Forall (accepted (d + 1)) xs ->
  accepted d ("[" ++ joinComma xs ++ "]")%string.
Proof.
  intros Hd HF. split; [cbn; repeat split; discriminate|].
  intros fuel rest Hr Hf. destruct fuel as [|f]; [lia|].
  apply Z.ltb_lt in Hd.
  rewrite bracket_text. cbn [scanValue].
  change (Ascii.eqb "[" "{") with false. change (Ascii.eqb "[" "[") with true.
  cbv iota. rewrite Hd.
  destruct xs as [|x xs].
  - reflexivity.
  - assert (Hs : startsValue (joinComma (x :: xs))).
    { apply startsValue_joinComma. apply Forall_cons in HF as [[Hx _] _].
      exact Hx. }
    rewrite (skipWS_startsValue _ _ Hs).
    rewrite !string_length_app in Hf. cbn [String.length] in Hf.
    pose proof (scanElements_joinComma (d + 1) rest (x :: xs) f
                  ltac:(discriminate) HF ltac:(lia)) as Hscan.
    destruct (joinComma (x :: xs)) as [|c1 r1]; [contradiction|].
    destruct Hs as (_ & Hc1 & _).
    rewrite string_app_cons in *.
    destruct (Ascii.eqb_spec c1 "]"); [contradiction|]. exact Hscan.
Qed.

Lemma memberText_starts d m : memberText d m -> startsValue m.
Proof. intros (k & v & -> & _). cbn. repeat split; discriminate. Qed.

Lemma memberText_head d m :
  memberText d m -> exists r, m = String dquote r.
Proof. intros (k & v & -> & _). eexists. reflexivity. Qed.

(** One member, then whatever follows it. *)
Lemma scanMember d k v tail f :
  accepted d v -> delimited tail -> (2 * String.length v < f)%nat ->
  scanString ((encodeFrom 0 k ++ String dquote EmptyString)
              ++ ":" ++ v ++ tail)%string
  = Some (String ":" (v ++ tail))%string /\
  scanValue f d (skipWS (v ++ tail)%string) = Some tail.
Proof.
  intros [Hv Hscan] Ht Hf. split.
  - rewrite string_app_assoc.
    change (scanString (encodeFrom 0 k ++ String dquote (String ":" (v ++ tail)))%string
            = Some (String ":" (v ++ tail))%string).
    apply (scanString_encodeFrom (String.length k)); [lia | exact I].
  - rewrite (skipWS_startsValue _ _ Hv). now apply Hscan.
Qed.

Lemma scanMembers_joinComma d rest ms : forall fuel,
  ms <> [] -> Forall (memberText d) ms ->
  (2 * String.length (joinComma ms) + 2 <= fuel)%nat ->
  scanMembers fuel d (joinComma ms ++ String "}" rest)%string = Some rest.
Proof.
  induction ms as [|m ms IH]; intros fuel Hne HF Hf; [congruence|].
  apply Forall_cons in HF as [(k & v & -> & Hv) HF].
  destruct fuel as [|f]; [lia|].
  destruct ms as [|m' ms'].
  - cbn [joinComma] in *. rewrite !string_length_app in Hf.
    destruct (scanMember d k v (String "}" rest) f Hv) as [H1 H2];
      [cbn; tauto | lia |].
    unfold encodeString.
    replace ((String dquote (encodeFrom 0 k ++ String dquote EmptyString)
              ++ ":" ++ v) ++ String "}" rest)%string
      with (String dquote
              ((encodeFrom 0 k ++ String dquote EmptyString)
               ++ ":" ++ v ++ String "}" rest))%string
      by (repeat (rewrite string_app_cons || rewrite string_app_assoc);
          reflexivity).
    cbn [scanMembers]. change (Ascii.eqb dquote dquote) with true. cbv iota.
    rewrite H1. rewrite (skipWS_head ":"%char) by reflexivity.
    change (Ascii.eqb ":" ":") with true. cbv iota beta. rewrite H2.
    reflexivity.
  - rewrite joinComma_cons in *. rewrite !string_length_app in Hf.
    change (String.length ",") with 1%nat in Hf.
    set (J := joinComma (m' :: ms')) in *.
    destruct (scanMember d k v (String "," (J ++ String "}" rest)) f Hv)
      as [H1 H2]; [cbn; tauto | lia |].
    assert (HJ : startsValue J).
    { apply startsValue_joinComma. apply Forall_cons in HF as [Hm _].
      now apply memberText_starts with d. }
    unfold encodeString.
    replace (((String dquote (encodeFrom 0 k ++ String dquote EmptyString)
               ++ ":" ++ v) ++ "," ++ J) ++ String "}" rest)%string
      with (String dquote
              ((encodeFrom 0 k ++ String dquote EmptyString)
               ++ ":" ++ v ++ String "," (J ++ String "}" rest)))%string
      by (repeat (rewrite string_app_cons || rewrite string_app_assoc);
          reflexivity).
    cbn [scanMembers]. change (Ascii.eqb dquote dquote) with true. cbv iota.
    rewrite H1. rewrite (skipWS_head ":"%char) by reflexivity.
    change (Ascii.eqb ":" ":") with true. cbv iota beta. rewrite H2.
    rewrite (skipWS_head ","%char) by reflexivity.
    change (Ascii.eqb "," ",") with true. cbv iota.
    rewrite (skipWS_startsValue _ _ HJ).
    apply IH; [discriminate | exact HF | lia].
Qed.

Lemma accepted_obj d ms :
  d < maxNestingDepth -> Forall (memberText (d + 1)) ms ->
  accepted d ("{" ++ joinComma ms ++ "}")%string.
Proof.
  intros Hd HF. split; [cbn; repeat split; discriminate|].
  intros fuel rest Hr Hf. destruct fuel as [|f]; [lia|].
  apply Z.ltb_lt in Hd.
  rewrite bracket_text. cbn [scanValue].
  change (Ascii.eqb "{" "{") with true. cbv iota. rewrite Hd.
  destruct ms as [|m ms].
  - reflexivity.
  - assert (Hs : startsValue (joinComma (m :: ms))).
    { apply startsValue_joinComma. apply Forall_cons in HF as [Hm _].
      now apply memberText_starts with (d + 1). }
    rewrite (skipWS_startsValue _ _ Hs).
    rewrite !string_length_app in Hf. cbn [String.length] in Hf.
    pose proof (scanMembers_joinComma (d + 1) rest (m :: ms) f
                  ltac:(discriminate) HF ltac:(lia)) as Hscan.
    destruct (joinComma (m :: ms)) as [|c1 r1]; [contradiction|].
    destruct Hs as (_ & _ & Hc1).
    rewrite string_app_cons in *.
    destruct (Ascii.eqb_spec c1 "}"); [contradiction|]. exact Hscan.
Qed.

(** Induction on values, through the lists of items and members. *)
Lemma value_nested_ind (P : value -> Prop) :
  P Null -> (forall b, P (Bool b)) -> (forall z, P (Int z)) ->
  (forall s, P (Str s)) -> (forall bytes, P (Raw bytes)) ->
  (forall items, Forall P items -> P (Arr items)) ->
  (forall members, Forall (fun kv => P (snd kv)) members -> P (Obj members)) ->
  forall v, P v.
Proof.
  intros Hnull Hbool Hint Hstr Hraw Harr Hobj.
  fix IH 1. intros [| b | z | s | bytes | items | members].
  - exact Hnull.
  - apply Hbool.
  - apply Hint.
  - apply Hstr.
  - apply Hraw.
  - apply Harr. revert items. fix IHl 1. intros [|x items].
    + constructor.
    + constructor; [apply IH | apply IHl].
  - apply Hobj. revert members. fix IHl 1. intros [|[k x] members].
    + constructor.
    + constructor; [apply IH | apply IHl].
Qed.

(** The scanner accepts the text of every well-formed value. *)
Lemma render_accepted v : forall d, wellFormed d v -> accepted d (render v).
Proof.
  induction v as [| b | z | s | bytes | items IH | members IH]
    using value_nested_ind; intros d Hwf; cbn [render].
  - apply accepted_literal. tauto.
  - destruct b; apply accepted_literal; tauto.
  - apply accepted_int.
  - apply accepted_str.
  - inversion Hwf; subst. assumption.
  - inversion Hwf as [| | | | | d' items' Hd HF |]; subst.
    apply accepted_arr; [exact Hd|].
    apply Forall_map. rewrite Forall_forall in *. intros x Hx.
    apply (IH x Hx). apply (HF x Hx).
  - inversion Hwf as [| | | | | | d' members' Hd HF]; subst.
    apply accepted_obj; [exact Hd|].
    apply Forall_map. rewrite Forall_forall in *. intros [k x] Hx.
    exists k, (render x). split; [reflexivity|].
    apply (IH (k, x) Hx). apply (HF (k, x) Hx).
Qed.

Lemma accepted_Valid s : accepted 0 s -> Valid s = true.
Proof.
  intros [Hs Hscan]. unfold Valid.
  pose proof (skipWS_startsValue s EmptyString Hs) as Hw.
  assert (Hnil : (s ++ EmptyString)%string = s).
  { clear. induction s as [|c s IH]; simpl; congruence. }
  rewrite Hnil in Hw. rewrite Hw.
  specialize (Hscan (S (2 * String.length s)) EmptyString I ltac:(lia)).
  rewrite Hnil in Hscan. rewrite Hscan. reflexivity.
Qed.

(** [json.Valid] holds of what [json.Marshal] writes. *)
Lemma Valid_Marshal v : wellFormed 0 v -> Valid (Marshal v) = true.
Proof. intros H. apply accepted_Valid. now apply render_accepted. Qed.

End ScannerFacts.

(** ** The compiled documents are valid JSON *)

Section CompiledValid.

Import Json Tunnel.

Ltac wf_members :=
  repeat first
    [ apply Forall_nil_2
    | apply Forall_cons_2; cbn [snd]
    | apply Forall_app_2 ].

Lemma wf_strs d l :
  d < maxNestingDepth -> wellFormed d (Arr (map Str l)).
Proof.
  intros Hd. constructor; [exact Hd|]. apply Forall_map.
  apply Forall_forall. intros x _. constructor.
Qed.

Lemma wf_strOmit d k s : Forall (fun kv => wellFormed d (snd kv)) (strOmit k s).
Proof. unfold strOmit. destruct (String.eqb s ""); wf_members. constructor. Qed.

Lemma wf_strsOmit d k l :
  d < maxNestingDepth -> Forall (fun kv => wellFormed d (snd kv)) (strsOmit k l).
Proof.
  intros Hd. unfold strsOmit. destruct l; wf_members.
  now apply (wf_strs d (_ :: _)).
Qed.

Lemma wf_intOmit d k z : Forall (fun kv => wellFormed d (snd kv)) (intOmit k z).
Proof. unfold intOmit. destruct (z =? 0); wf_members. constructor. Qed.

Lemma wf_optOmit {A} d k (f : A -> value) o :
  (forall a, o = Some a -> wellFormed d (f a)) ->
  Forall (fun kv => wellFormed d (snd kv)) (optOmit k f o).
Proof. intros H. destruct o; wf_members. now apply H. Qed.

Lemma wf_rawOmit d k m :
  rawAccepted d m -> Forall (fun kv => wellFormed d (snd kv)) (rawOmit k m).
Proof.
  intros H. unfold rawOmit. destruct m as [bytes|]; [|wf_members].
  destruct (String.eqb bytes ""); wf_members. now constructor.
Qed.

Lemma wf_rawValue d m : rawAccepted d m -> wellFormed d (rawValue m).
Proof. intros H. destruct m; now constructor. Qed.

Lemma wf_realityJSON d r :
  d + 1 < maxNestingDepth -> wellFormed d (realityJSON r).
Proof.
  intros Hd. constructor; [lia|]. unfold field. wf_members;
    first [ constructor | apply wf_strOmit | apply wf_intOmit
          | apply wf_strsOmit; lia ].
Qed.

Lemma wf_streamJSON d s :
  d + 2 < maxNestingDepth -> wellFormed d (streamJSON s).
Proof.
  intros Hd. constructor; [lia|]. unfold field. wf_members;
    try (now constructor); apply wf_optOmit; intros a _.
  - apply wf_realityJSON. lia.
  - constructor; [lia|]. apply wf_strOmit.
  - constructor; [lia|]. unfold field. wf_members. constructor.
Qed.

Lemma wf_inboundJSON d i :
  d + 3 < maxNestingDepth -> rawAccepted (d + 1) (InSettings i) ->
  wellFormed d (inboundJSON i).
Proof.
  intros Hd Hraw. constructor; [lia|]. unfold field. wf_members;
    try (now constructor).
  - apply wf_strOmit.
  - now apply wf_rawValue.
  - apply wf_optOmit. intros a _. apply wf_streamJSON. lia.
Qed.

Lemma wf_outboundJSON d o :
  d + 3 < maxNestingDepth -> rawAccepted (d + 1) (OutSettings o) ->
  wellFormed d (outboundJSON o).
Proof.
  intros Hd Hraw. constructor; [lia|]. unfold field. wf_members;
    try (now constructor).
  - now apply wf_rawOmit.
  - apply wf_optOmit. intros a _. apply wf_streamJSON. lia.
Qed.

Lemma wf_fullConfigJSON xc :
  Forall (fun i => rawAccepted 3 (InSettings i)) (Inbounds xc) ->
  Forall (fun o => rawAccepted 3 (OutSettings o)) (Outbounds xc) ->
  wellFormed 0 (fullConfigJSON xc).
Proof.
  intros Hin Hout. constructor; [reflexivity|]. unfold field. wf_members.
  - apply wf_optOmit. intros l _. constructor; [reflexivity|].
    unfold field. wf_members. constructor.
  - constructor; [reflexivity|]. apply Forall_map.
    eapply Forall_impl; [exact Hin|]. intros i Hi.
    apply wf_inboundJSON; [reflexivity | exact Hi].
  - constructor; [reflexivity|]. apply Forall_map.
    eapply Forall_impl; [exact Hout|]. intros o Ho.
    apply wf_outboundJSON; [reflexivity | exact Ho].
Qed.

(** The settings the builders marshal themselves. *)
Lemma accepted_settings d v :
  d + 4 < maxNestingDepth ->
  (exists uuid, v = vlessSettings uuid) \/
  (exists host port uuid, v = vlessOutSettings host port uuid) \/
  v = Marshal (Obj []) \/
  (exists b, v = Marshal (Obj [("udp", Bool b)])) \/
  (exists b, v = Marshal (Obj [("allowTransparent", Bool b)])) ->
  accepted d v.
Proof.
  intros Hd [[u ->] | [(h & p & u & ->) | [-> | [[b ->] | [b ->]]]]];
    apply render_accepted;
    repeat first [ apply Forall_nil_2
                 | apply Forall_cons_2; cbn [snd]
                 | constructor; [lia|]
                 | constructor ].
Qed.

Lemma addFallbacks_Forall (P : xrayInbound -> Prop) fbs : forall i acc l,
  (forall i fb h p, P (fallbackInbound i fb h p)) ->
  Forall P acc -> addFallbacks i fbs acc = Ok l -> Forall P l.
Proof.
  induction fbs as [|fb fbs IH]; intros i acc l HP Hacc; cbn [addFallbacks].
  - intros [= <-]. exact Hacc.
  - destruct (splitHostPort (FbListen fb)) as [[h p]|e]; [|discriminate].
    apply IH; [exact HP|]. apply Forall_app. split; [exact Hacc|].
    constructor; [apply HP | constructor].
Qed.

Lemma serverXrayConfig_wf cfg xc :
  serverXrayConfig cfg = Ok xc -> wellFormed 0 (fullConfigJSON xc).
Proof.
  unfold serverXrayConfig.
  destruct (splitHostPort (Listen cfg)) as [[h p]|e]; [|discriminate].
  match goal with
  | |- context [addFallbacks 0 ?fbs ?acc] =>
      destruct (addFallbacks 0 fbs acc) as [l|e] eqn:Hl; [|discriminate]
  end.
  intros [= <-]. apply wf_fullConfigJSON; cbn [Inbounds Outbounds].
  - eapply addFallbacks_Forall; [| |exact Hl].
    + intros i fb h' p'. cbn [InSettings fallbackInbound rawAccepted].
      apply accepted_settings; [reflexivity|]. tauto.
    + apply Forall_cons_2; [|apply Forall_nil_2].
      cbn [InSettings rawAccepted].
      apply accepted_settings; [reflexivity|]. left. eexists. reflexivity.
  - repeat apply Forall_cons_2; try apply Forall_nil_2; exact I.
Qed.

Lemma clientXrayConfig_wf cfg xc :
  clientXrayConfig cfg = Ok xc -> wellFormed 0 (fullConfigJSON xc).
Proof.
  unfold clientXrayConfig.
  destruct (splitHostPort (LocalListen cfg)) as [[h p]|e]; [|discriminate].
  destruct (parseServerAddr (Server cfg)) as [sh sp].
  intros [= <-]. apply wf_fullConfigJSON; cbn [Inbounds Outbounds].
  - assert (Hsocks : accepted 3 (Marshal (Obj [("udp", Bool true)]))).
    { apply accepted_settings; [reflexivity|].
      right. right. right. left. eexists. reflexivity. }
    assert (Hhttp : accepted 3 (Marshal (Obj [("allowTransparent", Bool false)]))).
    { apply accepted_settings; [reflexivity|].
      right. right. right. right. eexists. reflexivity. }
    destruct (String.eqb (HTTPListen cfg) "");
      [|destruct (splitHostPort (HTTPListen cfg)) as [[hh hp]|e]];
      repeat apply Forall_cons_2; try apply Forall_nil_2; assumption.
  - apply Forall_cons_2; [|apply Forall_cons_2; [exact I | apply Forall_nil_2]].
    cbn [OutSettings rawAccepted].
    apply accepted_settings; [reflexivity|].
    right. left. do 3 eexists. reflexivity.
Qed.

(** The stub loader accepts every document the builders return. *)
Lemma stubLoader_compiled e jsonCfg :
  compiled e = Some (Ok jsonCfg) -> stubLoader jsonCfg = Ok stubInstance.
Proof.
  unfold compiled, BuildServerJSON, BuildClientJSON, stubLoader.
  destruct (mode e); [destruct (config e) as [cfg|] | destruct (clientConfig e) as [cfg|] |];
    try discriminate.
  - destruct (serverXrayConfig cfg) as [xc|err] eqn:Hxc; [|discriminate].
    pose proof (Valid_Marshal _ (serverXrayConfig_wf cfg xc Hxc)) as HV.
    intros H. assert (Hj : jsonCfg = Marshal (fullConfigJSON xc)) by congruence.
    rewrite Hj, HV. reflexivity.
  - destruct (clientXrayConfig cfg) as [xc|err] eqn:Hxc; [|discriminate].
    pose proof (Valid_Marshal _ (clientXrayConfig_wf cfg xc Hxc)) as HV.
    intros H. assert (Hj : jsonCfg = Marshal (fullConfigJSON xc)) by congruence.
    rewrite Hj, HV. reflexivity.
Qed.

End CompiledValid.

(** ** The engine supervisor with the stub loader *)

Section StubEngine.

Import Tunnel.

Lemma NewEngine_fresh L cfg e :
  NewEngine L cfg = Ok e ->
  status e = StatusStopped /\ loader e = L /\ instance e = None.
Proof.
  unfold NewEngine. destruct cfg as [c|]; [|discriminate].
  destruct (Validate c) as [c' [err|]]; [discriminate|].
  intros [= <-]. repeat split.
Qed.

Lemma NewClientEngine_fresh L cfg e :
  NewClientEngine L cfg = Ok e ->
  status e = StatusStopped /\ loader e = L /\ instance e = None.
Proof.
  unfold NewClientEngine. destruct cfg as [c|]; [|discriminate].
  destruct (ValidateClient c) as [c' [err|]]; [discriminate|].
  intros [= <-]. repeat split.
Qed.

(** [Start] when the builder rejects the configuration. *)
Lemma Start_build_failed e err :
  status e <> StatusRunning -> compiled e = Some (Err err) ->
  exists e',
    Start e = Some (e', Some (ErrBuildFailed err)) /\ status e' = StatusError.
Proof.
  intros Hs Hc. unfold Start, compiled in *.
  apply statusEqb_running in Hs. rewrite Hs.
  cbn [mode config clientConfig setStatus].
  destruct (mode e);
    [destruct (config e) as [c|] | destruct (clientConfig e) as [c|] |];
    try discriminate.
  - assert (Hb : BuildServerJSON (Some c) = Err err) by congruence.
    rewrite Hb. eexists. split; reflexivity.
  - assert (Hb : BuildClientJSON (Some c) = Err err) by congruence.
    rewrite Hb. eexists. split; reflexivity.
Qed.

(** C4, as stated, fails: [NewEngine] accepts a configuration whose
    listen address has no port; the engine is built with the stub loader
    in the stopped state, and its first [Start] fails and leaves the
    status [error]. *)
Lemma C4_first_start_fails :
  NewEngine stubLoader (Some (Samples.server "localhost" []))
  = Ok (Samples.serverEngine StatusStopped "localhost") /\
  exists e1,
    Start (Samples.serverEngine StatusStopped "localhost")
    = Some (e1, Some (ErrBuildFailed (ErrInvalidListen (ErrNoPort "localhost"))))
    /\ status e1 = StatusError.
Proof.
  split; [reflexivity|].
  apply Start_build_failed; [discriminate | reflexivity].
Qed.

(** C4, amended: for an engine built by [NewEngine] or [NewClientEngine]
    with the stub loader whose configuration compiles, the sequence
    [Start; Start; Stop; Stop] goes: the first [Start] succeeds and the
    status is [running]; the second fails with the already-running error
    and changes nothing; the first [Stop] succeeds and the status is
    [stopped]; the second fails with the not-running error and changes
    nothing.  And [Stop] of any running engine returns [nil] and leaves
    the status [stopped] also when [Close] of its instance returns an
    error, which is logged. *)
Theorem C4_start_start_stop_stop (e0 : Engine) :
  ((exists cfg, NewEngine stubLoader cfg = Ok e0) \/
   (exists cfg, NewClientEngine stubLoader cfg = Ok e0)) ->
  (exists jsonCfg, compiled e0 = Some (Ok jsonCfg)) ->
  (exists e1 e2,
     Start e0 = Some (e1, None) /\ status e1 = StatusRunning /\
     Start e1 = Some (e1, Some ErrAlreadyRunning) /\
     Stop e1 = (e2, None) /\ status e2 = StatusStopped /\
     Stop e2 = (e2, Some (ErrNotRunning StatusStopped))) /\
  (forall e inst err,
     status e = StatusRunning -> instance e = Some inst ->
     InstClose inst = Some err ->
     exists e',
       Stop e = (e', None) /\ status e' = StatusStopped /\
       In (LError, "error closing xray instance") (logger e')).
Proof.
  intros Hnew [jsonCfg Hc]. split.
  - assert (Hfresh : status e0 = StatusStopped /\ loader e0 = stubLoader).
    { destruct Hnew as [[cfg H] | [cfg H]];
        [apply NewEngine_fresh in H | apply NewClientEngine_fresh in H];
        tauto. }
    destruct Hfresh as [Hs HL].
    destruct (Start_not_running e0 jsonCfg stubInstance) as (e1 & H1 & Hs1 & _).
    { rewrite Hs. discriminate. }
    { exact Hc. }
    { rewrite HL. now apply stubLoader_compiled with e0. }
    { reflexivity. }
    destruct (Stop_running e1 Hs1) as (e2 & H2 & Hs2 & _).
    exists e1, e2. repeat split; try assumption.
    + now apply Start_running.
    + pose proof (Stop_not_running e2) as H3. rewrite Hs2 in H3.
      apply H3. discriminate.
  - intros e inst err Hs Hi Hcl.
    destruct (Stop_running e Hs) as (e' & H1 & H2 & _ & _ & _ & _ & _ & _ & Hlog).
    exists e'. repeat split; try assumption. now apply (Hlog inst err).
Qed.

Lemma C4_start_start_stop_stop_witness :
  exists e1 e2,
    Start (Samples.serverEngine StatusStopped ":443") = Some (e1, None) /\
    status e1 = StatusRunning /\
    Stop e1 = (e2, None) /\ status e2 = StatusStopped.
Proof.
  destruct (C4_start_start_stop_stop (Samples.serverEngine StatusStopped ":443"))
    as [(e1 & e2 & H1 & H2 & _ & H4 & H5 & _) _].
  - left. exists (Some (Samples.server ":443" [])). reflexivity.
  - eexists. vm_compute. reflexivity.
  - exists e1, e2. repeat split; assumption.
Defined.

End StubEngine.

(** ** What the case-insensitive scan finds in a compiled document *)

Section ScanFacts.

Import Json Tunnel.

Local Arguments String.append : simpl nomatch.

Lemma matchesAtCI_foreign n : forall a c b,
  foreign c n = true ->
  matchesAtCI (a ++ String c b)%string n = matchesAtCI a n.
Proof.
  induction n as [|x n IH]; intros a c b Hc; [now destruct a|].
  cbn [foreign] in Hc. apply andb_prop in Hc as [Hx Hn].
  destruct a as [|h a]; simpl.
  - apply negb_true_iff in Hx. now rewrite Hx.
  - now rewrite (IH a c b Hn).
Qed.

Lemma containsCI_empty n : n <> "" -> containsCI "" n = false.
Proof. destruct n; [congruence | reflexivity]. Qed.

(** A byte foreign to the needle separates what is searched. *)
Lemma containsCI_sep n a c b :
  n <> "" -> foreign c n = true ->
  containsCI (a ++ String c b)%string n = containsCI a n || containsCI b n.
Proof.
  intros Hn Hc. induction a as [|h a IH].
  - change (containsCI (String c b) n = containsCI "" n || containsCI b n).
    rewrite (containsCI_empty n Hn). cbn [containsCI orb].
    change (String c b) with ("" ++ String c b)%string at 1.
    rewrite (matchesAtCI_foreign n "" c b Hc).
    destruct n; [congruence | reflexivity].
  - change (matchesAtCI (String h a ++ String c b)%string n
            || containsCI (a ++ String c b)%string n
            = (matchesAtCI (String h a) n || containsCI a n) || containsCI b n).
    rewrite (matchesAtCI_foreign n (String h a) c b Hc), IH.
    now rewrite orb_assoc.
Qed.

Lemma containsCI_headForeign n s :
  n <> "" -> allBytes (fun c => headForeign c n) s = true ->
  containsCI s n = false.
Proof.
  intros Hn. destruct n as [|x n]; [congruence|].
  induction s as [|h s IH]; intros Hs; [reflexivity|].
  cbn [allBytes headForeign] in Hs. apply andb_prop in Hs as [Hh Hs].
  cbn [containsCI matchesAtCI]. apply negb_true_iff in Hh. rewrite Hh.
  now apply IH.
Qed.

Lemma allBytes_In p s c :
  allBytes p s = true -> In c (list_ascii_of_string s) -> p c = true.
Proof.
  induction s as [|h s IH]; cbn; [tauto|].
  intros H [<- | Hc]; apply andb_prop in H as [Hh Hs]; auto.
Qed.

Lemma allBytes_uint p u :
  allBytes p "0123456789" = true ->
  allBytes p (NilEmpty.string_of_uint u) = true.
Proof.
  intros H. induction u; cbn [NilEmpty.string_of_uint allBytes];
    rewrite ?IHu, ?andb_true_r; try reflexivity;
    apply (allBytes_In p "0123456789" _ H); cbn; tauto.
Qed.

Lemma allBytes_Itoa p z :
  allBytes p numberBytes = true -> allBytes p (GoStr.Itoa z) = true.
Proof.
  intros H.
  assert (Hd : allBytes p "0123456789" = true).
  { unfold numberBytes in H. cbn [allBytes] in *.
    repeat (apply andb_prop in H as [?H H]).
    repeat (apply andb_true_intro; split; try assumption). }
  assert (Hm : p "-"%char = true)
    by (apply (allBytes_In p numberBytes _ H); cbn; tauto).
  destruct (Itoa_cases z) as [[_ ->] | [[q ->] | [q ->]]].
  - cbn. rewrite andb_true_r.
    apply (allBytes_In p "0123456789" _ Hd). cbn. tauto.
  - apply (allBytes_uint p _ Hd).
  - cbn [allBytes]. rewrite Hm. apply (allBytes_uint p _ Hd).
Qed.

Lemma scanSafe_facts n :
  scanSafe n = true ->
  n <> "" /\
  (forall c, In c (list_ascii_of_string punctuation) -> foreign c n = true) /\
  (forall z, containsCI (GoStr.Itoa z) n = false) /\
  containsCI "true" n = false /\ containsCI "false" n = false /\
  containsCI "null" n = false.
Proof.
  unfold scanSafe. intros H.
  repeat (apply andb_prop in H as [H ?H]).
  apply negb_true_iff in H, H0, H1, H2.
  assert (Hn : n <> "") by (intros ->; discriminate).
  repeat split; try assumption.
  - intros c Hc. now apply (allBytes_In _ punctuation c H4).
  - intros z. apply containsCI_headForeign; [exact Hn|].
    now apply allBytes_Itoa.
Qed.

Lemma containsCI_joinComma n xs :
  n <> "" -> foreign "," n = true ->
  containsCI (joinComma xs) n = existsb (fun x => containsCI x n) xs.
Proof.
  intros Hn Hc. induction xs as [|x xs IH].
  - now apply containsCI_empty.
  - destruct xs as [|y ys].
    + cbn [joinComma existsb]. now rewrite orb_false_r.
    + rewrite joinComma_cons.
      change (x ++ "," ++ joinComma (y :: ys))%string
        with (x ++ String "," (joinComma (y :: ys)))%string.
      rewrite (containsCI_sep n x _ _ Hn Hc), IH. reflexivity.
Qed.

Lemma containsCI_bracket n (o c : ascii) body :
  n <> "" -> foreign o n = true -> foreign c n = true ->
  containsCI (String o EmptyString ++ body ++ String c EmptyString)%string n
  = containsCI body n.
Proof.
  intros Hn Ho Hc.
  change (String o EmptyString ++ body ++ String c EmptyString)%string
    with (EmptyString ++ String o (body ++ String c EmptyString))%string.
  rewrite (containsCI_sep n _ _ _ Hn Ho), (containsCI_sep n _ _ _ Hn Hc).
  rewrite (containsCI_empty n Hn). now rewrite orb_false_r.
Qed.

Lemma containsCI_encodeString n s :
  n <> "" -> foreign dquote n = true ->
  containsCI (encodeString s) n = containsCI (encodeFrom 0 s) n.
Proof.
  intros Hn Hq.
  exact (containsCI_bracket n dquote dquote (encodeFrom 0 s) Hn Hq Hq).
Qed.

Lemma existsb_Forall_ext {A} (f g : A -> bool) l :
  Forall (fun x => f x = g x) l -> existsb f l = existsb g l.
Proof. induction 1 as [|x l Hx _ IH]; cbn; congruence. Qed.

Lemma existsb_map {A B} (f : B -> bool) (g : A -> B) l :
  existsb f (map g l) = existsb (fun x => f (g x)) l.
Proof. induction l as [|x l IH]; cbn; congruence. Qed.

(** The scan finds a safe needle in the text of a value exactly when it
    finds it in one of the value's strings or raw messages. *)
Lemma containsCI_render n v :
  scanSafe n = true -> containsCI (render v) n = atomsContain n v.
Proof.
  intros Hsafe.
  destruct (scanSafe_facts n Hsafe) as (Hn & Hp & Hint & Ht & Hf & Hnull).
  assert (Hq : foreign dquote n = true) by (apply Hp; cbn; tauto).
  assert (Hcomma : foreign "," n = true) by (apply Hp; cbn; tauto).
  assert (Hcolon : foreign ":" n = true) by (apply Hp; cbn; tauto).
  induction v as [| b | z | s | bytes | items IH | members IH]
    using value_nested_ind; cbn [render atomsContain].
  - exact Hnull.
  - destruct b; assumption.
  - apply Hint.
  - now apply containsCI_encodeString.
  - reflexivity.
  - rewrite containsCI_bracket by (try assumption; apply Hp; cbn; tauto).
    rewrite (containsCI_joinComma n _ Hn Hcomma), existsb_map.
    now apply existsb_Forall_ext.
  - rewrite containsCI_bracket by (try assumption; apply Hp; cbn; tauto).
    rewrite (containsCI_joinComma n _ Hn Hcomma), existsb_map.
    apply existsb_Forall_ext.
    eapply Forall_impl; [exact IH|]. intros [k x] Hx. cbn [fst snd] in *.
    change (encodeString k ++ ":" ++ render x)%string
      with (encodeString k ++ String ":" (render x))%string.
    rewrite (containsCI_sep n _ _ _ Hn Hcolon), Hx.
    now rewrite (containsCI_encodeString n k Hn Hq).
Qed.

(** *** Escaping a string that is followed by ASCII text *)

Lemma between_ascii lo hi a :
  128 <= lo -> (GoStr.byte_val a <? 128) = true -> between lo hi a = false.
Proof.
  intros Hlo Ha. unfold between. apply Z.ltb_lt in Ha.
  apply andb_false_intro1. apply Z.leb_gt. lia.
Qed.

Lemma asciiHead_cons a t :
  asciiHead (String a t) -> (GoStr.byte_val a <? 128) = true.
Proof. exact id. Qed.

Lemma runeWidth_app b r t :
  asciiHead t -> runeWidth b (r ++ t)%string = runeWidth b r.
Proof.
  intros Ht. unfold runeWidth.
  destruct ((194 <=? GoStr.byte_val b) && (GoStr.byte_val b <=? 223)).
  { destruct r as [|c1 r]; [|reflexivity].
    destruct t as [|a t]; [reflexivity|]. simpl.
    now rewrite (between_ascii 128 191 a ltac:(lia) Ht). }
  destruct ((224 <=? GoStr.byte_val b) && (GoStr.byte_val b <=? 239)).
  { set (lo := if GoStr.byte_val b =? 224 then 160 else 128).
    set (hi := if GoStr.byte_val b =? 237 then 159 else 191).
    assert (Hlo : 128 <= lo) by (subst lo; destruct (_ =? 224); lia).
    destruct r as [|c1 [|c2 r]]; [| |reflexivity].
    - destruct t as [|a [|a2 t]]; try reflexivity. simpl.
      now rewrite (between_ascii lo hi a Hlo Ht).
    - destruct t as [|a t]; [reflexivity|]. simpl.
      rewrite (between_ascii 128 191 a ltac:(lia) Ht).
      now rewrite andb_false_r. }
  destruct ((240 <=? GoStr.byte_val b) && (GoStr.byte_val b <=? 244)).
  { set (lo := if GoStr.byte_val b =? 240 then 144 else 128).
    set (hi := if GoStr.byte_val b =? 244 then 143 else 191).
    assert (Hlo : 128 <= lo) by (subst lo; destruct (_ =? 240); lia).
    destruct r as [|c1 [|c2 [|c3 r]]]; [| | |reflexivity].
    - destruct t as [|a [|a2 [|a3 t]]]; try reflexivity. simpl.
      now rewrite (between_ascii lo hi a Hlo Ht).
    - destruct t as [|a [|a2 t]]; try reflexivity. simpl.
      rewrite (between_ascii 128 191 a ltac:(lia) Ht).
      now rewrite andb_false_r.
    - destruct t as [|a t]; [reflexivity|]. simpl.
      rewrite (between_ascii 128 191 a ltac:(lia) Ht).
      now rewrite andb_false_r. }
  reflexivity.
Qed.

Lemma string_app_nil (s : string) : (s ++ "")%string = s.
Proof. induction s as [|c s IH]; simpl; congruence. Qed.

Lemma encodeFrom_app n : forall s k t,
  (String.length s <= n)%nat -> highBytes k s -> asciiHead t ->
  encodeFrom k (s ++ t)%string = (encodeFrom k s ++ encodeFrom 0 t)%string.
Proof.
  induction n as [|n IH]; intros s k t Hlen Hk Ht.
  - destruct s; [|cbn in Hlen; lia]. destruct k; [reflexivity|contradiction].
  - destruct s as [|b r].
    { destruct k; [reflexivity|contradiction]. }
    cbn in Hlen. rewrite string_app_cons. destruct k as [|k].
    + cbn [encodeFrom]. destruct (GoStr.byte_val b <? 128) eqn:Hb.
      * rewrite (IH r 0%nat t) by (try exact I; try assumption; lia).
        now rewrite string_app_assoc.
      * rewrite (runeWidth_app b r t Ht).
        destruct (runeWidth b r) as [|k0] eqn:Hw.
        { rewrite (IH r 0%nat t) by (try exact I; try assumption; lia).
          reflexivity. }
        pose proof (runeWidth_high b r k0 Hw) as Hhigh.
        assert (Hplain :
                  String b (encodeFrom k0 (r ++ t)%string)
                  = (String b (encodeFrom k0 r) ++ encodeFrom 0 t)%string).
        { rewrite (IH r k0 t) by (try assumption; lia). reflexivity. }
        destruct r as [|c1 [|c2 r2]].
        { destruct k0; [|contradiction].
          destruct t as [|a [|a2 t]]; try exact Hplain.
          cbn [String.append].
          apply asciiHead_cons in Ht.
          replace (GoStr.byte_val a =? 128) with false
            by (symmetry; apply Z.eqb_neq; apply Z.ltb_lt in Ht; lia).
          rewrite andb_false_r. exact Hplain. }
        { destruct t as [|a t]; [rewrite string_app_nil in *; exact Hplain|].
          cbn [String.append].
          apply asciiHead_cons in Ht.
          replace ((GoStr.byte_val a =? 168) || (GoStr.byte_val a =? 169))
            with false
            by (symmetry; apply orb_false_intro; apply Z.eqb_neq;
                apply Z.ltb_lt in Ht; lia).
          rewrite andb_false_r. exact Hplain. }
        cbn [String.append].
        destruct ((GoStr.byte_val b =? 226) && (GoStr.byte_val c1 =? 128)
                  && ((GoStr.byte_val c2 =? 168) || (GoStr.byte_val c2 =? 169))).
        { cbn in Hlen.
          rewrite (IH r2 0%nat t) by (try exact I; try assumption; lia).
          reflexivity. }
        exact Hplain.
    + destruct Hk as [Hb Hk]. cbn [encodeFrom].
      rewrite (IH r k t) by (try assumption; lia). reflexivity.
Qed.

Lemma encodeFrom_ascii_suffix s t :
  asciiHead t ->
  encodeFrom 0 (s ++ t)%string = (encodeFrom 0 s ++ encodeFrom 0 t)%string.
Proof.
  intros Ht. apply (encodeFrom_app (String.length s)); [lia | exact I | exact Ht].
Qed.

Lemma encodeFrom_uint u :
  encodeFrom 0 (NilEmpty.string_of_uint u) = NilEmpty.string_of_uint u.
Proof.
  induction u; cbn [NilEmpty.string_of_uint]; [reflexivity|..];
    (etransitivity; [|apply f_equal; exact IHu]); reflexivity.
Qed.

Lemma encodeFrom_Itoa z : encodeFrom 0 (GoStr.Itoa z) = GoStr.Itoa z.
Proof.
  destruct (Itoa_cases z) as [[_ ->] | [[q ->] | [q ->]]].
  - reflexivity.
  - apply encodeFrom_uint.
  - etransitivity; [|apply f_equal; apply encodeFrom_uint]. reflexivity.
Qed.

End ScanFacts.

(** ** The strings of a compiled server document *)

Section DocumentScan.

Import Json Tunnel.

Local Arguments String.append : simpl nomatch.

Variable n : string.
Hypothesis Hsafe : scanSafe n = true.
Hypothesis Hschema : schemaClean n = true.

Local Abbreviation C s := (containsCI (encodeFrom 0 s) n).
Local Abbreviation mc :=
  (fun kv : string * value => C (fst kv) || atomsContain n (snd kv)).

Lemma needle_nonempty : n <> "".
Proof. now destruct (scanSafe_facts n Hsafe). Qed.

Lemma needle_punctuation c :
  In c (list_ascii_of_string punctuation) -> foreign c n = true.
Proof. destruct (scanSafe_facts n Hsafe) as (_ & H & _). apply H. Qed.

Lemma schema_key k :
  existsb (String.eqb k) schemaStrings = true -> C k = false.
Proof.
  intros Hk. apply existsb_exists in Hk as (k' & Hin & Heq).
  apply String.eqb_eq in Heq. subst k'.
  unfold schemaClean in Hschema. rewrite forallb_forall in Hschema.
  apply negb_true_iff. now apply Hschema.
Qed.

Lemma C_empty : C "" = false.
Proof. apply (containsCI_empty n needle_nonempty). Qed.

Ltac schema :=
  repeat match goal with
         | |- context [containsCI (encodeFrom 0 ?k) n] =>
             rewrite (schema_key k eq_refl)
         end;
  cbn [orb].

Lemma members_strOmit k s :
  C k = false -> existsb mc (strOmit k s) = C s.
Proof.
  intros Hk. unfold strOmit. destruct (String.eqb_spec s "") as [->|_].
  - now rewrite C_empty.
  - cbn [existsb fst snd atomsContain]. rewrite Hk. cbn [orb].
    now rewrite orb_false_r.
Qed.

Lemma members_strsOmit k l :
  C k = false -> existsb mc (strsOmit k l) = existsb (fun s => C s) l.
Proof.
  intros Hk. unfold strsOmit. destruct l as [|s l]; [reflexivity|].
  cbn [existsb fst snd atomsContain map]. rewrite Hk, existsb_map. cbn [orb].
  now rewrite orb_false_r.
Qed.

Lemma members_intOmit k z : C k = false -> existsb mc (intOmit k z) = false.
Proof.
  intros Hk. unfold intOmit. destruct (z =? 0); [reflexivity|].
  cbn [existsb fst snd atomsContain]. now rewrite Hk.
Qed.

Lemma members_optOmit {A} k (f : A -> value) o :
  C k = false ->
  existsb mc (optOmit k f o)
  = match o with Some a => atomsContain n (f a) | None => false end.
Proof.
  intros Hk. destruct o; [|reflexivity].
  cbn [optOmit existsb fst snd]. rewrite Hk. cbn [orb]. now rewrite orb_false_r.
Qed.

Local Abbreviation R m :=
  (match m with Some bytes => containsCI bytes n | None => false end).

Lemma members_rawOmit k m : C k = false -> existsb mc (rawOmit k m) = R m.
Proof.
  intros Hk. unfold rawOmit. destruct m as [bytes|]; [|reflexivity].
  destruct (String.eqb_spec bytes "") as [->|_].
  - symmetry. apply (containsCI_empty n needle_nonempty).
  - cbn [existsb fst snd atomsContain]. rewrite Hk. cbn [orb].
    now rewrite orb_false_r.
Qed.

Lemma atoms_rawValue m : atomsContain n (rawValue m) = R m.
Proof. now destruct m. Qed.

Lemma atoms_reality r :
  atomsContain n (realityJSON r)
  = C (Dest r) || existsb (fun s => C s) (ServerNames r) || C (RPrivateKey r)
    || existsb (fun s => C s) (RShortIDs r) || C (ServerName r)
    || C (RFingerprint r) || C (RPublicKey r) || C (RShortID r).
Proof.
  unfold realityJSON, field. cbn [atomsContain].
  rewrite !existsb_app. cbn [existsb fst snd atomsContain].
  rewrite !members_strOmit, !members_strsOmit, members_intOmit
    by (apply schema_key; reflexivity).
  schema. now rewrite ?orb_false_r, ?orb_assoc.
Qed.

Lemma atoms_stream s :
  atomsContain n (streamJSON s)
  = C (Network s) || C (Security s)
    || match RealityS s with
       | Some r => atomsContain n (realityJSON r)
       | None => false
       end
    || match TLS s with Some t => C (TLSServerName t) | None => false end
    || match WS s with Some w => C (WSPath w) | None => false end.
Proof.
  unfold streamJSON, field. cbn [atomsContain].
  rewrite !existsb_app. cbn [existsb fst snd atomsContain].
  rewrite !members_optOmit by (apply schema_key; reflexivity).
  schema. rewrite ?orb_false_r, ?orb_assoc. do 2 f_equal.
  - f_equal. destruct (TLS s) as [t|]; [|reflexivity].
    unfold tlsJSON. cbn [atomsContain].
    now rewrite members_strOmit by (apply schema_key; reflexivity).
  - destruct (WS s) as [w|]; [|reflexivity].
    unfold wsJSON, field. cbn [atomsContain existsb fst snd]. schema.
    now rewrite orb_false_r.
Qed.

Lemma atoms_inbound i :
  atomsContain n (inboundJSON i)
  = C (InTag i) || C (InListen i) || C (InProtocol i) || R (InSettings i)
    || match InStream i with
       | Some s => atomsContain n (streamJSON s)
       | None => false
       end.
Proof.
  unfold inboundJSON, field. cbn [atomsContain].
  rewrite !existsb_app. cbn [existsb fst snd atomsContain].
  rewrite members_strOmit, members_optOmit, atoms_rawValue
    by (apply schema_key; reflexivity).
  schema. now rewrite ?orb_false_r, ?orb_assoc.
Qed.

Lemma atoms_outbound o :
  atomsContain n (outboundJSON o)
  = C (OutTag o) || C (OutProtocol o) || R (OutSettings o)
    || match OutStream o with
       | Some s => atomsContain n (streamJSON s)
       | None => false
       end.
Proof.
  unfold outboundJSON, field. cbn [atomsContain].
  rewrite !existsb_app. cbn [existsb fst snd atomsContain].
  rewrite members_rawOmit, members_optOmit by (apply schema_key; reflexivity).
  schema. now rewrite ?orb_false_r, ?orb_assoc.
Qed.

Lemma atoms_fullConfig xc :
  atomsContain n (fullConfigJSON xc)
  = match Log xc with Some l => C (XLogLevel l) | None => false end
    || existsb (fun i => atomsContain n (inboundJSON i)) (Inbounds xc)
    || existsb (fun o => atomsContain n (outboundJSON o)) (Outbounds xc).
Proof.
  unfold fullConfigJSON, field. cbn [atomsContain].
  rewrite !existsb_app. cbn [existsb fst snd atomsContain].
  rewrite members_optOmit, !existsb_map by (apply schema_key; reflexivity).
  schema. rewrite ?orb_false_r, ?orb_assoc. do 2 f_equal.
  destruct (Log xc) as [l|]; [|reflexivity].
  unfold logJSON, field. cbn [atomsContain existsb fst snd]. schema.
  now rewrite orb_false_r.
Qed.

(** *** The strings the server builder composes *)

Lemma C_number z : containsCI (GoStr.Itoa z) n = false.
Proof. destruct (scanSafe_facts n Hsafe) as (_ & _ & H & _). apply H. Qed.

Lemma C_dest s : C (s ++ ":443")%string = C s.
Proof.
  rewrite encodeFrom_ascii_suffix by reflexivity.
  change (encodeFrom 0 ":443") with (String ":" (GoStr.Itoa 443)).
  rewrite (containsCI_sep n _ _ _ needle_nonempty)
    by (apply needle_punctuation; cbn; tauto).
  now rewrite C_number, orb_false_r.
Qed.

Lemma C_fallbackTag p i :
  C ("fallback-" ++ p ++ "-" ++ GoStr.Itoa i)%string = C p.
Proof.
  change ("fallback-" ++ p ++ "-" ++ GoStr.Itoa i)%string
    with ("fallback-" ++ (p ++ String "-" (GoStr.Itoa i)))%string.
  assert (Hpre : forall t, encodeFrom 0 ("fallback-" ++ t)%string
                           = ("fallback" ++ String "-" (encodeFrom 0 t))%string)
    by reflexivity.
  rewrite Hpre, encodeFrom_ascii_suffix by reflexivity.
  assert (Hsuf : encodeFrom 0 (String "-" (GoStr.Itoa i))
                 = String "-" (GoStr.Itoa i))
    by (etransitivity; [|apply f_equal, encodeFrom_Itoa]; reflexivity).
  rewrite Hsuf.
  assert (Hdash : foreign "-" n = true)
    by (apply needle_punctuation; cbn; tauto).
  rewrite !(containsCI_sep n _ _ _ needle_nonempty Hdash), C_number.
  pose proof (schema_key "fallback-" eq_refl) as Hk.
  change (encodeFrom 0 "fallback-") with ("fallback" ++ String "-" "")%string in Hk.
  rewrite (containsCI_sep n _ _ _ needle_nonempty Hdash) in Hk.
  apply orb_false_iff in Hk as [-> _]. cbn [orb]. now rewrite orb_false_r.
Qed.

Lemma R_render v : R (Some (Marshal v)) = atomsContain n v.
Proof. apply containsCI_render, Hsafe. Qed.

Lemma atoms_fallbackInbound i fb h p :
  atomsContain n (inboundJSON (fallbackInbound i fb h p))
  = C (FbProtocol fb) || C h
    || (if String.eqb (FbTransport fb) "ws" then C (FbPath fb) else false).
Proof.
  rewrite atoms_inbound. unfold fallbackInbound.
  cbn [InTag InListen InProtocol InSettings InStream].
  rewrite C_fallbackTag, R_render. cbn [atomsContain existsb].
  destruct (String.eqb (FbTransport fb) "ws").
  - rewrite atoms_stream. cbn [Network Security RealityS TLS WS WSPath].
    schema. rewrite ?orb_false_r.
    destruct (C (FbProtocol fb)), (C h), (C (FbPath fb)); reflexivity.
  - rewrite ?orb_false_r.
    destruct (C (FbProtocol fb)), (C h); reflexivity.
Qed.

Lemma atoms_fallbackInbounds fbs : forall i,
  existsb (fun x => atomsContain n (inboundJSON x)) (fallbackInbounds i fbs)
  = existsb (fun s => C s) (flat_map fallbackStrings fbs).
Proof.
  induction fbs as [|fb fbs IH]; intros i; [reflexivity|].
  cbn [fallbackInbounds existsb flat_map]. rewrite existsb_app, IH.
  rewrite atoms_fallbackInbound. f_equal. unfold fallbackStrings.
  cbn [existsb app].
  destruct (String.eqb (FbTransport fb) "ws"); cbn [existsb app];
    now rewrite ?orb_false_r, ?orb_assoc.
Qed.

Lemma addFallbacks_expected fbs : forall i acc l,
  addFallbacks i fbs acc = Ok l -> l = acc ++ fallbackInbounds i fbs.
Proof.
  induction fbs as [|fb fbs IH]; intros i acc l H; cbn [addFallbacks] in H.
  - injection H as <-. cbn. now rewrite app_nil_r.
  - unfold fallbackInbounds; fold fallbackInbounds.
    unfold listenHost, listenPort.
    destruct (splitHostPort (FbListen fb)) as [[h p]|e]; [|discriminate].
    apply IH in H. now rewrite <- app_assoc in H.
Qed.

Lemma C_coalesce s : C (if String.eqb s "" then "info" else s) = C s.
Proof.
  destruct (String.eqb_spec s "") as [->|_]; [|reflexivity].
  rewrite C_empty. apply schema_key. reflexivity.
Qed.

Lemma C_shortIDs (l : list string) :
  existsb (fun s => C s) match l with [] => [""] | s :: r => s :: r end
  = existsb (fun s => C s) l.
Proof. destruct l; [|reflexivity]. cbn [existsb]. now rewrite C_empty. Qed.

Lemma atoms_serverXrayConfig cfg xc :
  serverXrayConfig cfg = Ok xc ->
  atomsContain n (fullConfigJSON xc)
  = existsb (fun s => C s) (embeddedStrings cfg).
Proof.
  unfold serverXrayConfig, embeddedStrings, listenHost.
  destruct (splitHostPort (Listen cfg)) as [[h p]|e]; [|discriminate].
  match goal with
  | |- context [addFallbacks 0 _ [?x]] => set (primary := x)
  end.
  destruct (addFallbacks 0 (Fallbacks cfg) [primary]) as [inbounds|e] eqn:Hadd;
    [|discriminate].
  apply addFallbacks_expected in Hadd. subst inbounds.
  intros [= <-]. rewrite atoms_fullConfig.
  cbn [Log Inbounds Outbounds XLogLevel app existsb].
  rewrite C_coalesce, atoms_fallbackInbounds, !existsb_app.
  rewrite !atoms_outbound. cbn [OutTag OutProtocol OutSettings OutStream].
  schema. rewrite ?orb_false_r.
  assert (Hprimary :
    atomsContain n (inboundJSON primary)
    = C h || C (UUID cfg) || C (SNI (Reality cfg))
      || C (PrivateKey (Reality cfg))
      || existsb (fun s => C s) (ShortIDs (Reality cfg))).
  { subst primary. rewrite atoms_inbound.
    cbn [InTag InListen InProtocol InSettings InStream].
    rewrite atoms_stream.
    cbn [Network Security RealityS TLS WS].
    rewrite atoms_reality.
    cbn [Dest ServerNames RPrivateKey RShortIDs ServerName RFingerprint
         RPublicKey RShortID].
    unfold vlessSettings. rewrite R_render, C_dest.
    cbn [atomsContain existsb fst snd]. schema. rewrite ?C_empty, ?orb_false_r.
    rewrite C_shortIDs.
    destruct (C h), (C (UUID cfg)), (C (SNI (Reality cfg))),
      (C (PrivateKey (Reality cfg))),
      (existsb (fun s => C s) (ShortIDs (Reality cfg))); reflexivity. }
  rewrite Hprimary. cbn [existsb].
  destruct (C (LogLevel cfg)), (C h), (C (UUID cfg)), (C (SNI (Reality cfg))),
    (C (PrivateKey (Reality cfg))),
    (existsb (fun s => C s) (ShortIDs (Reality cfg))),
    (existsb (fun s => C s) (flat_map fallbackStrings (Fallbacks cfg)));
    reflexivity.
Qed.

Lemma containsCI_BuildServerJSON cfg j :
  BuildServerJSON (Some cfg) = Ok j ->
  containsCI j n = existsb (fun s => C s) (embeddedStrings cfg).
Proof.
  unfold BuildServerJSON.
  destruct (serverXrayConfig cfg) as [xc|e] eqn:Hxc; [|discriminate].
  intros Hj. assert (j = Marshal (fullConfigJSON xc)) as -> by congruence.
  unfold Marshal.
  rewrite (containsCI_render n _ Hsafe). now apply atoms_serverXrayConfig.
Qed.

End DocumentScan.

(** ** The scan of the compiled documents *)

Section LeakScan.

Import Json Tunnel.

Lemma leakyStrings_scanSafe : forallb scanSafe leakyStrings = true.
Proof. vm_compute. reflexivity. Qed.

Lemma leakyStrings_schemaClean : forallb schemaClean leakyStrings = true.
Proof. vm_compute. reflexivity. Qed.

Lemma existsb_swap {A B} (f : A -> B -> bool) la lb :
  existsb (fun a => existsb (f a) lb) la
  = existsb (fun b => existsb (fun a => f a b) la) lb.
Proof.
  induction la as [|a la IH]; cbn [existsb].
  - induction lb as [|b lb IHb]; [reflexivity|]. cbn [existsb]. now rewrite <- IHb.
  - rewrite IH. clear IH. induction lb as [|b lb IHb]; [reflexivity|].
    cbn [existsb]. rewrite <- IHb.
    destruct (f a b), (existsb (f a) lb), (existsb (fun a0 => f a0 b) la);
      reflexivity.
Qed.

Lemma leaks_BuildServerJSON cfg j :
  BuildServerJSON (Some cfg) = Ok j ->
  leaks j = existsb escapedLeaks (embeddedStrings cfg).
Proof.
  intros Hj. unfold leaks, escapedLeaks, leaks.
  rewrite (existsb_swap (fun s n => containsCI (encodeFrom 0 s) n)).
  apply existsb_Forall_ext.
  pose proof leakyStrings_scanSafe as Hs.
  pose proof leakyStrings_schemaClean as Hc.
  rewrite forallb_forall in Hs, Hc. apply List.Forall_forall. intros n Hn.
  exact (containsCI_BuildServerJSON n (Hs n Hn) (Hc n Hn) cfg j Hj).
Qed.

Lemma clientXrayConfig_proxy cfg xc :
  clientXrayConfig cfg = Ok xc ->
  exists o rest, Outbounds xc = o :: rest /\ OutTag o = "proxy".
Proof.
  unfold clientXrayConfig.
  destruct (splitHostPort (LocalListen cfg)) as [[h p]|e]; [|discriminate].
  destruct (parseServerAddr (Server cfg)) as [sh sp].
  intros [= <-]. cbn [Outbounds]. eauto.
Qed.

Lemma proxy_BuildClientJSON cfg j :
  BuildClientJSON (Some cfg) = Ok j -> containsCI j "proxy" = true.
Proof.
  unfold BuildClientJSON.
  destruct (clientXrayConfig cfg) as [xc|e] eqn:Hxc; [|discriminate].
  intros Hj. assert (j = Marshal (fullConfigJSON xc)) as -> by congruence.
  unfold Marshal. rewrite containsCI_render by (vm_compute; reflexivity).
  destruct (clientXrayConfig_proxy cfg xc Hxc) as (o & rest & Houts & Htag).
  unfold fullConfigJSON. cbn [atomsContain]. rewrite !existsb_app.
  unfold field at 2. rewrite Houts.
  cbn [existsb map fst snd atomsContain].
  unfold outboundJSON at 1. unfold field at 2.
  cbn [app existsb atomsContain fst snd]. rewrite Htag.
  change (containsCI (encodeFrom 0 "proxy") "proxy") with true.
  now rewrite ?orb_true_r, ?orb_true_l.
Qed.

Lemma leaks_proxy j : containsCI j "proxy" = true -> leaks j = true.
Proof.
  intros H. unfold leaks, leakyStrings. cbn [existsb]. rewrite H.
  now rewrite ?orb_true_r.
Qed.

(** C2 fails: the document compiled for a validated client
    configuration contains [proxy], the tag of its first outbound; and
    the document compiled for a validated server configuration whose
    fallback path is [/tunnel] contains [tunnel]. *)
Lemma C2_validated_documents_leak :
  (validatedClient (Samples.client "1.2.3.4:443" "127.0.0.1:1080" "") /\
   exists j,
     BuildClientJSON (Some (Samples.client "1.2.3.4:443" "127.0.0.1:1080" ""))
     = Ok j /\
     containsCI j "proxy" = true /\ leaks j = true) /\
  (validated
     (Samples.server ":443"
        [{| FbProtocol := "trojan"; FbListen := ":8443"; FbTransport := "ws";
            FbPath := "/tunnel" |}]) /\
   exists j,
     BuildServerJSON
       (Some (Samples.server ":443"
                [{| FbProtocol := "trojan"; FbListen := ":8443";
                    FbTransport := "ws"; FbPath := "/tunnel" |}]))
     = Ok j /\
     containsCI j "tunnel" = true /\ leaks j = true).
Proof.
  split; (split; [first [apply validated_sample_client
                        | apply validated_sample_server]; discriminate|]);
    eexists; (split; [vm_compute; reflexivity|]); split; vm_compute; reflexivity.
Qed.

(** C2, amended: the document [BuildServerJSON] compiles for a server
    configuration contains one of the identifying substrings (scanned
    without regard to case) exactly when one of the strings the builder
    copies from the configuration does so in its JSON-escaped form: the
    log level, the host of the listen address, the client identifier,
    the camouflage hostname, the private key, the short discriminators
    and, for each fallback binding, its protocol, the host of its listen
    address and, with the [ws] transport, its path.  The member names,
    constants, numbers and punctuation of the document never add an
    occurrence.  Every document [BuildClientJSON] compiles contains
    [proxy], the tag of its first outbound, and so fails the scan. *)
Theorem C2_leak_scan :
  (forall (cfg : Config) (j : string),
     BuildServerJSON (Some cfg) = Ok j ->
     leaks j = existsb escapedLeaks (embeddedStrings cfg)) /\
  (forall (cfg : ClientConfig) (j : string),
     BuildClientJSON (Some cfg) = Ok j ->
     containsCI j "proxy" = true /\ leaks j = true).
Proof.
  split.
  - apply leaks_BuildServerJSON.
  - intros cfg j Hj. pose proof (proxy_BuildClientJSON cfg j Hj) as H.
    split; [exact H | now apply leaks_proxy].
Qed.

Lemma C2_leak_scan_witness :
  (exists j,
     BuildServerJSON (Some (Samples.server ":443" [Samples.wsFallback ":8443"]))
     = Ok j /\ leaks j = false) /\
  (exists j,
     BuildClientJSON (Some (Samples.client "1.2.3.4:443" "127.0.0.1:1080" ""))
     = Ok j /\ leaks j = true).
Proof.
  destruct C2_leak_scan as [Hserver Hclient]. split.
  - specialize (Hserver (Samples.server ":443" [Samples.wsFallback ":8443"])).
    destruct (BuildServerJSON
                (Some (Samples.server ":443" [Samples.wsFallback ":8443"])))
      as [j|e] eqn:Hj; [|vm_compute in Hj; discriminate].
    exists j. split; [reflexivity|]. rewrite (Hserver j eq_refl).
    vm_compute. reflexivity.
  - specialize (Hclient (Samples.client "1.2.3.4:443" "127.0.0.1:1080" "")).
    destruct (BuildClientJSON
                (Some (Samples.client "1.2.3.4:443" "127.0.0.1:1080" "")))
      as [j|e] eqn:Hj; [|vm_compute in Hj; discriminate].
    exists j. split; [reflexivity|]. exact (proj2 (Hclient j eq_refl)).
Defined.

End LeakScan.

(** ** Validation of the two configurations *)

Section ValidationFacts.

Import Tunnel.

Lemma eqb_empty (s : string) : String.eqb s "" = false <-> s <> "".
Proof. destruct (String.eqb_spec s ""); split; congruence. Qed.

(** X1: [Config.Validate] returns no error exactly when the listen
    address, the UUID, the REALITY SNI and the REALITY private key are
    not empty and the protocol is empty, "vless" or "trojan"; the
    accepted configuration has "vless" for an empty protocol and "chrome"
    for an empty fingerprint, and the values given otherwise. *)
Theorem Validate_accepts_iff (c : Config) :
  (snd (Validate c) = None <->
   Listen c <> "" /\ UUID c <> "" /\ SNI (Reality c) <> "" /\
   PrivateKey (Reality c) <> "" /\
   (Protocol c = "" \/ Protocol c = "vless" \/ Protocol c = "trojan")) /\
  (snd (Validate c) = None ->
   Protocol (fst (Validate c))
   = (if String.eqb (Protocol c) "" then "vless" else Protocol c) /\
   Fingerprint (fst (Validate c))
   = (if String.eqb (Fingerprint c) "" then "chrome" else Fingerprint c)).
Proof.
  unfold Validate.
  destruct (String.eqb_spec (Listen c) "") as [HL|HL].
  { cbn. split; [split; [discriminate | tauto] | discriminate]. }
  destruct (String.eqb_spec (Protocol c) "") as [HP|HP];
    cbn [UUID SNI PrivateKey Reality Fingerprint Protocol setProtocol];
    destruct (String.eqb_spec (UUID c) "") as [HU|HU];
    try (cbn; split; [split; [discriminate | tauto] | discriminate]);
    destruct (String.eqb_spec (SNI (Reality c)) "") as [HS|HS];
    try (cbn; split; [split; [discriminate | tauto] | discriminate]);
    destruct (String.eqb_spec (PrivateKey (Reality c)) "") as [HK|HK];
    try (cbn; split; [split; [discriminate | tauto] | discriminate]);
    destruct (String.eqb_spec (Fingerprint c) "") as [HF|HF];
    cbn [UUID SNI PrivateKey Reality Fingerprint Protocol setProtocol
         setFingerprint validProtocols String.eqb Ascii.eqb Bool.eqb orb negb
         fst snd];
    try (split; [split; [intros _; repeat split; auto | reflexivity]
                | intros _; split; reflexivity]).
  all: unfold validProtocols;
    destruct (String.eqb_spec (Protocol c) "vless") as [Hv|Hv];
    [cbn; split; [split; [intros _; repeat split; auto | reflexivity]
                 | intros _; split; reflexivity]|];
    destruct (String.eqb_spec (Protocol c) "trojan") as [Ht|Ht];
    [cbn; split; [split; [intros _; repeat split; auto | reflexivity]
                 | intros _; split; reflexivity]|];
    cbn; split; [split; [discriminate | intros (_ & _ & _ & _ & [?|[?|?]]); congruence]
                | discriminate].
Qed.


Lemma Validate_accepts_iff_witness :
  snd (Validate (Samples.server ":443" [])) = None /\
  Protocol (fst (Validate (Samples.server ":443" []))) = "vless" /\
  Fingerprint (fst (Validate (Samples.server ":443" []))) = "chrome".
Proof.
  split; [reflexivity|].
  apply (proj2 (Validate_accepts_iff (Samples.server ":443" []))).
  reflexivity.
Defined.



Ltac proj :=
  cbn [Listen Protocol UUID Reality SNI PrivateKey Fingerprint Fallbacks
       LogLevel SportsMode Rotation Payment setProtocol setFingerprint fst snd
       negb String.eqb Ascii.eqb Bool.eqb andb].

Ltac fin :=
  repeat (proj;
          repeat match goal with
                 | H : String.eqb _ _ = _ |- _ => rewrite H
                 | H : validProtocols _ = _ |- _ => rewrite H
                 end;
          change (validProtocols "vless") with true).

Lemma Validate_changes (c : Config) :
  let c' := fst (Validate c) in
  (Listen c' = Listen c /\ UUID c' = UUID c /\ Reality c' = Reality c /\
   Fallbacks c' = Fallbacks c /\ LogLevel c' = LogLevel c /\
   SportsMode c' = SportsMode c /\ Rotation c' = Rotation c /\
   Payment c' = Payment c) /\
  (Protocol c' = Protocol c \/ (Protocol c = "" /\ Protocol c' = "vless")) /\
  (Fingerprint c' = Fingerprint c \/
   (Fingerprint c = "" /\ Fingerprint c' = "chrome" /\
    forall e, snd (Validate c) = Some e -> e = ErrUnsupportedProtocol (Protocol c'))) /\
  Validate c' = Validate c.
Proof.
  destruct c as [l p u [sni pk pub sids] f fbs ll sm rot pay].
  unfold Validate. proj.
  destruct (validProtocols p) eqn:HV.
  all: destruct (String.eqb l "") eqn:HL; [fin; repeat split; auto|].
  all: destruct (String.eqb p "") eqn:HP;
    [apply String.eqb_eq in HP; subst p|].
  all: proj.
  all: destruct (String.eqb u "") eqn:HU; [fin; repeat split; auto|].
  all: destruct (String.eqb sni "") eqn:HS; [fin; repeat split; auto|].
  all: destruct (String.eqb pk "") eqn:HK; [fin; repeat split; auto|].
  all: destruct (String.eqb f "") eqn:HF;
    [apply String.eqb_eq in HF; subst f|].
  all: fin; repeat split; auto.
  all: try (right; repeat split; auto; intros e [= <-]; reflexivity).
Qed.


(** X2: [Config.Validate] writes only the protocol and the
    fingerprint, each only when it was empty; the fingerprint is written
    on an erroneous return only when the error is the unsupported
    protocol.  Validating the configuration it leaves gives the same
    configuration and the same result again. *)
Theorem Validate_frame_idempotent (c : Config) :
  let c' := fst (Validate c) in
  (Listen c' = Listen c /\ UUID c' = UUID c /\ Reality c' = Reality c /\
   Fallbacks c' = Fallbacks c /\ LogLevel c' = LogLevel c /\
   SportsMode c' = SportsMode c /\ Rotation c' = Rotation c /\
   Payment c' = Payment c) /\
  (Protocol c' = Protocol c \/ (Protocol c = "" /\ Protocol c' = "vless")) /\
  (Fingerprint c' = Fingerprint c \/
   (Fingerprint c = "" /\ Fingerprint c' = "chrome" /\
    forall e, snd (Validate c) = Some e -> e = ErrUnsupportedProtocol (Protocol c'))) /\
  Validate c' = Validate c.
Proof. exact (Validate_changes c). Qed.


Lemma Validate_frame_idempotent_witness :
  Validate (fst (Validate (Samples.server "" [])))
  = Validate (Samples.server "" []).
Proof.
  apply (proj2 (proj2 (proj2 (Validate_frame_idempotent (Samples.server "" []))))).
Defined.


Lemma ValidateClient_changes (c : ClientConfig) :
  let c' := fst (ValidateClient c) in
  (snd (ValidateClient c) = None <->
   Server c <> "" /\ CUUID c <> "" /\ CSNI c <> "" /\ PublicKey c <> "") /\
  (snd (ValidateClient c) <> None -> c' = c) /\
  (snd (ValidateClient c) = None ->
   LocalListen c'
   = (if String.eqb (LocalListen c) "" then "127.0.0.1:1080" else LocalListen c) /\
   CFingerprint c'
   = (if String.eqb (CFingerprint c) "" then "chrome" else CFingerprint c) /\
   APIListen c'
   = (if String.eqb (APIListen c) "" then "127.0.0.1:9876" else APIListen c) /\
   Server c' = Server c /\ CUUID c' = CUUID c /\ CSNI c' = CSNI c /\
   PublicKey c' = PublicKey c /\ ShortID c' = ShortID c /\
   HTTPListen c' = HTTPListen c /\ CLogLevel c' = CLogLevel c /\
   CSportsMode c' = CSportsMode c) /\
  ValidateClient c' = ValidateClient c.
Proof.
  destruct c as [srv u sni f pk sid ll hl lg sm api].
  unfold ValidateClient.
  cbn [Server CUUID CSNI PublicKey LocalListen CFingerprint APIListen].
  destruct (String.eqb_spec srv "") as [->|Hs];
    [cbn; repeat split; try discriminate; try tauto|].
  destruct (String.eqb_spec u "") as [->|Hu];
    [cbn; apply String.eqb_neq in Hs; rewrite Hs;
     repeat split; try discriminate; try tauto|].
  destruct (String.eqb_spec sni "") as [->|Hn];
    [cbn; apply String.eqb_neq in Hs, Hu; rewrite Hs, Hu;
     repeat split; try discriminate; try tauto|].
  destruct (String.eqb_spec pk "") as [->|Hk];
    [cbn; apply String.eqb_neq in Hs, Hu, Hn; rewrite Hs, Hu, Hn;
     repeat split; try discriminate; try tauto|].
  cbn [fst snd setClientDefaults Server CUUID CSNI PublicKey LocalListen
       CFingerprint APIListen ShortID HTTPListen CLogLevel CSportsMode].
  pose proof Hs as Hs'. pose proof Hu as Hu'. pose proof Hn as Hn'.
  pose proof Hk as Hk'.
  apply String.eqb_neq in Hs', Hu', Hn', Hk'. rewrite Hs', Hu', Hn', Hk'.
  split; [split; [auto | reflexivity]|].
  split; [intros H; now contradiction H|].
  split; [intros _; repeat split|].
  destruct (String.eqb_spec ll "") as [->|Hl],
    (String.eqb_spec f "") as [->|Hf],
    (String.eqb_spec api "") as [->|Ha];
    cbn [String.eqb Ascii.eqb Bool.eqb andb];
    try (apply String.eqb_neq in Hl; rewrite Hl);
    try (apply String.eqb_neq in Hf; rewrite Hf);
    try (apply String.eqb_neq in Ha; rewrite Ha);
    reflexivity.
Qed.

(** X3: [ClientConfig.Validate] returns no error exactly when the
    server, the UUID, the SNI and the public key are not empty.  On an
    error the configuration is unchanged; otherwise an empty local
    listen address becomes "127.0.0.1:1080", an empty fingerprint
    "chrome", an empty API address "127.0.0.1:9876", and every other
    field is kept.  A second call gives the same configuration and
    result. *)
Theorem ValidateClient_spec (c : ClientConfig) :
  let c' := fst (ValidateClient c) in
  (snd (ValidateClient c) = None <->
   Server c <> "" /\ CUUID c <> "" /\ CSNI c <> "" /\ PublicKey c <> "") /\
  (snd (ValidateClient c) <> None -> c' = c) /\
  (snd (ValidateClient c) = None ->
   LocalListen c'
   = (if String.eqb (LocalListen c) "" then "127.0.0.1:1080" else LocalListen c) /\
   CFingerprint c'
   = (if String.eqb (CFingerprint c) "" then "chrome" else CFingerprint c) /\
   APIListen c'
   = (if String.eqb (APIListen c) "" then "127.0.0.1:9876" else APIListen c) /\
   Server c' = Server c /\ CUUID c' = CUUID c /\ CSNI c' = CSNI c /\
   PublicKey c' = PublicKey c /\ ShortID c' = ShortID c /\
   HTTPListen c' = HTTPListen c /\ CLogLevel c' = CLogLevel c /\
   CSportsMode c' = CSportsMode c) /\
  ValidateClient c' = ValidateClient c.
Proof. exact (ValidateClient_changes c). Qed.


Lemma ValidateClient_spec_witness :
  snd (ValidateClient (Samples.client "example.com:443" "" "")) = None /\
  LocalListen (fst (ValidateClient (Samples.client "example.com:443" "" "")))
  = "127.0.0.1:1080".
Proof.
  split; [reflexivity|].
  apply (proj1 (proj2 (proj2 (ValidateClient_spec
                  (Samples.client "example.com:443" "" ""))))).
  reflexivity.
Defined.


End ValidationFacts.

(** ** Numbers and addresses as text *)

Section NumberText.

Local Arguments String.append : simpl nomatch.

Lemma digitsValue_acc u : forall acc : positive,
  GoStr.digitsValue (NilEmpty.string_of_uint u) (Z.pos acc)
  = Some (Z.pos (Pos.of_uint_acc u acc)).
Proof.
  induction u; intros acc; cbn [NilEmpty.string_of_uint Pos.of_uint_acc];
    [reflexivity|..];
    (etransitivity; [|apply IHu]); unfold GoStr.digitsValue at 1;
    fold GoStr.digitsValue; cbn [GoStr.isDigit]; f_equal; vm_compute GoStr.byte_val;
    lia.
Qed.

Lemma digitsValue_uint u :
  GoStr.digitsValue (NilEmpty.string_of_uint u) 0
  = Some (Z.of_N (Pos.of_uint u)).
Proof.
  induction u; cbn [NilEmpty.string_of_uint Pos.of_uint]; [reflexivity|..];
    try (unfold GoStr.digitsValue at 1; fold GoStr.digitsValue;
         cbn [GoStr.isDigit]; apply (digitsValue_acc u)).
  exact IHu.
Qed.

Lemma digitsValue_pos p :
  GoStr.digitsValue (NilEmpty.string_of_uint (Pos.to_uint p)) 0 = Some (Z.pos p).
Proof. now rewrite digitsValue_uint, DecimalPos.Unsigned.of_to. Qed.

Lemma uint_head_digit u :
  u <> Decimal.Nil ->
  exists c r, NilEmpty.string_of_uint u = String c r /\ GoStr.isDigit c = true.
Proof. destruct u; [congruence|..]; intros _; eexists _, _; split; reflexivity. Qed.

Lemma Itoa_pos p :
  GoStr.Itoa (Z.pos p) = NilEmpty.string_of_uint (Pos.to_uint p).
Proof.
  unfold GoStr.Itoa. cbn [Z.to_int NilZero.string_of_int].
  unfold NilZero.string_of_uint.
  pose proof (DecimalPos.Unsigned.to_uint_nonnil p) as Hnil.
  destruct (Pos.to_uint p); [contradiction|..]; reflexivity.
Qed.

Lemma Itoa_neg p :
  GoStr.Itoa (Z.neg p) = String "-" (NilEmpty.string_of_uint (Pos.to_uint p)).
Proof.
  unfold GoStr.Itoa. cbn [Z.to_int NilZero.string_of_int].
  unfold NilZero.string_of_uint.
  pose proof (DecimalPos.Unsigned.to_uint_nonnil p) as Hnil.
  destruct (Pos.to_uint p); [contradiction|..]; reflexivity.
Qed.

Lemma Atoi_digits c r v :
  GoStr.isDigit c = true ->
  GoStr.digitsValue (String c r) 0 = Some v ->
  GoStr.Atoi (String c r)
  = if GoInt.in_range v then Some v else None.
Proof.
  intros Hd Hv. unfold GoStr.Atoi.
  destruct c as [[] [] [] [] [] [] [] []]; try discriminate; now rewrite Hv.
Qed.

(** [strconv.Atoi] reads back what [strconv.Itoa] writes. *)
Lemma Atoi_Itoa z : GoInt.in_range z = true -> GoStr.Atoi (GoStr.Itoa z) = Some z.
Proof.
  intros Hr. destruct z as [|p|p].
  - reflexivity.
  - rewrite Itoa_pos.
    destruct (uint_head_digit (Pos.to_uint p)
                (DecimalPos.Unsigned.to_uint_nonnil p)) as (c & r & Hc & Hd).
    pose proof (digitsValue_pos p) as Hv. rewrite Hc in *.
    now rewrite (Atoi_digits c r _ Hd Hv), Hr.
  - rewrite Itoa_neg. unfold GoStr.Atoi.
    destruct (uint_head_digit (Pos.to_uint p)
                (DecimalPos.Unsigned.to_uint_nonnil p)) as (c & r & Hc & Hd).
    pose proof (digitsValue_pos p) as Hv. rewrite Hc in *. rewrite Hv.
    change (- Z.pos p) with (Z.neg p). now rewrite Hr.
Qed.

(** [strconv.Itoa] writes different numbers differently. *)
Lemma Itoa_inj a b : GoStr.Itoa a = GoStr.Itoa b -> a = b.
Proof.
  unfold GoStr.Itoa. intros H.
  apply (f_equal NilZero.int_of_string) in H.
  assert (Hn : forall z, NilZero.int_of_string (NilZero.string_of_int (Z.to_int z))
                         = Some (Z.to_int z)).
  { intros z. apply NilZero.isi; destruct z as [|p|p]; cbn; try discriminate;
      intros [= E]; now apply (DecimalPos.Unsigned.to_uint_nonnil p). }
  rewrite !Hn in H. injection H as H.
  apply (f_equal Z.of_int) in H. now rewrite !DecimalZ.of_to in H.
Qed.

Lemma digitsValue_digits s : forall acc v,
  GoStr.digitsValue s acc = Some v ->
  Forall (fun c => GoStr.isDigit c = true) (list_ascii_of_string s).
Proof.
  induction s as [|c s IH]; intros acc v H; cbn in *; [constructor|].
  destruct (GoStr.isDigit c) eqn:Hc; [|discriminate].
  constructor; [exact Hc | eauto].
Qed.

Lemma Atoi_no_colon s v :
  GoStr.Atoi s = Some v -> ~ In ":"%char (list_ascii_of_string s).
Proof.
  unfold GoStr.Atoi. intros H Hin.
  assert (Hall : forall body acc w,
            GoStr.digitsValue body acc = Some w ->
            ~ In ":"%char (list_ascii_of_string body)).
  { intros body acc w Hw Hb. apply digitsValue_digits in Hw.
    rewrite List.Forall_forall in Hw. apply Hw in Hb. discriminate. }
  destruct s as [|c r]; [discriminate|].
  destruct (Ascii.eqb_spec c "-") as [->|Hm].
  { destruct r as [|c' r']; [discriminate|].
    destruct (GoStr.digitsValue (String c' r') 0) as [w|] eqn:Hw; [|discriminate].
    apply (Hall _ _ _ Hw). destruct Hin as [Hin|Hin]; [discriminate|exact Hin]. }
  destruct (Ascii.eqb_spec c "+") as [->|Hp].
  { destruct r as [|c' r']; [discriminate|].
    destruct (GoStr.digitsValue (String c' r') 0) as [w|] eqn:Hw; [|discriminate].
    apply (Hall _ _ _ Hw). destruct Hin as [Hin|Hin]; [discriminate|exact Hin]. }
  assert (Hbody : GoStr.digitsValue (String c r) 0 <> None).
  { intros Hn.
    destruct c as [[] [] [] [] [] [] [] []]; try (now rewrite Hn in H);
      first [now contradiction Hm | now contradiction Hp]. }
  destruct (GoStr.digitsValue (String c r) 0) as [w|] eqn:Hw; [|congruence].
  exact (Hall _ _ _ Hw Hin).
Qed.

Lemma lastIndexFrom_none c s : forall i found,
  ~ In c (list_ascii_of_string s) -> GoStr.lastIndexFrom i s c found = found.
Proof.
  induction s as [|x s IH]; intros i found H; cbn in *; [reflexivity|].
  destruct (Ascii.eqb_spec x c) as [->|Hx]; [tauto|]. apply IH. tauto.
Qed.

Lemma lastIndexFrom_last c a b : forall i found,
  ~ In c (list_ascii_of_string b) ->
  GoStr.lastIndexFrom i (a ++ String c b)%string c found
  = i + Z.of_nat (String.length a).
Proof.
  induction a as [|x a IH]; intros i found H.
  - cbn. rewrite Ascii.eqb_refl, lastIndexFrom_none by exact H. lia.
  - cbn [String.append GoStr.lastIndexFrom String.length].
    rewrite IH by exact H. lia.
Qed.

Lemma lastIndexFrom_inv c s : forall i found,
  (GoStr.lastIndexFrom i s c found = found /\ ~ In c (list_ascii_of_string s)) \/
  (exists a b, s = (a ++ String c b)%string /\
               ~ In c (list_ascii_of_string b) /\
               GoStr.lastIndexFrom i s c found = i + Z.of_nat (String.length a)).
Proof.
  induction s as [|x s IH]; intros i found.
  - left. cbn. tauto.
  - cbn [GoStr.lastIndexFrom].
    destruct (IH (i + 1) (if Ascii.eqb x c then i else found))
      as [[Hr Hn] | (a & b & -> & Hb & Hr)].
    + destruct (Ascii.eqb_spec x c) as [->|Hx].
      * right. exists "", s. cbn. repeat split; [exact Hn | lia].
      * left. split; [exact Hr|]. cbn. tauto.
    + right. exists (String x a), b. cbn [String.append String.length].
      repeat split; [exact Hb | lia].
Qed.

Lemma take_app (a b : string) : GoStr.take (String.length a) (a ++ b) = a.
Proof. induction a as [|x a IH]; cbn; [now destruct b | now rewrite IH]. Qed.

Lemma drop_app (a b : string) : GoStr.drop (String.length a) (a ++ b) = b.
Proof. induction a as [|x a IH]; cbn; [reflexivity | exact IH]. Qed.

Lemma slice_last (a b : string) (c : ascii) :
  GoStr.slice_to (a ++ String c b) (Z.of_nat (String.length a)) = a /\
  GoStr.slice_from (a ++ String c b) (Z.of_nat (String.length a) + 1) = b.
Proof.
  unfold GoStr.slice_to, GoStr.slice_from. split.
  - rewrite Nat2Z.id. apply take_app.
  - replace (Z.to_nat (Z.of_nat (String.length a) + 1))
      with (String.length (a ++ String c "")) by (rewrite string_length_app; cbn; lia).
    replace (a ++ String c b)%string with ((a ++ String c "") ++ b)%string
      by (rewrite string_app_assoc; reflexivity).
    apply drop_app.
Qed.

End NumberText.

Section AddressFacts.

Import Tunnel.

Local Arguments String.append : simpl nomatch.

(** The host and port forms of [splitHostPort], for an address that
    does not start with a colon. *)
Lemma splitHostPort_host c r :
  c <> ":"%char ->
  splitHostPort (String c r)
  = (let idx := GoStr.LastIndex (String c r) ":" in
     if idx <? 0 then Err (ErrNoPort (String c r))
     else match GoStr.Atoi (GoStr.slice_from (String c r) (idx + 1)) with
          | None => Err (ErrInvalidPort (String c r))
          | Some port => Ok (GoStr.slice_to (String c r) idx, port)
          end).
Proof.
  intros Hc. unfold splitHostPort.
  destruct (Ascii.eqb_spec c ":") as [->|_]; [congruence | reflexivity].
Qed.

Lemma LastIndex_join (h ps : string) :
  ~ In ":"%char (list_ascii_of_string ps) ->
  GoStr.LastIndex (h ++ String ":" ps) ":" = Z.of_nat (String.length h).
Proof. intros H. unfold GoStr.LastIndex. now rewrite lastIndexFrom_last. Qed.

Lemma splitHostPort_iff (addr h : string) (p : Z) :
  splitHostPort addr = Ok (h, p) <->
  exists ps,
    GoStr.Atoi ps = Some p /\
    ((addr = String ":" ps /\ h = "0.0.0.0") \/
     (addr = (h ++ String ":" ps)%string /\
      exists c r, h = String c r /\ c <> ":"%char)).
Proof.
  split.
  - destruct addr as [|c r]; [discriminate|].
    destruct (Ascii.eqb_spec c ":") as [->|Hc].
    + change (splitHostPort (String ":" r))
        with (match GoStr.Atoi r with
              | Some port => Ok ("0.0.0.0", port)
              | None => Err (ErrInvalidPort (String ":" r))
              end).
      destruct (GoStr.Atoi r) as [v|] eqn:Hv; [|discriminate].
      intros [= <- <-]. exists r. split; [exact Hv | left; split; reflexivity].
    + rewrite (splitHostPort_host c r Hc). cbv zeta. unfold GoStr.LastIndex.
      destruct (lastIndexFrom_inv ":" (String c r) 0 (-1))
        as [[-> _] | (a & b & Hab & Hb & ->)]; [discriminate|].
      destruct (Z.ltb_spec (0 + Z.of_nat (String.length a)) 0); [lia|].
      rewrite Hab. change (0 + Z.of_nat (String.length a))
        with (Z.of_nat (String.length a)).
      destruct (slice_last a b ":") as [-> ->].
      destruct (GoStr.Atoi b) as [v|] eqn:Hv; [|discriminate].
      intros [= <- <-]. exists b. split; [exact Hv|]. right.
      split; [reflexivity|].
      destruct a as [|x a]; [cbn in Hab; congruence|].
      exists x, a. split; [reflexivity|]. cbn in Hab. congruence.
  - intros (ps & Hv & [[-> ->] | [-> (c & r & -> & Hc)]]).
    + change (splitHostPort (String ":" ps))
        with (match GoStr.Atoi ps with
              | Some port => Ok ("0.0.0.0", port)
              | None => Err (ErrInvalidPort (String ":" ps))
              end).
      now rewrite Hv.
    + change (String c r ++ String ":" ps)%string
        with (String c (r ++ String ":" ps))%string.
      rewrite (splitHostPort_host c _ Hc). cbv zeta.
      change (String c (r ++ String ":" ps))%string
        with (String c r ++ String ":" ps)%string.
      rewrite LastIndex_join by (eapply Atoi_no_colon; exact Hv).
      destruct (Z.ltb_spec (Z.of_nat (String.length (String c r))) 0); [lia|].
      destruct (slice_last (String c r) ps ":") as [-> ->].
      now rewrite Hv.
Qed.

(** X4: [splitHostPort] returns host [h] and port [p] exactly when
    the address is ":" followed by a text [strconv.Atoi] reads as [p],
    with [h] the host "0.0.0.0", or is [h], a colon, and such a text,
    with [h] not empty and not starting with a colon. *)
Theorem splitHostPort_spec (addr h : string) (p : Z) :
  splitHostPort addr = Ok (h, p) <->
  exists ps,
    GoStr.Atoi ps = Some p /\
    ((addr = String ":" ps /\ h = "0.0.0.0") \/
     (addr = (h ++ String ":" ps)%string /\
      exists c r, h = String c r /\ c <> ":"%char)).
Proof. exact (splitHostPort_iff addr h p). Qed.

Lemma splitHostPort_spec_witness :
  splitHostPort "example.com:8443" = Ok ("example.com", 8443).
Proof.
  apply (proj2 (splitHostPort_spec "example.com:8443" "example.com" 8443)).
  exists "8443". split; [reflexivity|]. right. split; [reflexivity|].
  exists "e"%char, "xample.com". split; [reflexivity | discriminate].
Defined.

Lemma Atoi_colon (a b : string) : GoStr.Atoi (a ++ String ":" b) = None.
Proof.
  destruct (GoStr.Atoi (a ++ String ":" b)) as [v|] eqn:Hv; [|reflexivity].
  exfalso. apply (Atoi_no_colon _ _ Hv).
  clear Hv. induction a as [|x a IH]; cbn; [now left | now right].
Qed.

(** X5: a host, a colon and the decimal text of an [int] port
    split back into the host and the port; an empty host comes back as
    "0.0.0.0", and a host that starts with a colon is an invalid-port
    error. *)
Theorem splitHostPort_join (host : string) (port : Z) :
  GoInt.in_range port = true ->
  splitHostPort (host ++ String ":" (GoStr.Itoa port))
  = match host with
    | EmptyString => Ok ("0.0.0.0", port)
    | String c _ =>
        if Ascii.eqb c ":"
        then Err (ErrInvalidPort (host ++ String ":" (GoStr.Itoa port)))
        else Ok (host, port)
    end.
Proof.
  intros Hr. pose proof (Atoi_Itoa port Hr) as Hv.
  destruct host as [|c r].
  - apply splitHostPort_iff. exists (GoStr.Itoa port). split; [exact Hv|].
    left. split; reflexivity.
  - destruct (Ascii.eqb_spec c ":") as [->|Hc].
    + change (String ":" r ++ String ":" (GoStr.Itoa port))%string
        with (String ":" (r ++ String ":" (GoStr.Itoa port)))%string.
      change (splitHostPort (String ":" (r ++ String ":" (GoStr.Itoa port))))
        with (match GoStr.Atoi (r ++ String ":" (GoStr.Itoa port)) with
              | Some p => Ok ("0.0.0.0", p)
              | None => Err (ErrInvalidPort
                               (String ":" (r ++ String ":" (GoStr.Itoa port))))
              end).
      now rewrite Atoi_colon.
    + apply splitHostPort_iff. exists (GoStr.Itoa port). split; [exact Hv|].
      right. split; [reflexivity|]. exists c, r. now split.
Qed.

Lemma splitHostPort_join_witness :
  splitHostPort ("[::1]" ++ String ":" (GoStr.Itoa (-1))) = Ok ("[::1]", -1).
Proof. apply (splitHostPort_join "[::1]" (-1)). reflexivity. Defined.

(** X6: [parseServerAddr] agrees with [splitHostPort] on
    an address that does not start with a colon, and falls back to the
    whole address and port 443 when that one fails.  On ":" followed by
    a port it returns the empty host, where [splitHostPort] returns
    "0.0.0.0"; on the empty address it returns the empty host and 443. *)
Theorem parseServerAddr_splitHostPort (addr : string) :
  (forall ps p, addr = String ":" ps -> GoStr.Atoi ps = Some p ->
     splitHostPort addr = Ok ("0.0.0.0", p) /\ parseServerAddr addr = ("", p)) /\
  (forall c r, addr = String c r -> c <> ":"%char ->
     parseServerAddr addr
     = match splitHostPort addr with
       | Ok (host, port) => (host, port)
       | Err _ => (addr, 443)
       end) /\
  (addr = "" -> parseServerAddr addr = ("", 443)).
Proof.
  split; [|split].
  - intros ps p -> Hv. split.
    + apply splitHostPort_iff. exists ps. split; [exact Hv|]. now left.
    + unfold parseServerAddr.
      pose proof (LastIndex_join "" ps (Atoi_no_colon _ _ Hv)) as HL.
      change ("" ++ String ":" ps)%string with (String ":" ps) in HL.
      rewrite HL.
      change (GoStr.slice_from (String ":" ps) (Z.of_nat (String.length "") + 1))
        with ps.
      now rewrite Hv.
  - intros c r -> Hc. rewrite (splitHostPort_host c r Hc).
    unfold parseServerAddr. cbv zeta.
    destruct (GoStr.LastIndex (String c r) ":" <? 0); [reflexivity|].
    now destruct (GoStr.Atoi _).
  - intros ->. reflexivity.
Qed.

Lemma parseServerAddr_splitHostPort_witness :
  splitHostPort ":443" = Ok ("0.0.0.0", 443) /\ parseServerAddr ":443" = ("", 443).
Proof.
  apply (proj1 (parseServerAddr_splitHostPort ":443") "443" 443); reflexivity.
Defined.

(** X7: [coalesce] returns the first value that is not empty, and
    the empty string exactly when every value is empty. *)
Theorem coalesce_first_nonempty (values : list string) :
  (coalesce values = "" <-> Forall (fun v => v = "") values) /\
  (forall pre v rest,
     values = pre ++ v :: rest -> Forall (fun x => x = "") pre -> v <> "" ->
     coalesce values = v).
Proof.
  split.
  - induction values as [|v rest IH]; cbn.
    + split; [constructor | reflexivity].
    + destruct (String.eqb_spec v "") as [->|Hv].
      * rewrite IH. split; [now constructor | now inversion 1].
      * split; [congruence | inversion 1; congruence].
  - intros pre. revert values.
    induction pre as [|x pre IH]; intros values v rest -> Hpre Hv; cbn.
    + now destruct (String.eqb_spec v "").
    + inversion Hpre as [|? ? -> Hpre']; subst. cbn. now apply (IH _ v rest).
Qed.

Lemma coalesce_first_nonempty_witness : coalesce [""; "warning"; "info"] = "warning".
Proof.
  apply (proj2 (coalesce_first_nonempty [""; "warning"; "info"]) [""] "warning" ["info"]);
    [reflexivity | repeat constructor | discriminate].
Defined.

End AddressFacts.

(** ** More about the compiled documents *)

Section DocumentFacts.

Import Json Tunnel.

Local Arguments String.append : simpl nomatch.

(** X8: every document [BuildServerJSON] or [BuildClientJSON]
    returns is well-formed JSON, the property [stubLoader] tests with
    [json.Valid]. *)
Theorem compiled_documents_valid :
  (forall (cfg : Config) (j : string),
     BuildServerJSON (Some cfg) = Ok j -> Json.Valid j = true) /\
  (forall (cfg : ClientConfig) (j : string),
     BuildClientJSON (Some cfg) = Ok j -> Json.Valid j = true).
Proof.
  split; intros cfg j Hj.
  - unfold BuildServerJSON in Hj.
    destruct (serverXrayConfig cfg) as [xc|e] eqn:Hxc; [|discriminate].
    assert (j = Marshal (fullConfigJSON xc)) as -> by congruence.
    apply Valid_Marshal. now apply (serverXrayConfig_wf cfg).
  - unfold BuildClientJSON in Hj.
    destruct (clientXrayConfig cfg) as [xc|e] eqn:Hxc; [|discriminate].
    assert (j = Marshal (fullConfigJSON xc)) as -> by congruence.
    apply Valid_Marshal. now apply (clientXrayConfig_wf cfg).
Qed.

Lemma compiled_documents_valid_witness :
  exists j,
    BuildServerJSON (Some (Samples.server ":443" [Samples.wsFallback ":8443"]))
    = Ok j /\ Json.Valid j = true.
Proof.
  destruct (BuildServerJSON
              (Some (Samples.server ":443" [Samples.wsFallback ":8443"])))
    as [j|e] eqn:Hj; [|vm_compute in Hj; discriminate].
  exists j. split; [reflexivity|].
  exact (proj1 compiled_documents_valid _ j Hj).
Defined.

Lemma BuildServerJSON_agree (a b : Config) :
  Listen b = Listen a -> UUID b = UUID a ->
  SNI (Reality b) = SNI (Reality a) ->
  PrivateKey (Reality b) = PrivateKey (Reality a) ->
  ShortIDs (Reality b) = ShortIDs (Reality a) ->
  Fallbacks b = Fallbacks a -> LogLevel b = LogLevel a ->
  BuildServerJSON (Some b) = BuildServerJSON (Some a).
Proof.
  intros H1 H2 H3 H4 H5 H6 H7. unfold BuildServerJSON, serverXrayConfig.
  now rewrite H1, H2, H3, H4, H5, H6, H7.
Qed.

Lemma BuildServerJSON_Validate (c : Config) :
  BuildServerJSON (Some (fst (Validate c))) = BuildServerJSON (Some c).
Proof.
  destruct (Validate_changes c) as ((H1 & H2 & H3 & H4 & H5 & _) & _).
  cbv zeta in *. apply BuildServerJSON_agree; congruence.
Qed.

(** X9: the result of [BuildServerJSON] depends only on the listen
    address, the UUID, the REALITY SNI, private key and short
    identifiers, the fallbacks and the log level: not on the protocol,
    the fingerprint, the REALITY public key, the sports mode, rotation or
    payment.  So [Validate] before the build does not change the
    document or the error. *)
Theorem BuildServerJSON_fields (c c' : Config) :
  (Listen c' = Listen c -> UUID c' = UUID c ->
   SNI (Reality c') = SNI (Reality c) ->
   PrivateKey (Reality c') = PrivateKey (Reality c) ->
   ShortIDs (Reality c') = ShortIDs (Reality c) ->
   Fallbacks c' = Fallbacks c -> LogLevel c' = LogLevel c ->
   BuildServerJSON (Some c') = BuildServerJSON (Some c)) /\
  BuildServerJSON (Some (fst (Validate c))) = BuildServerJSON (Some c).
Proof. split; [apply BuildServerJSON_agree | apply BuildServerJSON_Validate]. Qed.

Lemma BuildServerJSON_fields_witness :
  BuildServerJSON (Some (fst (Validate (Samples.server ":443" []))))
  = BuildServerJSON (Some (Samples.server ":443" [])).
Proof. exact (proj2 (BuildServerJSON_fields (Samples.server ":443" []) (Samples.server ":443" []))). Defined.

Lemma BuildClientJSON_fields (a b : ClientConfig) :
  LocalListen b = LocalListen a -> Server b = Server a -> CUUID b = CUUID a ->
  CSNI b = CSNI a -> PublicKey b = PublicKey a -> ShortID b = ShortID a ->
  HTTPListen b = HTTPListen a -> CLogLevel b = CLogLevel a ->
  (if String.eqb (CFingerprint b) "" then "chrome" else CFingerprint b)
  = (if String.eqb (CFingerprint a) "" then "chrome" else CFingerprint a) ->
  BuildClientJSON (Some b) = BuildClientJSON (Some a).
Proof.
  intros H1 H2 H3 H4 H5 H6 H7 H8 H9. unfold BuildClientJSON, clientXrayConfig.
  now rewrite H1, H2, H3, H4, H5, H6, H7, H8, H9.
Qed.

(** X10: for a client configuration [Validate] accepts,
    [BuildClientJSON] of the validated configuration equals that of the
    given one when the local listen address is set; when it is empty
    the given configuration does not build (empty address) and the
    validated one does. *)
Theorem BuildClientJSON_after_Validate (c : ClientConfig) :
  snd (ValidateClient c) = None ->
  (LocalListen c <> "" ->
   BuildClientJSON (Some (fst (ValidateClient c))) = BuildClientJSON (Some c)) /\
  (LocalListen c = "" ->
   BuildClientJSON (Some c) = Err (ErrInvalidLocalListen ErrEmptyAddress) /\
   isOk (BuildClientJSON (Some (fst (ValidateClient c)))) = true).
Proof.
  intros Hok.
  destruct (ValidateClient_changes c) as (_ & _ & Hd & _). cbv zeta in Hd.
  destruct (Hd Hok) as (HL & HF & _ & H1 & H2 & H3 & H4 & H5 & H6 & H7 & _).
  split.
  - intros Hne. apply BuildClientJSON_fields; try assumption.
    + rewrite HL. now destruct (String.eqb_spec (LocalListen c) "").
    + rewrite HF.
      destruct (String.eqb (CFingerprint c) "") eqn:E; [reflexivity | now rewrite E].
  - intros He. split.
    + unfold BuildClientJSON, clientXrayConfig. now rewrite He.
    + destruct (clientXrayConfig_ok (fst (ValidateClient c))) as (xc & Hxc & _).
      { rewrite HL, He. reflexivity. }
      unfold BuildClientJSON. now rewrite Hxc.
Qed.

Lemma BuildClientJSON_after_Validate_witness :
  BuildClientJSON
    (Some (Samples.client "1.2.3.4:443" "" ""))
  = Err (ErrInvalidLocalListen ErrEmptyAddress) /\
  isOk (BuildClientJSON
          (Some (fst (ValidateClient (Samples.client "1.2.3.4:443" "" "")))))
  = true.
Proof.
  apply (BuildClientJSON_after_Validate (Samples.client "1.2.3.4:443" "" ""));
    reflexivity.
Defined.

Lemma assoc_app k (a b : list (string * value)) :
  assoc k (a ++ b)
  = match assoc k a with Some v => Some v | None => assoc k b end.
Proof.
  induction a as [|[k' v] a IH]; cbn; [reflexivity|].
  now destruct (String.eqb k' k).
Qed.

Lemma assoc_strOmit k k' s :
  assoc k (strOmit k' s)
  = if String.eqb k' k && negb (String.eqb s "") then Some (Str s) else None.
Proof.
  unfold strOmit. destruct (String.eqb s ""); cbn; [now rewrite andb_false_r|].
  rewrite andb_true_r. now destruct (String.eqb k' k).
Qed.

Lemma assoc_strsOmit k k' l :
  assoc k (strsOmit k' l)
  = if String.eqb k' k && negb (Nat.eqb (length l) 0)
    then Some (Arr (map Str l)) else None.
Proof.
  unfold strsOmit. destruct l; cbn; [now rewrite andb_false_r|].
  rewrite andb_true_r. now destruct (String.eqb k' k).
Qed.

Lemma assoc_intOmit k k' z :
  assoc k (intOmit k' z)
  = if String.eqb k' k && negb (z =? 0) then Some (Int z) else None.
Proof.
  unfold intOmit. destruct (z =? 0); cbn; [now rewrite andb_false_r|].
  rewrite andb_true_r. now destruct (String.eqb k' k).
Qed.

(** The members of the camouflage block, by name. *)
Lemma member_realityJSON k r :
  member k (realityJSON r)
  = if String.eqb "show" k then Some (Bool (Show r))
    else if String.eqb "dest" k && negb (String.eqb (Dest r) "")
    then Some (Str (Dest r))
    else if String.eqb "xver" k && negb (Xver r =? 0) then Some (Int (Xver r))
    else if String.eqb "serverNames" k && negb (Nat.eqb (length (ServerNames r)) 0)
    then Some (Arr (map Str (ServerNames r)))
    else if String.eqb "privateKey" k && negb (String.eqb (RPrivateKey r) "")
    then Some (Str (RPrivateKey r))
    else if String.eqb "shortIds" k && negb (Nat.eqb (length (RShortIDs r)) 0)
    then Some (Arr (map Str (RShortIDs r)))
    else if String.eqb "serverName" k && negb (String.eqb (ServerName r) "")
    then Some (Str (ServerName r))
    else if String.eqb "fingerprint" k && negb (String.eqb (RFingerprint r) "")
    then Some (Str (RFingerprint r))
    else if String.eqb "publicKey" k && negb (String.eqb (RPublicKey r) "")
    then Some (Str (RPublicKey r))
    else if String.eqb "shortId" k && negb (String.eqb (RShortID r) "")
    then Some (Str (RShortID r))
    else None.
Proof.
  unfold realityJSON, member, field.
  rewrite !assoc_app, !assoc_strOmit, !assoc_strsOmit, assoc_intOmit.
  cbn [assoc].
  repeat match goal with
         | |- context [if ?b then _ else _] => destruct b; try reflexivity
         end.
Qed.

Lemma lookup_stream_reality side (o : value) rest s r path :
  member side o = Some (Arr (s :: rest)) ->
  member "streamSettings" s = Some (streamJSON r) ->
  lookup (Key side :: Idx 0 :: Key "streamSettings" :: path) o
  = lookup path (streamJSON r).
Proof. intros H1 H2. cbn [lookup nth_error]. now rewrite H1, H2. Qed.

Lemma member_reality_stream s r :
  RealityS s = Some r ->
  member "realitySettings" (streamJSON s) = Some (realityJSON r).
Proof. intros H. unfold streamJSON, field. rewrite H. reflexivity. Qed.

(** X11: in the client document, the REALITY settings of
    the first outbound carry the configured fingerprint ("chrome" when
    empty), and the server name, public key and short identifier when
    they are not empty; "show" is false, and the server-side keys
    (private key, dest, server names, short identifiers) are absent. *)
Theorem client_document_camouflage (cfg : ClientConfig) (xc : xrayFullConfig) :
  clientXrayConfig cfg = Ok xc ->
  let at_ k :=
    lookup [Key "outbounds"; Idx 0; Key "streamSettings"; Key "realitySettings";
            Key k] (fullConfigJSON xc) in
  at_ "fingerprint"
  = Some (Str (if String.eqb (CFingerprint cfg) "" then "chrome"
               else CFingerprint cfg)) /\
  at_ "serverName"
  = (if String.eqb (CSNI cfg) "" then None else Some (Str (CSNI cfg))) /\
  at_ "publicKey"
  = (if String.eqb (PublicKey cfg) "" then None else Some (Str (PublicKey cfg))) /\
  at_ "shortId"
  = (if String.eqb (ShortID cfg) "" then None else Some (Str (ShortID cfg))) /\
  at_ "show" = Some (Bool false) /\
  at_ "privateKey" = None /\ at_ "dest" = None /\ at_ "serverNames" = None /\
  at_ "shortIds" = None.
Proof.
  unfold clientXrayConfig.
  destruct (splitHostPort (LocalListen cfg)) as [[h p]|e]; [|discriminate].
  destruct (parseServerAddr (Server cfg)) as [sh sp].
  intros [= <-]. cbv zeta beta.
  match goal with
  | |- context [fullConfigJSON ?x] => set (doc := fullConfigJSON x)
  end.
  assert (Hpath : forall k,
    lookup [Key "outbounds"; Idx 0; Key "streamSettings";
            Key "realitySettings"; Key k] doc
    = member k (realityJSON
        {| Show := false; Dest := ""; Xver := 0; ServerNames := [];
           RPrivateKey := ""; RShortIDs := []; ServerName := CSNI cfg;
           RFingerprint := if String.eqb (CFingerprint cfg) "" then "chrome"
                           else CFingerprint cfg;
           RPublicKey := PublicKey cfg; RShortID := ShortID cfg |})).
  { intros k. subst doc. unfold fullConfigJSON, field.
    cbn [lookup member Outbounds Log optOmit app assoc String.eqb Ascii.eqb
         Bool.eqb map nth_error].
    unfold outboundJSON at 1, field.
    cbn [member app assoc String.eqb Ascii.eqb Bool.eqb OutTag OutProtocol
         OutSettings OutStream rawOmit optOmit].
    rewrite !assoc_app.
    match goal with
    | |- context [assoc "streamSettings" (if ?b then _ else _)] => destruct b
    end; cbn [assoc String.eqb Ascii.eqb Bool.eqb];
      unfold streamJSON at 1, field;
      cbn [member app assoc String.eqb Ascii.eqb Bool.eqb Network Security
           RealityS TLS WS optOmit];
      now destruct (member k _). }
  rewrite !Hpath, !member_realityJSON.
  cbn [Show Dest Xver ServerNames RPrivateKey RShortIDs ServerName RFingerprint
       RPublicKey RShortID String.eqb Ascii.eqb Bool.eqb andb negb length
       Nat.eqb Z.eqb].
  repeat split;
    match goal with
    | |- context [String.eqb ?x ""] =>
        let E := fresh "E" in
        destruct (String.eqb x "") eqn:E; cbn [negb]; rewrite ?E; reflexivity
    end.
Qed.

Lemma client_document_camouflage_witness :
  exists xc,
    clientXrayConfig (Samples.client "1.2.3.4:443" "127.0.0.1:1080" "") = Ok xc /\
    lookup [Key "outbounds"; Idx 0; Key "streamSettings"; Key "realitySettings";
            Key "fingerprint"] (fullConfigJSON xc) = Some (Str "chrome").
Proof.
  destruct (clientXrayConfig (Samples.client "1.2.3.4:443" "127.0.0.1:1080" ""))
    as [xc|e] eqn:Hxc; [|vm_compute in Hxc; discriminate].
  exists xc. split; [reflexivity|].
  exact (proj1 (client_document_camouflage _ xc Hxc)).
Defined.

Lemma serverXrayConfig_inbounds cfg xc :
  serverXrayConfig cfg = Ok xc ->
  exists primary,
    Inbounds xc = primary :: fallbackInbounds 0 (Fallbacks cfg) /\
    InTag primary = "vless-reality" /\
    InStream primary
    = Some {| Network := "tcp"; Security := "reality";
              RealityS :=
                Some {| Show := false; Dest := SNI (Reality cfg) ++ ":443";
                        Xver := 0; ServerNames := [SNI (Reality cfg)];
                        RPrivateKey := PrivateKey (Reality cfg);
                        RShortIDs := match ShortIDs (Reality cfg) with
                                     | [] => [""]
                                     | l => l
                                     end;
                        ServerName := ""; RFingerprint := "";
                        RPublicKey := ""; RShortID := "" |};
              TLS := None; WS := None |}.
Proof.
  unfold serverXrayConfig.
  destruct (splitHostPort (Listen cfg)) as [[h p]|e]; [|discriminate].
  match goal with
  | |- context [addFallbacks 0 _ [?x]] => set (primary := x)
  end.
  destruct (addFallbacks 0 (Fallbacks cfg) [primary]) as [inbounds|e] eqn:Hadd;
    [|discriminate].
  apply addFallbacks_expected in Hadd. subst inbounds.
  intros [= <-]. exists primary. repeat split.
Qed.

Lemma append_nonempty (a b : string) : b <> "" -> (a ++ b)%string <> "".
Proof. destruct a; cbn; [auto | discriminate]. Qed.

(** X12: in the server document, the REALITY settings of
    the first inbound have "dest" the SNI with ":443", "serverNames" the
    SNI alone, "shortIds" the configured list or the single empty string
    when there is none, the private key when not empty, and "show"
    false; the client-side keys (fingerprint, public key, server name,
    short identifier) and "xver" are absent. *)
Theorem server_document_camouflage (cfg : Config) (xc : xrayFullConfig) :
  serverXrayConfig cfg = Ok xc ->
  let at_ k :=
    lookup [Key "inbounds"; Idx 0; Key "streamSettings"; Key "realitySettings";
            Key k] (fullConfigJSON xc) in
  at_ "dest" = Some (Str (SNI (Reality cfg) ++ ":443")) /\
  at_ "serverNames" = Some (Arr [Str (SNI (Reality cfg))]) /\
  at_ "shortIds"
  = Some (Arr (map Str match ShortIDs (Reality cfg) with
                       | [] => [""]
                       | l => l
                       end)) /\
  at_ "privateKey"
  = (if String.eqb (PrivateKey (Reality cfg)) "" then None
     else Some (Str (PrivateKey (Reality cfg)))) /\
  at_ "show" = Some (Bool false) /\
  at_ "xver" = None /\ at_ "fingerprint" = None /\ at_ "publicKey" = None /\
  at_ "serverName" = None /\ at_ "shortId" = None.
Proof.
  intros Hxc. cbv zeta.
  destruct (serverXrayConfig_inbounds cfg xc Hxc) as (primary & Hin & _ & Hst).
  assert (Hpath : forall k,
    lookup [Key "inbounds"; Idx 0; Key "streamSettings";
            Key "realitySettings"; Key k] (fullConfigJSON xc)
    = member k (realityJSON
        {| Show := false; Dest := SNI (Reality cfg) ++ ":443";
           Xver := 0; ServerNames := [SNI (Reality cfg)];
           RPrivateKey := PrivateKey (Reality cfg);
           RShortIDs := match ShortIDs (Reality cfg) with
                        | [] => [""]
                        | l => l
                        end;
           ServerName := ""; RFingerprint := "";
           RPublicKey := ""; RShortID := "" |})).
  { intros k. cbn [lookup]. rewrite member_inbounds, Hin.
    cbn [map nth_error]. unfold inboundJSON at 1, field.
    cbn [member]. rewrite !assoc_app, assoc_strOmit. cbn [assoc String.eqb
      Ascii.eqb Bool.eqb andb]. rewrite Hst. cbn [optOmit assoc String.eqb
      Ascii.eqb Bool.eqb].
    unfold streamJSON at 1, field.
    cbn [member app assoc String.eqb Ascii.eqb Bool.eqb Network Security
         RealityS TLS WS optOmit].
    now destruct (member k _). }
  rewrite !Hpath, !member_realityJSON.
  cbn [Show Dest Xver ServerNames RPrivateKey RShortIDs ServerName RFingerprint
       RPublicKey RShortID String.eqb Ascii.eqb Bool.eqb andb negb length
       Nat.eqb Z.eqb].
  assert (Hd : String.eqb (SNI (Reality cfg) ++ ":443") "" = false).
  { apply String.eqb_neq, append_nonempty. discriminate. }
  rewrite Hd. cbn [negb].
  assert (Hs : Nat.eqb (length match ShortIDs (Reality cfg) with
                               | [] => [""]
                               | l => l
                               end) 0 = false)
    by (destruct (ShortIDs (Reality cfg)); reflexivity).
  rewrite Hs. cbn [negb].
  repeat split.
  now destruct (String.eqb (PrivateKey (Reality cfg)) "").
Qed.

Lemma server_document_camouflage_witness :
  exists xc,
    serverXrayConfig (Samples.server ":443" []) = Ok xc /\
    lookup [Key "inbounds"; Idx 0; Key "streamSettings"; Key "realitySettings";
            Key "shortIds"] (fullConfigJSON xc) = Some (Arr [Str ""]).
Proof.
  destruct (serverXrayConfig (Samples.server ":443" [])) as [xc|e] eqn:Hxc;
    [|vm_compute in Hxc; discriminate].
  exists xc. split; [reflexivity|].
  exact (proj1 (proj2 (proj2 (server_document_camouflage _ xc Hxc)))).
Defined.

Lemma Itoa_nonneg_no_dash i :
  0 <= i -> ~ In "-"%char (list_ascii_of_string (GoStr.Itoa i)).
Proof.
  intros Hi Hin.
  assert (Hd : allBytes (fun c => negb (Ascii.eqb c "-")) (GoStr.Itoa i) = true).
  { destruct i as [|q|q]; [reflexivity | | lia].
    rewrite Itoa_pos. now apply allBytes_uint. }
  pose proof (allBytes_In _ _ _ Hd Hin) as H. discriminate.
Qed.

Lemma join_last_inj (c : ascii) (a b a' b' : string) :
  ~ In c (list_ascii_of_string b) -> ~ In c (list_ascii_of_string b') ->
  (a ++ String c b)%string = (a' ++ String c b')%string -> a = a' /\ b = b'.
Proof.
  intros Hb Hb' E.
  pose proof (lastIndexFrom_last c a b 0 (-1) Hb) as H1.
  pose proof (lastIndexFrom_last c a' b' 0 (-1) Hb') as H2.
  rewrite E, H2 in H1.
  assert (Hlen : Z.of_nat (String.length a) = Z.of_nat (String.length a')) by lia.
  destruct (slice_last a b c) as [Ha Hr].
  destruct (slice_last a' b' c) as [Ha' Hr'].
  rewrite E, Hlen in Ha, Hr. split; congruence.
Qed.

Lemma fallback_tag_inj (p p' : string) (i j : Z) :
  0 <= i -> 0 <= j ->
  ("fallback-" ++ p ++ "-" ++ GoStr.Itoa i)%string
  = ("fallback-" ++ p' ++ "-" ++ GoStr.Itoa j)%string ->
  i = j.
Proof.
  intros Hi Hj E.
  assert (E' : (p ++ String "-" (GoStr.Itoa i))%string
               = (p' ++ String "-" (GoStr.Itoa j))%string).
  { cbn in E. congruence. }
  apply join_last_inj in E'; try now apply Itoa_nonneg_no_dash.
  now apply Itoa_inj.
Qed.

Lemma fallback_tags fbs : forall k,
  0 <= k ->
  Forall (fun t => exists p j, k <= j /\
                   t = ("fallback-" ++ p ++ "-" ++ GoStr.Itoa j)%string)
         (map InTag (fallbackInbounds k fbs)) /\
  List.NoDup (map InTag (fallbackInbounds k fbs)).
Proof.
  induction fbs as [|fb fbs IH]; intros k Hk; cbn [fallbackInbounds map].
  - split; constructor.
  - destruct (IH (k + 1)) as [Hall Hnd]; [lia|]. split.
    + constructor.
      * exists (FbProtocol fb), k. split; [lia | reflexivity].
      * eapply List.Forall_impl; [|exact Hall].
        intros t (p & j & Hj & ->). exists p, j. split; [lia | reflexivity].
    + constructor; [|exact Hnd]. intros Hin.
      rewrite List.Forall_forall in Hall.
      destruct (Hall _ Hin) as (p & j & Hj & E).
      cbn [fallbackInbound InTag] in E.
      apply fallback_tag_inj in E; lia.
Qed.

(** X13: the inbounds of a server document have pairwise
    distinct tags: "vless-reality-in" and one tag per fallback, made of
    "fallback", its protocol and its position. *)
Theorem server_inbound_tags_distinct (cfg : Config) (xc : xrayFullConfig) :
  serverXrayConfig cfg = Ok xc -> List.NoDup (map InTag (Inbounds xc)).
Proof.
  intros Hxc.
  destruct (serverXrayConfig_inbounds cfg xc Hxc) as (primary & -> & Htag & _).
  destruct (fallback_tags (Fallbacks cfg) 0) as [Hall Hnd]; [lia|].
  cbn [map]. constructor; [|exact Hnd]. rewrite Htag. intros Hin.
  rewrite List.Forall_forall in Hall.
  destruct (Hall _ Hin) as (p & j & _ & E). discriminate.
Qed.

Lemma server_inbound_tags_distinct_witness :
  exists xc,
    serverXrayConfig
      (Samples.server ":443" [Samples.wsFallback ":8443"; Samples.wsFallback ":8444"])
    = Ok xc /\
    List.NoDup (map InTag (Inbounds xc)).
Proof.
  destruct (serverXrayConfig
              (Samples.server ":443"
                 [Samples.wsFallback ":8443"; Samples.wsFallback ":8444"]))
    as [xc|e] eqn:Hxc; [|vm_compute in Hxc; discriminate].
  exists xc. split; [reflexivity|].
  exact (server_inbound_tags_distinct _ xc Hxc).
Defined.

End DocumentFacts.

(** ** More about the engine supervisor *)

Section EngineLifecycle.

Import Tunnel.

Lemma startBuilt_outcome e built e' err :
  startBuilt e built = (e', err) ->
  match err with
  | None =>
      status e' = StatusRunning /\
      exists j inst,
        built = Ok j /\ loader e j = Ok inst /\ InstStart inst = None /\
        instance e' = Some inst /\ jsonConfig e' = Some j
  | Some (ErrBuildFailed b) =>
      status e' = StatusError /\ built = Err b /\
      instance e' = instance e /\ jsonConfig e' = jsonConfig e
  | Some (ErrLoadFailed msg) =>
      status e' = StatusError /\
      exists j, built = Ok j /\ loader e j = Err msg /\
                instance e' = instance e /\ jsonConfig e' = Some j
  | Some (ErrInstanceStartFailed msg) =>
      status e' = StatusError /\
      exists j inst,
        built = Ok j /\ loader e j = Ok inst /\ InstStart inst = Some msg /\
        instance e' = instance e /\ jsonConfig e' = Some j
  | Some _ => False
  end /\
  config e' = config e /\ clientConfig e' = clientConfig e /\
  mode e' = mode e /\ loader e' = loader e /\
  stopChClosed e' = stopChClosed e.
Proof.
  unfold startBuilt. destruct built as [j|b].
  - cbn [loader setJSONConfig logTo].
    destruct (loader e j) as [inst|msg] eqn:Hl.
    + destruct (InstStart inst) as [msg|] eqn:Hs; intros [= <- <-];
        (split; [|repeat split]); cbn; eauto 10.
    + intros [= <- <-]. (split; [|repeat split]); cbn; eauto 10.
  - intros [= <- <-]. (split; [|repeat split]); cbn; eauto 10.
Qed.

Lemma Start_cases e e' err :
  Start e = Some (e', err) ->
  (status e = StatusRunning /\ e' = e /\ err = Some ErrAlreadyRunning) \/
  (status e <> StatusRunning /\
   ((exists m, mode e = ModeOther m /\ err = Some (ErrUnknownMode m) /\
               e' = setStatus StatusError (setStatus StatusStarting e)) \/
    (exists built e1,
       compiled e = Some built /\ startBuilt e1 built = (e', err) /\
       config e1 = config e /\ clientConfig e1 = clientConfig e /\
       mode e1 = mode e /\ loader e1 = loader e /\
       stopChClosed e1 = stopChClosed e /\ instance e1 = instance e /\
       jsonConfig e1 = jsonConfig e))).
Proof.
  unfold Start, compiled.
  destruct (statusEqb (status e) StatusRunning) eqn:Hst.
  - apply statusEqb_eq in Hst. intros [= <- <-]. now left.
  - apply statusEqb_running in Hst. intros H. right. split; [exact Hst|].
    cbn [mode setStatus config clientConfig] in H.
    destruct (mode e) as [| |m] eqn:Hm.
    + destruct (config e) as [cfg|] eqn:Hcfg; [|discriminate]. right.
      apply (inj Some) in H. eexists _, _. split; [reflexivity|].
      split; [exact H|]. cbn. repeat split; congruence.
    + destruct (clientConfig e) as [cfg|] eqn:Hcfg; [|discriminate]. right.
      apply (inj Some) in H. eexists _, _. split; [reflexivity|].
      split; [exact H|]. cbn. repeat split; congruence.
    + left. exists m. injection H as <- <-. repeat split.
Qed.

Lemma Start_result (e e' : Engine) (err : option EngineError) :
  Start e = Some (e', err) ->
  match err with
  | None =>
      status e <> StatusRunning /\ status e' = StatusRunning /\
      exists j inst,
        compiled e = Some (Ok j) /\ loader e j = Ok inst /\
        InstStart inst = None /\ instance e' = Some inst
  | Some ErrAlreadyRunning => status e = StatusRunning /\ e' = e
  | Some (ErrUnknownMode m) =>
      status e' = StatusError /\ mode e = ModeOther m /\
      instance e' = instance e
  | Some (ErrBuildFailed b) =>
      status e' = StatusError /\ compiled e = Some (Err b) /\
      instance e' = instance e
  | Some (ErrLoadFailed msg) =>
      status e' = StatusError /\ instance e' = instance e /\
      exists j, compiled e = Some (Ok j) /\ loader e j = Err msg
  | Some (ErrInstanceStartFailed msg) =>
      status e' = StatusError /\ instance e' = instance e /\
      exists j inst,
        compiled e = Some (Ok j) /\ loader e j = Ok inst /\
        InstStart inst = Some msg
  | Some _ => False
  end.
Proof.
  intros H. apply Start_cases in H.
  destruct H as [(Hst & -> & ->) | (Hst & [(m & Hm & -> & ->) |
    (built & e1 & Hc & Hb & _ & _ & _ & Hl & _ & Hi & _)])].
  - now split.
  - repeat split; assumption.
  - apply startBuilt_outcome in Hb. destruct Hb as [Hb _].
    destruct err as [[]|].
    all: try contradiction.
    + destruct Hb as (? & -> & ? & ?). repeat split; congruence.
    + destruct Hb as (? & j & -> & ? & ? & ?). repeat split; try congruence.
      exists j. split; congruence.
    + destruct Hb as (? & j & inst & -> & ? & ? & ? & ?).
      repeat split; try congruence. exists j, inst. repeat split; congruence.
    + destruct Hb as (? & j & inst & -> & ? & ? & ? & ?).
      repeat split; try congruence. exists j, inst. repeat split; congruence.
Qed.

(** X14: what [Engine.Start] returns determines the state it leaves.
    No error: the engine was not running, is running, and holds the
    instance the loader gave for the compiled document, whose [Start]
    succeeded.  "Already running": the engine is unchanged.  Any other
    error (unknown mode, build, load, instance start): the status is
    "error" and the instance held is the one held before. *)
Theorem Start_outcome (e e' : Engine) (err : option EngineError) :
  Start e = Some (e', err) ->
  match err with
  | None =>
      status e <> StatusRunning /\ status e' = StatusRunning /\
      exists j inst,
        compiled e = Some (Ok j) /\ loader e j = Ok inst /\
        InstStart inst = None /\ instance e' = Some inst
  | Some ErrAlreadyRunning => status e = StatusRunning /\ e' = e
  | Some (ErrUnknownMode m) =>
      status e' = StatusError /\ mode e = ModeOther m /\
      instance e' = instance e
  | Some (ErrBuildFailed b) =>
      status e' = StatusError /\ compiled e = Some (Err b) /\
      instance e' = instance e
  | Some (ErrLoadFailed msg) =>
      status e' = StatusError /\ instance e' = instance e /\
      exists j, compiled e = Some (Ok j) /\ loader e j = Err msg
  | Some (ErrInstanceStartFailed msg) =>
      status e' = StatusError /\ instance e' = instance e /\
      exists j inst,
        compiled e = Some (Ok j) /\ loader e j = Ok inst /\
        InstStart inst = Some msg
  | Some _ => False
  end.
Proof. exact (Start_result e e' err). Qed.

Lemma Start_outcome_witness :
  exists e',
    Start (Samples.serverEngine StatusStopped "localhost")
    = Some (e', Some (ErrBuildFailed (ErrInvalidListen (ErrNoPort "localhost")))) /\
    status e' = StatusError /\
    instance e' = None.
Proof.
  destruct (Start_build_failed (Samples.serverEngine StatusStopped "localhost")
              (ErrInvalidListen (ErrNoPort "localhost")))
    as (e' & H & _); [discriminate | reflexivity |].
  exists e'. split; [exact H|].
  destruct (Start_outcome _ _ _ H) as (Hs & _ & Hi). split; [exact Hs | exact Hi].
Defined.

Lemma compiled_valid e j : compiled e = Some (Ok j) -> Json.Valid j = true.
Proof.
  intros H. apply stubLoader_compiled in H. unfold stubLoader in H.
  now destruct (Json.Valid j).
Qed.

Lemma Stop_frame e :
  jsonConfig (fst (Stop e)) = jsonConfig e /\ config (fst (Stop e)) = config e /\
  clientConfig (fst (Stop e)) = clientConfig e /\ mode (fst (Stop e)) = mode e /\
  loader (fst (Stop e)) = loader e.
Proof.
  unfold Stop. destruct (negb (statusEqb (status e) StatusRunning)).
  - repeat split.
  - cbn [fst setStatus logTo closeStopCh setInstance instance].
    destruct (instance e) as [inst|]; [destruct (InstClose inst)|]; repeat split.
Qed.

(** X15: [Engine.JSONConfig] is empty on a new engine.  [Start]
    replaces it by the compiled document whenever the engine was not
    running and the build succeeded, also when the load or the instance
    start fails afterwards, and keeps it otherwise; after a successful
    [Start] it is a well-formed JSON document.  [Stop] keeps it. *)
Theorem JSONConfig_cache :
  (forall L cfg e, NewEngine L cfg = Ok e -> JSONConfig e = None) /\
  (forall L cfg e, NewClientEngine L cfg = Ok e -> JSONConfig e = None) /\
  (forall e e' err,
     Start e = Some (e', err) ->
     JSONConfig e'
     = (if statusEqb (status e) StatusRunning then JSONConfig e
        else match compiled e with
             | Some (Ok j) => Some j
             | _ => JSONConfig e
             end) /\
     (err = None -> exists j, JSONConfig e' = Some j /\ Json.Valid j = true)) /\
  (forall e, JSONConfig (fst (Stop e)) = JSONConfig e).
Proof.
  unfold JSONConfig. repeat split.
  - intros L [cfg|] e; cbn; [|discriminate].
    destruct (Validate cfg) as [c' [err|]]; [discriminate|]. now intros [= <-].
  - intros L [cfg|] e; cbn; [|discriminate].
    destruct (ValidateClient cfg) as [c' [err|]]; [discriminate|]. now intros [= <-].
  - apply Start_cases in H.
    destruct H as [(Hst & -> & ->) | (Hst & [(m & Hm & -> & ->) |
      (built & e1 & Hc & Hb & _ & _ & _ & _ & _ & _ & Hj)])].
    + now rewrite Hst.
    + apply statusEqb_running in Hst. rewrite Hst. unfold compiled. now rewrite Hm.
    + apply statusEqb_running in Hst. rewrite Hst, Hc.
      apply startBuilt_outcome in Hb. destruct Hb as [Hb _].
      destruct err as [[]|]; try contradiction.
      * destruct Hb as (_ & -> & _ & ->). exact Hj.
      * now destruct Hb as (_ & j & -> & _ & _ & ->).
      * now destruct Hb as (_ & j & inst & -> & _ & _ & _ & ->).
      * now destruct Hb as (_ & j & inst & -> & _ & _ & _ & ->).
  - intros ->. apply Start_cases in H.
    destruct H as [(_ & _ & [=]) | (Hst & [(m & _ & [=] & _) |
      (built & e1 & Hc & Hb & _)])].
    apply startBuilt_outcome in Hb. destruct Hb as [(_ & j & inst & -> & _ & _ & _ & Hj) _].
    exists j. split; [exact Hj | now apply (compiled_valid e)].
  - apply Stop_frame.
Qed.

Lemma JSONConfig_cache_witness :
  exists e' j,
    Start (Samples.serverEngine StatusStopped ":443") = Some (e', None) /\
    JSONConfig e' = Some j /\ Json.Valid j = true.
Proof.
  destruct (Start_not_running (Samples.serverEngine StatusStopped ":443")
              (match BuildServerJSON (Some (Samples.server ":443" [])) with
               | Ok j => j
               | Err _ => ""
               end)
              stubInstance)
    as (e' & H & _).
  - discriminate.
  - vm_compute. reflexivity.
  - vm_compute. reflexivity.
  - reflexivity.
  - destruct (proj2 (proj1 (proj2 (proj2 JSONConfig_cache)) _ _ _ H) eq_refl)
      as (j & Hj & Hv).
    exists e', j. repeat split; assumption.
Defined.

(** What every call of [Start] and [Stop] keeps true of an engine. *)
Lemma Start_keeps e e' err :
  Start e = Some (e', err) ->
  (status e = StatusRunning <-> instance e <> None) ->
  (status e' = StatusRunning <-> instance e' <> None) /\
  (status e' = StatusRunning \/ status e' = StatusError) /\
  stopChClosed e' = stopChClosed e /\ config e' = config e /\
  clientConfig e' = clientConfig e /\ mode e' = mode e /\ loader e' = loader e.
Proof.
  intros H Hinv. apply Start_cases in H.
  destruct H as [(Hst & -> & ->) | (Hst & [(m & Hm & -> & ->) |
    (built & e1 & Hc & Hb & H1 & H2 & H3 & H4 & H5 & H6 & _)])].
  - repeat split; try tauto.
  - cbn. repeat split; try tauto; try discriminate;
      try (intros Hi; exfalso; apply Hst; now apply Hinv).
  - apply startBuilt_outcome in Hb.
    destruct Hb as (Hb & H1' & H2' & H3' & H4' & H5').
    assert (Hnone : instance e = None).
    { destruct (instance e) eqn:Hi; [|reflexivity].
      exfalso. apply Hst, Hinv. discriminate. }
    assert (Herr : status e' = StatusError -> instance e' = instance e1 ->
                   (status e' = StatusRunning <-> instance e' <> None)).
    { intros Hs Hi. rewrite Hs, Hi, H6, Hnone. split; [discriminate | tauto]. }
    destruct err as [[]|]; try contradiction.
    + destruct Hb as (Hs & _ & Hi & _).
      repeat split; try congruence; try tauto; try (now apply Herr); auto.
    + destruct Hb as (Hs & j & _ & _ & Hi & _).
      repeat split; try congruence; try tauto; try (now apply Herr); auto.
    + destruct Hb as (Hs & j & inst & _ & _ & _ & Hi & _).
      repeat split; try congruence; try tauto; try (now apply Herr); auto.
    + destruct Hb as (Hs & j & inst & _ & _ & _ & Hi & _).
      repeat split; try congruence; try tauto; auto;
        try (rewrite Hi; discriminate).
Qed.

Lemma Start_total e :
  (mode e = ModeServer -> config e <> None) ->
  (mode e = ModeClient -> clientConfig e <> None) ->
  exists e' err, Start e = Some (e', err).
Proof.
  intros Hs Hc. unfold Start.
  destruct (statusEqb (status e) StatusRunning); [eauto|].
  cbn [mode setStatus config clientConfig].
  destruct (mode e).
  - destruct (config e); [|exfalso; now apply Hs].
    destruct (startBuilt _ _) as [e' err]. eauto.
  - destruct (clientConfig e); [|exfalso; now apply Hc].
    destruct (startBuilt _ _) as [e' err]. eauto.
  - eauto.
Qed.

Lemma Stop_keeps e :
  (status e = StatusRunning <-> instance e <> None) ->
  let e' := fst (Stop e) in
  (status e' = StatusRunning <-> instance e' <> None) /\
  (status e' = StatusStopped \/ status e' = status e) /\
  stopChClosed e'
  = (stopChClosed e + match snd (Stop e) with None => 1 | Some _ => 0 end)%nat /\
  config e' = config e /\ clientConfig e' = clientConfig e /\
  mode e' = mode e /\ loader e' = loader e.
Proof.
  intros Hinv. cbv zeta. unfold Stop.
  destruct (statusEqb (status e) StatusRunning) eqn:Hst; cbn [negb fst snd].
  - cbn [setStatus logTo closeStopCh setInstance instance].
    destruct (instance e) as [inst|]; [destruct (InstClose inst)|];
      cbn; (repeat split; try discriminate; try tauto; try lia; auto).
  - repeat split; try tauto; auto; lia.
Qed.

Lemma Start_running_count e e' err :
  Start e = Some (e', err) ->
  ((if statusEqb (status e') StatusRunning then 1 else 0)
   = (if statusEqb (status e) StatusRunning then 1 else 0)
     + match err with None => 1 | Some _ => 0 end)%nat.
Proof.
  intros H. pose proof (Start_result e e' err H) as Ho.
  destruct err as [[]|]; try contradiction.
  - destruct Ho as (Hs & ->). rewrite Hs. reflexivity.
  - destruct Ho as (Hs & Hm & _). rewrite Hs.
    apply Start_cases in H. destruct H as [(_ & _ & [=]) | (Hst & _)].
    apply statusEqb_running in Hst. now rewrite Hst.
  - destruct Ho as (Hs & _). rewrite Hs.
    apply Start_cases in H. destruct H as [(_ & _ & [=]) | (Hst & _)].
    apply statusEqb_running in Hst. now rewrite Hst.
  - destruct Ho as (Hs & _). rewrite Hs.
    apply Start_cases in H. destruct H as [(_ & _ & [=]) | (Hst & _)].
    apply statusEqb_running in Hst. now rewrite Hst.
  - destruct Ho as (Hs & _). rewrite Hs.
    apply Start_cases in H. destruct H as [(_ & _ & [=]) | (Hst & _)].
    apply statusEqb_running in Hst. now rewrite Hst.
  - destruct Ho as (Hst & Hs & _). rewrite Hs.
    apply statusEqb_running in Hst. now rewrite Hst.
Qed.

Lemma Stop_running_count e :
  ((if statusEqb (status (fst (Stop e))) StatusRunning then 1 else 0)
   + match snd (Stop e) with None => 1 | Some _ => 0 end
   = (if statusEqb (status e) StatusRunning then 1 else 0))%nat.
Proof.
  unfold Stop. destruct (statusEqb (status e) StatusRunning) eqn:Hst;
    cbn [negb fst snd].
  - reflexivity.
  - now rewrite Hst.
Qed.

Lemma runCalls_invariant calls : forall e,
  (mode e = ModeServer -> config e <> None) ->
  (mode e = ModeClient -> clientConfig e <> None) ->
  (status e = StatusRunning <-> instance e <> None) ->
  (status e = StatusStopped \/ status e = StatusRunning \/ status e = StatusError) ->
  exists e' errs,
    runCalls calls e = Some (e', errs) /\ length errs = length calls /\
    (status e' = StatusRunning <-> instance e' <> None) /\
    (status e' = StatusStopped \/ status e' = StatusRunning \/
     status e' = StatusError) /\
    stopChClosed e' = (stopChClosed e + succeeded CallStop calls errs)%nat /\
    ((if statusEqb (status e') StatusRunning then 1 else 0)
     + succeeded CallStop calls errs
     = (if statusEqb (status e) StatusRunning then 1 else 0)
       + succeeded CallStart calls errs)%nat /\
    config e' = config e /\ clientConfig e' = clientConfig e /\
    mode e' = mode e /\ loader e' = loader e.
Proof.
  induction calls as [|c calls IH]; intros e Hs Hc Hinv Hst.
  - exists e, []. cbn. repeat split; try tauto; lia.
  - destruct c.
    + destruct (Start_total e Hs Hc) as (e1 & err & H1).
      destruct (Start_keeps e e1 err H1 Hinv)
        as (Hinv1 & Hst1 & Hch & Hcfg & Hccfg & Hmode & Hload).
      pose proof (Start_running_count e e1 err H1) as Hcount.
      destruct (IH e1) as (e' & errs & Hr & Hlen & Hi' & Hs' & Hch' & Hn' & F1
                           & F2 & F3 & F4);
        try (rewrite ?Hmode, ?Hcfg, ?Hccfg; assumption); [tauto|].
      exists e', (err :: errs). cbn [runCalls]. rewrite H1, Hr.
      cbn [length succeeded].
      repeat split; try assumption; try (apply Hi'; assumption);
        try congruence; try lia; destruct err; lia.
    + pose proof (Stop_keeps e Hinv) as Hk. cbv zeta in Hk.
      pose proof (Stop_running_count e) as Hcount.
      destruct (Stop e) as [e1 err] eqn:H1. cbn [fst snd] in Hk, Hcount.
      destruct Hk as (Hinv1 & Hst1 & Hch & Hcfg & Hccfg & Hmode & Hload).
      destruct (IH e1) as (e' & errs & Hr & Hlen & Hi' & Hs' & Hch' & Hn' & F1
                           & F2 & F3 & F4);
        try (rewrite ?Hmode, ?Hcfg, ?Hccfg; assumption).
      { destruct Hst1 as [->| ->]; tauto. }
      exists e', (err :: errs). cbn [runCalls]. rewrite H1, Hr.
      cbn [length succeeded].
      repeat split; try assumption; try (apply Hi'; assumption);
        try congruence; try lia; destruct err; lia.
Qed.

(** X16: on an engine made by [NewEngine] or [NewClientEngine], any
    sequence of [Start] and [Stop] calls returns, one result per call:
    the nil dereference of [Start] is never reached.  Afterwards the
    status is "running" exactly when an instance is held, the status is
    "stopped", "running" or "error", the stop channel has been
    closed once per successful [Stop], successful [Start]s outnumber
    successful [Stop]s by one when running and by none otherwise, and
    the configuration, the mode and the loader are those of the new
    engine. *)
Theorem engine_lifecycle (e0 : Engine) (calls : list EngineCall) :
  (exists L cfg, NewEngine L cfg = Ok e0) \/
  (exists L cfg, NewClientEngine L cfg = Ok e0) ->
  exists e errs,
    runCalls calls e0 = Some (e, errs) /\ length errs = length calls /\
    (status e = StatusRunning <-> instance e <> None) /\
    (status e = StatusStopped \/ status e = StatusRunning \/
     status e = StatusError) /\
    stopChClosed e = succeeded CallStop calls errs /\
    succeeded CallStart calls errs
    = ((if statusEqb (status e) StatusRunning then 1 else 0)
       + succeeded CallStop calls errs)%nat /\
    config e = config e0 /\ clientConfig e = clientConfig e0 /\
    mode e = mode e0 /\ loader e = loader e0.
Proof.
  intros Hnew.
  assert (H0 : (mode e0 = ModeServer -> config e0 <> None) /\
               (mode e0 = ModeClient -> clientConfig e0 <> None) /\
               status e0 = StatusStopped /\ instance e0 = None /\
               stopChClosed e0 = O).
  { destruct Hnew as [(L & [cfg|] & H) | (L & [cfg|] & H)]; cbn in H;
      try discriminate.
    - destruct (Validate cfg) as [c' [err|]]; [discriminate|].
      injection H as <-. cbn. repeat split; discriminate.
    - destruct (ValidateClient cfg) as [c' [err|]]; [discriminate|].
      injection H as <-. cbn. repeat split; discriminate. }
  destruct H0 as (Hs & Hc & Hst & Hi & Hch).
  destruct (runCalls_invariant calls e0 Hs Hc)
    as (e & errs & Hr & Hlen & Hi' & Hs' & Hch' & Hn' & F);
    [rewrite Hst, Hi; split; [discriminate | tauto] | tauto |].
  exists e, errs. rewrite Hst in Hn'. cbn in Hn'.
  repeat split; try tauto; lia.
Qed.

Lemma engine_lifecycle_witness :
  exists e errs,
    runCalls [CallStop; CallStart; CallStart; CallStop]
      (Samples.serverEngine StatusStopped ":443") = Some (e, errs) /\
    stopChClosed e = succeeded CallStop [CallStop; CallStart; CallStart; CallStop]
                       errs.
Proof.
  destruct (engine_lifecycle (Samples.serverEngine StatusStopped ":443")
              [CallStop; CallStart; CallStart; CallStop])
    as (e & errs & H & _ & _ & _ & Hc & _).
  - left. exists stubLoader, (Some (Samples.server ":443" [])). reflexivity.
  - exists e, errs. split; assumption.
Defined.

End EngineLifecycle.

(** ** More about the rotation controllers *)

Section RotationMore.

Import Rotation.

Local Arguments String.append : simpl nomatch.

Lemma removeFirst_split id l rest :
  removeFirst id l = Some rest ->
  exists before e after,
    l = before ++ e :: after /\ ID e = id /\ unknownID id before /\
    rest = before ++ after.
Proof.
  revert rest. induction l as [|x l IH]; intros rest H; cbn in H; [discriminate|].
  destruct (String.eqb_spec (ID x) id) as [Hx|Hx].
  - injection H as <-. exists [], x, l. repeat split; [exact Hx | constructor].
  - destruct (removeFirst id l) as [r|] eqn:Hr; [|discriminate].
    injection H as <-. destruct (IH r eq_refl) as (b & e & a & -> & He & Hb & ->).
    exists (x :: b), e, a. repeat split; [exact He | now constructor].
Qed.


Lemma Retire_counter c ep : counter (fst (Retire c ep)) = counter c.
Proof. unfold Retire. now destruct (removeFirst (ID ep) (endpoints c)). Qed.

(** X17: [NoOpController.Retire] returns no error exactly when
    an endpoint of the list has the identifier; it then removes the first
    such endpoint and keeps the others in order.  On the error the
    controller is unchanged; the counter is never changed. *)
Theorem Retire_removes_first (c : NoOpController) (ep : Endpoint) :
  (snd (Retire c ep) = None <-> ~ unknownID (ID ep) (endpoints c)) /\
  (snd (Retire c ep) = None ->
   exists before e after,
     endpoints c = before ++ e :: after /\ ID e = ID ep /\
     unknownID (ID ep) before /\
     endpoints (fst (Retire c ep)) = before ++ after) /\
  (snd (Retire c ep) <> None -> fst (Retire c ep) = c) /\
  counter (fst (Retire c ep)) = counter c.
Proof.
  unfold Retire.
  destruct (removeFirst (ID ep) (endpoints c)) as [rest|] eqn:Hr; cbn [fst snd].
  - destruct (removeFirst_split _ _ _ Hr) as (b & e & a & Hl & He & Hb & ->).
    repeat split; try congruence.
    + intros _ Hu. rewrite (removeFirst_unknown _ _ Hu) in Hr. discriminate.
    + intros _. exists b, e, a. now repeat split.
  - repeat split; try congruence; try discriminate.
    + intros Hn. exfalso. destruct (removeFirst_known _ _ Hn) as (r & Hk). congruence.
Qed.

Lemma Retire_removes_first_witness :
  let c := fst (Rotate 0 0 (fst (Rotate 0 0 NewNoOpController))) in
  exists before e after,
    endpoints c = before ++ e :: after /\ ID e = "noop-1" /\
    unknownID "noop-1" before /\
    endpoints (fst (Retire c (Samples.endpoint "noop-1" "other"))) = before ++ after.
Proof.
  cbv zeta.
  apply (proj1 (proj2 (Retire_removes_first
                         (fst (Rotate 0 0 (fst (Rotate 0 0 NewNoOpController))))
                         (Samples.endpoint "noop-1" "other")))).
  reflexivity.
Defined.

(** What [Rotate] and [Retire] keep true of a controller that was
    created empty: the counter has not wrapped, every identifier was
    made from a counter value already used, and no identifier occurs
    twice. *)
Lemma noop_id_inj a b :
  ("noop-" ++ GoStr.Itoa a)%string = ("noop-" ++ GoStr.Itoa b)%string -> a = b.
Proof. cbn. intros [= H]. now apply Itoa_inj. Qed.

Lemma removeFirst_Forall (P : Endpoint -> Prop) id l rest :
  removeFirst id l = Some rest -> Forall P l -> Forall P rest.
Proof.
  intros H HF. destruct (removeFirst_split _ _ _ H) as (b & e & a & -> & _ & _ & ->).
  apply Forall_app in HF as [Hb Ha]. apply Forall_cons in Ha as [_ Ha].
  now apply Forall_app.
Qed.

Lemma removeFirst_NoDup id l rest :
  removeFirst id l = Some rest ->
  List.NoDup (map ID l) -> List.NoDup (map ID rest).
Proof.
  intros H Hnd. destruct (removeFirst_split _ _ _ H) as (b & e & a & -> & _ & _ & ->).
  rewrite map_app in *. cbn [map] in Hnd.
  now apply List.NoDup_remove_1 in Hnd.
Qed.

Lemma Rotate_fresh t1 t2 c :
  0 <= counter c < GoInt.max_int ->
  counter (fst (Rotate t1 t2 c)) = counter c + 1 /\
  endpoints (fst (Rotate t1 t2 c)) = endpoints c ++ [snd (Rotate t1 t2 c)] /\
  ID (snd (Rotate t1 t2 c)) = ("noop-" ++ GoStr.Itoa (counter c + 1))%string /\
  Address (snd (Rotate t1 t2 c))
  = ("127.0.0.1:" ++ GoStr.Itoa (GoInt.add 10000 (counter c + 1)))%string.
Proof.
  intros H. unfold Rotate. cbn [fst snd counter endpoints ID Address].
  assert (E : GoInt.add (counter c) 1 = counter c + 1).
  { unfold GoInt.add. apply wrap_small.
    unfold GoInt.min_int, GoInt.max_int in *. lia. }
  rewrite !E. repeat split.
Qed.

Lemma Retire_keeps (P : Endpoint -> Prop) c ep :
  (Forall P (endpoints c) -> Forall P (endpoints (fst (Retire c ep)))) /\
  (List.NoDup (map ID (endpoints c)) ->
   List.NoDup (map ID (endpoints (fst (Retire c ep))))).
Proof.
  unfold Retire.
  destruct (removeFirst (ID ep) (endpoints c)) as [rest|] eqn:Hr;
    cbn [fst endpoints]; [|tauto].
  split; [now apply (removeFirst_Forall P _ _ _ Hr)
         | now apply (removeFirst_NoDup _ _ _ Hr)].
Qed.

Lemma runNoOp_invariant calls : forall c,
  0 <= counter c ->
  counter c + Z.of_nat (rotations calls) <= GoInt.max_int ->
  Forall (fun ep => exists k, 1 <= k <= counter c /\
                    ID ep = ("noop-" ++ GoStr.Itoa k)%string) (endpoints c) ->
  List.NoDup (map ID (endpoints c)) ->
  counter (runNoOp calls c) = counter c + Z.of_nat (rotations calls) /\
  Forall (fun ep => exists k, 1 <= k <= counter (runNoOp calls c) /\
                    ID ep = ("noop-" ++ GoStr.Itoa k)%string)
         (endpoints (runNoOp calls c)) /\
  List.NoDup (map ID (endpoints (runNoOp calls c))).
Proof.
  induction calls as [|call calls IH]; intros c H0 Hmax Hall Hnd.
  - cbn. split; [lia | now split].
  - destruct call as [t1 t2|ep]; cbn [runNoOp rotations] in *.
    + destruct (Rotate_fresh t1 t2 c) as (Hc & He & Hid & _); [lia|].
      destruct (Rotate t1 t2 c) as [c1 ep1]. cbn [fst snd] in *.
      assert (Hfresh : ~ In (ID ep1) (map ID (endpoints c))).
      { intros Hx. apply in_map_iff in Hx as (e & Heq & Hin).
        rewrite List.Forall_forall in Hall.
        destruct (Hall e Hin) as (k & Hk & Hidk). rewrite Hidk, Hid in Heq.
        apply noop_id_inj in Heq. lia. }
      destruct (IH c1) as (H1 & H2 & H3).
      * lia.
      * lia.
      * rewrite He, Hc. apply Forall_app. split.
        -- eapply List.Forall_impl; [|exact Hall].
           intros e (k & Hk & Hek). exists k. split; [lia | exact Hek].
        -- constructor; [|constructor].
           exists (counter c + 1). split; [lia | exact Hid].
      * rewrite He, map_app. cbn [map].
        apply NoDup_ListNoDup, NoDup_app.
        split; [now apply NoDup_ListNoDup|]. split; [|apply NoDup_singleton].
        intros x Hx Hk. apply list_elem_of_singleton in Hk. subst x.
        apply list_elem_of_In in Hx. now apply Hfresh.
      * split; [lia|]. split; assumption.
    + pose proof (Retire_counter c ep) as Hc.
      destruct (IH (fst (Retire c ep))) as (H1 & H2 & H3).
      * lia.
      * lia.
      * rewrite Hc. now apply Retire_keeps.
      * now apply (Retire_keeps (fun _ => True)).
      * split; [lia|]. split; assumption.
Qed.

(** X18: after any sequence of [Rotate] and [Retire] calls
    on a new [NoOpController] (no more rotations than the largest [int]),
    the counter is the number of rotations, the endpoints listed have
    pairwise distinct identifiers, and each identifier is "noop-" and a
    number between 1 and the counter. *)
Theorem noop_identifiers_distinct (calls : list NoOpCall) :
  Z.of_nat (rotations calls) <= GoInt.max_int ->
  let c := runNoOp calls NewNoOpController in
  counter c = Z.of_nat (rotations calls) /\
  List.NoDup (map ID (endpoints c)) /\
  Forall (fun ep => exists k, 1 <= k <= counter c /\
                    ID ep = ("noop-" ++ GoStr.Itoa k)%string) (endpoints c).
Proof.
  intros Hmax. cbv zeta.
  destruct (runNoOp_invariant calls NewNoOpController) as (H1 & H2 & H3);
    cbn [counter endpoints NewNoOpController map]; try lia;
    [constructor | constructor |].
  cbn [counter NewNoOpController] in H1. repeat split; try assumption; lia.
Qed.

Lemma noop_identifiers_distinct_witness :
  let c := runNoOp [CallRotate 0 0; CallRotate 1 1;
                    CallRetire (Samples.endpoint "noop-1" "noop");
                    CallRotate 2 2] NewNoOpController in
  counter c = 3 /\ List.NoDup (map ID (endpoints c)).
Proof.
  cbv zeta.
  destruct (noop_identifiers_distinct
              [CallRotate 0 0; CallRotate 1 1;
               CallRetire (Samples.endpoint "noop-1" "noop"); CallRotate 2 2])
    as (H1 & H2 & _); [vm_compute; discriminate|].
  split; [exact H1 | exact H2].
Defined.

Lemma removeFirst_last id l e :
  unknownID id l -> ID e = id -> removeFirst id (l ++ [e]) = Some l.
Proof.
  intros Hu He. induction l as [|x l IH]; cbn.
  - now rewrite (proj2 (String.eqb_eq _ _) He).
  - apply Forall_cons in Hu as [Hx Hu].
    rewrite (proj2 (String.eqb_neq _ _) Hx), (IH Hu). reflexivity.
Qed.

(** X19: on a controller reached by such calls, the endpoint
    [Rotate] returns has an identifier no listed endpoint has; retiring
    it at once succeeds and restores the list, while the counter stays
    advanced by one. *)
Theorem Rotate_then_Retire (calls : list NoOpCall) (t1 t2 : Z) :
  Z.of_nat (rotations calls) < GoInt.max_int ->
  let c := runNoOp calls NewNoOpController in
  let ep := snd (Rotate t1 t2 c) in
  unknownID (ID ep) (endpoints c) /\
  snd (Retire (fst (Rotate t1 t2 c)) ep) = None /\
  endpoints (fst (Retire (fst (Rotate t1 t2 c)) ep)) = endpoints c /\
  counter (fst (Retire (fst (Rotate t1 t2 c)) ep)) = counter c + 1.
Proof.
  intros Hmax. cbv zeta.
  destruct (runNoOp_invariant calls NewNoOpController) as (H1 & H2 & H3);
    cbn [counter endpoints NewNoOpController map]; try lia;
    [constructor | constructor |].
  cbn [counter NewNoOpController] in H1.
  set (c := runNoOp calls NewNoOpController) in *.
  destruct (Rotate_fresh t1 t2 c) as (Hc & He & Hid & _); [lia|].
  assert (Hu : unknownID (ID (snd (Rotate t1 t2 c))) (endpoints c)).
  { unfold unknownID. eapply List.Forall_impl; [|exact H2].
    intros e (k & Hk & Hek) Heq. rewrite Hek, Hid in Heq.
    apply noop_id_inj in Heq. lia. }
  split; [exact Hu|].
  rewrite Retire_counter, Hc. unfold Retire.
  rewrite He, (removeFirst_last _ _ _ Hu eq_refl). cbn [fst snd endpoints].
  repeat split.
Qed.

Lemma Rotate_then_Retire_witness :
  endpoints (fst (Retire (fst (Rotate 5 5 (runNoOp [CallRotate 0 0] NewNoOpController)))
                    (snd (Rotate 5 5 (runNoOp [CallRotate 0 0] NewNoOpController)))))
  = endpoints (runNoOp [CallRotate 0 0] NewNoOpController).
Proof.
  destruct (Rotate_then_Retire [CallRotate 0 0] 5 5) as (_ & _ & H & _);
    [vm_compute; reflexivity | exact H].
Defined.

(** X20: [ActiveEndpoints] lists exactly the endpoints whose
    expiry time is not before the clock reading, so a later reading lists
    no more; an endpoint just made by [Rotate] is listed for one hour
    from the reading its expiry was computed from; after [Retire] the
    active endpoints are those of the list [Retire] leaves. *)
Theorem ActiveEndpoints_spec (now : Z) (c : NoOpController) :
  (forall ep, In ep (ActiveEndpoints now c) <->
              In ep (endpoints c) /\ now <= ExpiresAt ep) /\
  (forall later, now <= later ->
     incl (ActiveEndpoints later c) (ActiveEndpoints now c)) /\
  (forall t1 t2, now <= t2 + hour ->
     In (snd (Rotate t1 t2 c)) (ActiveEndpoints now (fst (Rotate t1 t2 c)))) /\
  (forall ep, ActiveEndpoints now (fst (Retire c ep))
              = match removeFirst (ID ep) (endpoints c) with
                | Some rest => List.filter (fun e => negb (IsExpired now e)) rest
                | None => ActiveEndpoints now c
                end).
Proof.
  assert (Hin : forall t ep, In ep (ActiveEndpoints t c) <->
                             In ep (endpoints c) /\ t <= ExpiresAt ep).
  { intros t ep. unfold ActiveEndpoints, IsExpired. rewrite List.filter_In.
    destruct (Z.ltb_spec (ExpiresAt ep) t); cbn; split; intros [? ?];
      split; auto; try lia; discriminate. }
  split; [exact (Hin now)|]. split; [|split].
  - intros later Hl ep Hep. apply Hin in Hep as [H1 H2]. apply Hin. split; [auto | lia].
  - intros t1 t2 Ht. unfold ActiveEndpoints, IsExpired. apply List.filter_In.
    cbn [Rotate fst snd endpoints ExpiresAt]. split.
    + apply in_or_app. right. now left.
    + destruct (Z.ltb_spec (t2 + hour) now); [lia | reflexivity].
  - intros ep. unfold ActiveEndpoints, Retire.
    now destruct (removeFirst (ID ep) (endpoints c)).
Qed.

Lemma ActiveEndpoints_spec_witness :
  In (snd (Rotate 0 0 NewNoOpController))
     (ActiveEndpoints hour (fst (Rotate 0 0 NewNoOpController))).
Proof.
  apply (proj1 (proj2 (proj2 (ActiveEndpoints_spec hour NewNoOpController))) 0 0).
  vm_compute. discriminate.
Defined.

Lemma dropFirst_endpoints id c :
  endpoints (dropFirst id c)
  = match removeFirst id (endpoints c) with
    | Some rest => rest
    | None => endpoints c
    end.
Proof. unfold dropFirst. now destruct (removeFirst id (endpoints c)). Qed.

(** X21: [CloudflareController.Retire] and
    [AWSController.Retire], given an endpoint of their own provider
    whose identifier is listed, return no error and remove the first
    endpoint with that identifier, whether the provider's delete call
    succeeds or fails. *)
Theorem provider_Retire_known (ep : Endpoint) :
  (forall deleteWorker (c : CloudflareController),
     Provider ep = "cloudflare" ->
     ~ unknownID (ID ep) (endpoints (cfBase c)) ->
     snd (CloudflareRetire deleteWorker c ep) = None /\
     exists before e after,
       endpoints (cfBase c) = before ++ e :: after /\ ID e = ID ep /\
       unknownID (ID ep) before /\
       endpoints (cfBase (fst (CloudflareRetire deleteWorker c ep)))
       = before ++ after) /\
  (forall deleteFunction (a : AWSController),
     Provider ep = "aws" ->
     ~ unknownID (ID ep) (endpoints (awsBase a)) ->
     snd (AWSRetire deleteFunction a ep) = None /\
     exists before e after,
       endpoints (awsBase a) = before ++ e :: after /\ ID e = ID ep /\
       unknownID (ID ep) before /\
       endpoints (awsBase (fst (AWSRetire deleteFunction a ep)))
       = before ++ after).
Proof.
  split.
  - intros del c Hp Hk. unfold CloudflareRetire. rewrite Hp.
    cbn [String.eqb Ascii.eqb Bool.eqb andb negb fst snd cfBase].
    split; [reflexivity|].
    destruct (removeFirst_known _ _ Hk) as (rest & Hr).
    destruct (removeFirst_split _ _ _ Hr) as (b & e & a & Hl & He & Hb & ->).
    exists b, e, a. repeat split; try assumption.
    rewrite dropFirst_endpoints.
    destruct (del (ID ep)); cbn [logBase endpoints]; now rewrite Hr.
  - intros del c Hp Hk. unfold AWSRetire. rewrite Hp.
    cbn [String.eqb Ascii.eqb Bool.eqb andb negb fst snd awsBase].
    split; [reflexivity|].
    destruct (removeFirst_known _ _ Hk) as (rest & Hr).
    destruct (removeFirst_split _ _ _ Hr) as (b & e & a & Hl & He & Hb & ->).
    exists b, e, a. repeat split; try assumption.
    rewrite dropFirst_endpoints.
    destruct (del (ID ep)); cbn [logBase endpoints]; now rewrite Hr.
Qed.


Lemma provider_Retire_known_witness :
  let c := fst (CloudflareRotate (fun _ => None) 0 0 0 Samples.cloudflare) in
  snd (CloudflareRetire Samples.failingProvider c
         (Samples.endpoint "entropy-worker-0-1" "cloudflare")) = None.
Proof.
  cbv zeta.
  apply (proj1 (provider_Retire_known
                  (Samples.endpoint "entropy-worker-0-1" "cloudflare"))).
  - reflexivity.
  - vm_compute. intros H. inversion H as [|? ? Hx _]. now apply Hx.
Defined.


Lemma CloudflareRotate_cases (deployWorker : string -> option string)
    (tName t1 t2 : Z) (c : CloudflareController) :
  let name :=
    ("entropy-worker-" ++ GoStr.Itoa (unixSeconds tName) ++ "-"
     ++ GoStr.Itoa (GoInt.add (counter (cfBase c)) 1))%string in
  let r := CloudflareRotate deployWorker tName t1 t2 c in
  counter (cfBase (fst r)) = GoInt.add (counter (cfBase c)) 1 /\
  (forall err, deployWorker name = Some err ->
     snd r = Err (ErrDeployWorker name err) /\
     endpoints (cfBase (fst r)) = endpoints (cfBase c)) /\
  (deployWorker name = None ->
   exists ep,
     snd r = Ok ep /\ endpoints (cfBase (fst r)) = endpoints (cfBase c) ++ [ep] /\
     ID ep = name /\ Address ep = (name ++ ".workers.dev")%string /\
     Provider ep = "cloudflare" /\ ExpiresAt ep = t2 + hour /\
     forall deleteWorker,
       unknownID name (endpoints (cfBase c)) ->
       snd (CloudflareRetire deleteWorker (fst r) ep) = None /\
       endpoints (cfBase (fst (CloudflareRetire deleteWorker (fst r) ep)))
       = endpoints (cfBase c)).
Proof.
  cbv zeta. unfold CloudflareRotate.
  destruct (deployWorker _) as [err|] eqn:Hd; cbn [fst snd cfBase].
  - split; [reflexivity|]. split; [|discriminate].
    intros err' [= <-]. split; reflexivity.
  - split; [reflexivity|]. split; [discriminate|]. intros _.
    eexists. split; [reflexivity|].
    do 5 (split; [reflexivity|]).
    intros deleteWorker Hu.
    unfold CloudflareRetire.
    cbn [Provider String.eqb Ascii.eqb Bool.eqb andb negb fst snd cfBase ID].
    split; [reflexivity|].
    rewrite dropFirst_endpoints.
    match goal with
    | |- context [removeFirst ?id (endpoints ?b)] =>
        assert (Hr : removeFirst id (endpoints b) = Some (endpoints (cfBase c)))
    end.
    { destruct (deleteWorker _); cbn [logBase setBase endpoints];
        now apply removeFirst_last. }
    now rewrite Hr.
Qed.

Lemma AWSRotate_cases (provider : AWSProvider) (tName t1 t2 : Z)
    (a : AWSController) :
  let name :=
    ("entropy-lambda-" ++ GoStr.Itoa (unixSeconds tName) ++ "-"
     ++ GoStr.Itoa (GoInt.add (counter (awsBase a)) 1))%string in
  let r := AWSRotate provider tName t1 t2 a in
  counter (awsBase (fst (fst r))) = GoInt.add (counter (awsBase a)) 1 /\
  (forall err, createFunction provider name = Some err ->
     snd (fst r) = Err (ErrCreateLambda name err) /\
     snd r = [CreateFunction name] /\
     endpoints (awsBase (fst (fst r))) = endpoints (awsBase a)) /\
  (forall err, createFunction provider name = None ->
     createFunctionURL provider name = Err err ->
     snd (fst r) = Err (ErrCreateFunctionURL name err) /\
     snd r = [CreateFunction name; CreateFunctionURL name; DeleteFunction name] /\
     endpoints (awsBase (fst (fst r))) = endpoints (awsBase a)) /\
  (forall url, createFunction provider name = None ->
     createFunctionURL provider name = Ok url ->
     exists ep,
       snd (fst r) = Ok ep /\
       snd r = [CreateFunction name; CreateFunctionURL name] /\
       endpoints (awsBase (fst (fst r))) = endpoints (awsBase a) ++ [ep] /\
       ID ep = name /\ Address ep = url /\ Provider ep = "aws" /\
       Region ep = region a /\ ExpiresAt ep = t2 + hour /\
       forall deleteFn,
         unknownID name (endpoints (awsBase a)) ->
         snd (AWSRetire deleteFn (fst (fst r)) ep) = None /\
         endpoints (awsBase (fst (AWSRetire deleteFn (fst (fst r)) ep)))
         = endpoints (awsBase a)).
Proof.
  cbv zeta. unfold AWSRotate.
  destruct (createFunction provider _) as [err|] eqn:Hc.
  - cbn [fst snd awsBase]. split; [reflexivity|]. split; [|split; discriminate].
    intros err' [= <-]. repeat split.
  - destruct (createFunctionURL provider _) as [url|err] eqn:Hu;
      cbn [fst snd awsBase].
    + split; [reflexivity|]. split; [discriminate|]. split; [discriminate|].
      intros url' _ [= <-]. eexists. split; [reflexivity|].
      do 7 (split; [reflexivity|]).
      intros deleteFn Hun. unfold AWSRetire.
      cbn [Provider String.eqb Ascii.eqb Bool.eqb andb negb fst snd awsBase ID].
      split; [reflexivity|].
      rewrite dropFirst_endpoints.
      match goal with
      | |- context [removeFirst ?id (endpoints ?b)] =>
          assert (Hr : removeFirst id (endpoints b) = Some (endpoints (awsBase a)))
      end.
      { destruct (deleteFn _); cbn [logBase setBase endpoints];
          now apply removeFirst_last. }
      now rewrite Hr.
    + split; [reflexivity|]. split; [discriminate|]. split; [|discriminate].
      intros err' _ [= <-]. repeat split.
Qed.

(** X22: [CloudflareController.Rotate] and
    [AWSController.Rotate] advance the counter on every call, also on a
    failure.  The name is the prefix, the seconds of the clock and the
    counter.  When a provider call fails the error is returned and the
    list is unchanged; AWS deletes the function it has created when the
    function URL cannot be created, and makes no delete call otherwise.
    On success the endpoint (address the worker's ".workers.dev" host or
    the function URL, expiry one hour ahead) is appended, and retiring
    it at once restores the list when no listed endpoint had the
    name. *)
Theorem provider_Rotate_spec (tName t1 t2 : Z) :
  (forall (deployWorker : string -> option string) (c : CloudflareController),
     let name :=
       ("entropy-worker-" ++ GoStr.Itoa (unixSeconds tName) ++ "-"
        ++ GoStr.Itoa (GoInt.add (counter (cfBase c)) 1))%string in
     let r := CloudflareRotate deployWorker tName t1 t2 c in
     counter (cfBase (fst r)) = GoInt.add (counter (cfBase c)) 1 /\
     (forall err, deployWorker name = Some err ->
        snd r = Err (ErrDeployWorker name err) /\
        endpoints (cfBase (fst r)) = endpoints (cfBase c)) /\
     (deployWorker name = None ->
      exists ep,
        snd r = Ok ep /\
        endpoints (cfBase (fst r)) = endpoints (cfBase c) ++ [ep] /\
        ID ep = name /\ Address ep = (name ++ ".workers.dev")%string /\
        Provider ep = "cloudflare" /\ ExpiresAt ep = t2 + hour /\
        forall deleteWorker,
          unknownID name (endpoints (cfBase c)) ->
          snd (CloudflareRetire deleteWorker (fst r) ep) = None /\
          endpoints (cfBase (fst (CloudflareRetire deleteWorker (fst r) ep)))
          = endpoints (cfBase c))) /\
  (forall (provider : AWSProvider) (a : AWSController),
     let name :=
       ("entropy-lambda-" ++ GoStr.Itoa (unixSeconds tName) ++ "-"
        ++ GoStr.Itoa (GoInt.add (counter (awsBase a)) 1))%string in
     let r := AWSRotate provider tName t1 t2 a in
     counter (awsBase (fst (fst r))) = GoInt.add (counter (awsBase a)) 1 /\
     (forall err, createFunction provider name = Some err ->
        snd (fst r) = Err (ErrCreateLambda name err) /\
        snd r = [CreateFunction name] /\
        endpoints (awsBase (fst (fst r))) = endpoints (awsBase a)) /\
     (forall err, createFunction provider name = None ->
        createFunctionURL provider name = Err err ->
        snd (fst r) = Err (ErrCreateFunctionURL name err) /\
        snd r = [CreateFunction name; CreateFunctionURL name;
                 DeleteFunction name] /\
        endpoints (awsBase (fst (fst r))) = endpoints (awsBase a)) /\
     (forall url, createFunction provider name = None ->
        createFunctionURL provider name = Ok url ->
        exists ep,
          snd (fst r) = Ok ep /\
          snd r = [CreateFunction name; CreateFunctionURL name] /\
          endpoints (awsBase (fst (fst r))) = endpoints (awsBase a) ++ [ep] /\
          ID ep = name /\ Address ep = url /\ Provider ep = "aws" /\
          Region ep = region a /\ ExpiresAt ep = t2 + hour /\
          forall deleteFn,
            unknownID name (endpoints (awsBase a)) ->
            snd (AWSRetire deleteFn (fst (fst r)) ep) = None /\
            endpoints (awsBase (fst (AWSRetire deleteFn (fst (fst r)) ep)))
            = endpoints (awsBase a))).
Proof.
  split.
  - intros deployWorker c. apply CloudflareRotate_cases.
  - intros provider a. apply AWSRotate_cases.
Qed.

Lemma provider_Rotate_spec_witness :
  (exists ep,
     snd (CloudflareRotate (fun _ => None) 1700000000000000000 0 0
            Samples.cloudflare) = Ok ep /\
     ID ep = "entropy-worker-1700000000-1") /\
  snd (AWSRotate {| createFunction := fun _ => None;
                    createFunctionURL := fun _ => Err "timeout";
                    deleteFunction := fun _ => None |}
         1700000000000000000 0 0 Samples.aws)
  = [CreateFunction "entropy-lambda-1700000000-1";
     CreateFunctionURL "entropy-lambda-1700000000-1";
     DeleteFunction "entropy-lambda-1700000000-1"].
Proof.
  destruct (provider_Rotate_spec 1700000000000000000 0 0) as [Hcf Haws]. split.
  - destruct (proj2 (proj2 (Hcf (fun _ => None) Samples.cloudflare)) eq_refl)
      as (ep & H1 & _ & H2 & _).
    exists ep. split; [exact H1 | exact H2].
  - destruct (proj1 (proj2 (proj2 (Haws
                {| createFunction := fun _ => None;
                   createFunctionURL := fun _ => Err "timeout";
                   deleteFunction := fun _ => None |} Samples.aws)))
                "timeout" eq_refl eq_refl) as (_ & H & _).
    exact H.
Defined.

(** Running the goroutines a tick has started. *)
Lemma removeFirst_skip x id acc :
  ID x <> id ->
  match removeFirst id (x :: acc) with Some r => r | None => x :: acc end
  = x :: match removeFirst id acc with Some r => r | None => acc end.
Proof.
  intros Hx. cbn. rewrite (proj2 (String.eqb_neq _ _) Hx).
  now destruct (removeFirst id acc).
Qed.

Lemma endpoints_runRetire ep c :
  endpoints (runRetire ep c)
  = match removeFirst (ID ep) (endpoints c) with
    | Some r => r
    | None => endpoints c
    end.
Proof.
  unfold runRetire, Retire. now destruct (removeFirst (ID ep) (endpoints c)).
Qed.

Local Abbreviation dropAll sp l :=
  (fold_left (fun acc ep => match removeFirst (ID ep) acc with
                            | Some r => r
                            | None => acc
                            end) sp l).

Lemma endpoints_fold_runRetire sp : forall c,
  endpoints (fold_left (fun c ep => runRetire ep c) sp c)
  = dropAll sp (endpoints c).
Proof.
  induction sp as [|ep sp IH]; intros c; [reflexivity|].
  cbn [fold_left]. now rewrite IH, endpoints_runRetire.
Qed.

Lemma dropAll_skip x sp : forall l,
  ~ In (ID x) (map ID sp) ->
  dropAll sp (x :: l) = x :: dropAll sp l.
Proof.
  induction sp as [|ep sp IH]; intros l Hn; [reflexivity|].
  cbn [fold_left map In] in *.
  assert (Hx : ID x <> ID ep) by (intros E; apply Hn; left; now symmetry).
  rewrite (removeFirst_skip x (ID ep) l Hx). apply IH. tauto.
Qed.

Lemma dropAll_filter (P : Endpoint -> bool) l :
  List.NoDup (map ID l) ->
  dropAll (List.filter P l) l = List.filter (fun ep => negb (P ep)) l.
Proof.
  induction l as [|x l IH]; intros Hnd; [reflexivity|].
  cbn [List.filter map] in *. apply List.NoDup_cons_iff in Hnd as [Hx Hnd].
  destruct (P x) eqn:Hp; cbn [negb fold_left].
  - cbn [removeFirst]. rewrite String.eqb_refl. now apply IH.
  - rewrite dropAll_skip.
    + f_equal. now apply IH.
    + intros Hin. apply Hx. apply in_map_iff in Hin as (e & He & Hin).
      apply List.filter_In in Hin as [Hin _]. apply in_map_iff. eauto.
Qed.

(** X23: on a controller reached by [Rotate] and
    [Retire] calls on a new one, once the [Retire] goroutines a tick of
    the auto-rotation has started have run, the list is the list of the
    tick without its expired endpoints: none expired is left, and
    [ActiveEndpoints] at the reading of the scan returns the whole
    list. *)
Theorem autoRotation_retires_all_expired (calls : list NoOpCall)
    (tRotate tScan : Z) :
  Z.of_nat (rotations calls) < GoInt.max_int ->
  let c := runNoOp calls NewNoOpController in
  let tick := autoRotationTick tRotate tScan c in
  let after := fold_left (fun c ep => runRetire ep c) (snd tick) (fst tick) in
  endpoints after
  = List.filter (fun ep => negb (IsExpired tScan ep)) (endpoints (fst tick)) /\
  Forall (fun ep => tScan <= ExpiresAt ep) (endpoints after) /\
  ActiveEndpoints tScan after = endpoints after.
Proof.
  intros Hmax. cbv zeta.
  destruct (runNoOp_invariant (calls ++ [CallRotate tRotate tRotate])
              NewNoOpController) as (_ & _ & Hnd);
    cbn [counter endpoints NewNoOpController map]; try lia;
    [| constructor | constructor |].
  { assert (rotations (calls ++ [CallRotate tRotate tRotate])
            = S (rotations calls)).
    { clear. induction calls as [|[|] calls IH]; cbn; congruence. }
    lia. }
  assert (Hrun : runNoOp (calls ++ [CallRotate tRotate tRotate]) NewNoOpController
                 = fst (Rotate tRotate tRotate (runNoOp calls NewNoOpController))).
  { clear. generalize NewNoOpController.
    induction calls as [|[a b|e] calls IH]; intros c0;
      cbn [runNoOp app]; auto. }
  rewrite Hrun in Hnd.
  unfold autoRotationTick.
  destruct (Rotate tRotate tRotate (runNoOp calls NewNoOpController))
    as [c1 ep1] eqn:Hrot. cbn [fst snd] in *.
  assert (Hmain : endpoints (fold_left (fun c ep => runRetire ep c)
                               (List.filter (IsExpired tScan) (endpoints c1)) c1)
                  = List.filter (fun ep => negb (IsExpired tScan ep)) (endpoints c1)).
  { rewrite endpoints_fold_runRetire. now apply dropAll_filter. }
  split; [exact Hmain|].
  assert (Hall : Forall (fun ep => tScan <= ExpiresAt ep)
                   (List.filter (fun ep => negb (IsExpired tScan ep)) (endpoints c1))).
  { apply List.Forall_forall. intros ep Hin. apply List.filter_In in Hin as [_ Hp].
    unfold IsExpired in Hp. destruct (Z.ltb_spec (ExpiresAt ep) tScan);
      [discriminate | lia]. }
  split; [now rewrite Hmain|].
  unfold ActiveEndpoints. rewrite Hmain.
  clear -Hall. induction Hall as [|ep l Hep _ IH]; [reflexivity|].
  cbn [List.filter]. unfold IsExpired at 1.
  destruct (Z.ltb_spec (ExpiresAt ep) tScan); [lia|]. cbn [negb]. now f_equal.
Qed.

Lemma autoRotation_retires_all_expired_witness :
  let tick := autoRotationTick (2 * hour) (2 * hour)
                (runNoOp [CallRotate 0 0] NewNoOpController) in
  Forall (fun ep => 2 * hour <= ExpiresAt ep)
    (endpoints (fold_left (fun c ep => runRetire ep c) (snd tick) (fst tick))).
Proof.
  cbv zeta.
  destruct (autoRotation_retires_all_expired [CallRotate 0 0] (2 * hour) (2 * hour))
    as (_ & H & _); [vm_compute; reflexivity | exact H].
Defined.

End RotationMore.

(** ** More about the health monitor *)

Section MonitorMore.

Import Rotation.

Lemma checkEndpoint_id hc env ep : EndpointID (checkEndpoint hc env ep) = ID ep.
Proof. unfold checkEndpoint. now destruct (probeOutcome env ep). Qed.

Lemma checkAll_results probes : forall hc id,
  (~ In id (map (fun p => ID (fst p)) probes) ->
   results (fst (checkAll probes hc)) !! id = results hc !! id) /\
  (is_Some (results (fst (checkAll probes hc)) !! id) <->
   is_Some (results hc !! id) \/ In id (map (fun p => ID (fst p)) probes)) /\
  ((forall i r, results hc !! i = Some r -> EndpointID r = i) ->
   forall i r, results (fst (checkAll probes hc)) !! i = Some r ->
               EndpointID r = i).
Proof.
  induction probes as [|[ep env] probes IH]; intros hc id.
  - cbn. repeat split; tauto.
  - cbn [checkAll map fst In].
    pose proof (checkOne_results env hc ep) as H1.
    destruct (checkOne env hc ep) as [hc1 started] eqn:Hone. cbn [fst] in H1.
    destruct (IH hc1 id) as (IHa & IHb & _).
    pose proof (fun i => proj2 (proj2 (IH hc1 i))) as IHc.
    destruct (checkAll probes hc1) as [hc2 more] eqn:Hall. cbn [fst] in *.
    split; [|split].
    + intros Hnin. rewrite IHa by tauto.
      rewrite H1, lookup_insert_ne by tauto. reflexivity.
    + rewrite IHb, H1. destruct (decide (ID ep = id)) as [->|Hne].
      * rewrite lookup_insert_eq. split; [tauto | intros _; left; eauto].
      * rewrite lookup_insert_ne by exact Hne. tauto.
    + intros Hinv. apply (IHc id). intros i r. rewrite H1.
      destruct (decide (ID ep = i)) as [<-|Hne].
      * rewrite lookup_insert_eq. intros [= <-]. apply checkEndpoint_id.
      * rewrite lookup_insert_ne by exact Hne. apply Hinv.
Qed.

Lemma runRounds_results rounds : forall hc id,
  (~ In id (probedIDs rounds) ->
   results (fst (runRounds rounds hc)) !! id = results hc !! id) /\
  (is_Some (results (fst (runRounds rounds hc)) !! id) <->
   is_Some (results hc !! id) \/ In id (probedIDs rounds)) /\
  ((forall i r, results hc !! i = Some r -> EndpointID r = i) ->
   forall i r, results (fst (runRounds rounds hc)) !! i = Some r ->
               EndpointID r = i).
Proof.
  unfold probedIDs.
  induction rounds as [|probes rounds IH]; intros hc id.
  - cbn. repeat split; tauto.
  - cbn [runRounds concat]. rewrite map_app, in_app_iff.
    destruct (checkAll_results probes hc id) as (Ca & Cb & _).
    pose proof (fun i => proj2 (proj2 (checkAll_results probes hc i))) as Cc.
    destruct (checkAll probes hc) as [hc1 started]. cbn [fst] in *.
    destruct (IH hc1 id) as (IHa & IHb & _).
    pose proof (fun i => proj2 (proj2 (IH hc1 i))) as IHc.
    destruct (runRounds rounds hc1) as [hc2 more]. cbn [fst] in *.
    split; [|split].
    + intros Hnin. rewrite IHa, Ca by tauto. reflexivity.
    + rewrite IHb, Cb. tauto.
    + intros Hinv. apply (IHc id). now apply (Cc id).
Qed.

(** X24: rounds of [checkAll] change the result table only at the
    identifiers of the endpoints probed: the other entries are kept, an
    entry exists exactly when it existed before or the identifier has
    been probed, and every result is stored under its own
    [EndpointID] (from a new checker, under an identifier probed). *)
Theorem monitor_results (rounds : list (list (Endpoint * ProbeEnv)))
    (hc : HealthChecker) :
  let hc' := fst (runRounds rounds hc) in
  (forall id, ~ In id (probedIDs rounds) ->
              results hc' !! id = results hc !! id) /\
  (forall id, is_Some (results hc' !! id) <->
              is_Some (results hc !! id) \/ In id (probedIDs rounds)) /\
  ((forall id r, results hc !! id = Some r -> EndpointID r = id) ->
   forall id r, results hc' !! id = Some r -> EndpointID r = id) /\
  (hc = NewHealthChecker ->
   forall id r, results hc' !! id = Some r ->
                EndpointID r = id /\ In id (probedIDs rounds)).
Proof.
  cbv zeta. split; [|split; [|split]].
  - intros id. apply runRounds_results.
  - intros id. apply runRounds_results.
  - intros Hinv id. now apply (proj2 (proj2 (runRounds_results rounds hc id))).
  - intros -> id r Hr. split.
    + revert Hr. apply (proj2 (proj2 (runRounds_results rounds NewHealthChecker id))).
      intros i r'. cbn. now rewrite lookup_empty.
    + destruct (proj1 (proj1 (proj2 (runRounds_results rounds NewHealthChecker id))))
        as [[x Hx]|Hin]; [eauto | | exact Hin].
      cbn in Hx. now rewrite lookup_empty in Hx.
Qed.

Lemma monitor_results_witness :
  results (fst (runRounds Samples.deadRounds NewHealthChecker)) !! "noop-2"
  = results NewHealthChecker !! "noop-2".
Proof.
  apply (proj1 (monitor_results Samples.deadRounds NewHealthChecker)).
  vm_compute. intros [H|[H|[H|[]]]]; discriminate H.
Defined.

(** X25: the goroutine the monitor starts for an endpoint that
    has failed three times (retire it, then rotate) advances the counter
    by one and leaves a fresh endpoint at the end of the list; the length
    of the list is kept when the identifier was listed and grows by one
    when it was not. *)
Theorem monitor_task_effect (t1 t2 : Z) (ep : Endpoint) (c : NoOpController) :
  let c' := runTask t1 t2 (RetireThenRotate ep) c in
  counter c' = GoInt.add (counter c) 1 /\
  (exists new,
     last (endpoints c') = Some new /\ ExpiresAt new = t2 + hour /\
     Provider new = "noop") /\
  (~ unknownID (ID ep) (endpoints c) ->
   length (endpoints c') = length (endpoints c)) /\
  (unknownID (ID ep) (endpoints c) ->
   length (endpoints c') = S (length (endpoints c))).
Proof.
  cbv zeta. unfold runTask. cbn [Rotate fst endpoints counter].
  rewrite Retire_counter. split; [reflexivity|]. split; [|split].
  - eexists. rewrite last_snoc. repeat split.
  - intros Hk. rewrite length_app. cbn [length].
    destruct (removeFirst_known _ _ Hk) as (rest & Hr).
    unfold Retire. rewrite Hr. cbn [fst endpoints].
    apply removeFirst_length in Hr. lia.
  - intros Hu. rewrite length_app. cbn [length].
    unfold Retire. rewrite (removeFirst_unknown _ _ Hu). cbn [fst]. lia.
Qed.

Lemma monitor_task_effect_witness :
  length (endpoints (runTask 0 0 (RetireThenRotate (Samples.endpoint "ghost" "noop"))
                       NewNoOpController)) = 1%nat.
Proof.
  apply (proj2 (proj2 (proj2 (monitor_task_effect 0 0
           (Samples.endpoint "ghost" "noop") NewNoOpController)))).
  constructor.
Defined.

End MonitorMore.

(** ** More about the control surface *)

Section ApiMore.

Import Tunnel Api.

Lemma statusEqb_refl_running s :
  statusEqb s StatusRunning = true <-> s = StatusRunning.
Proof. apply statusEqb_eq. Qed.

(** X26: while the [connected] flag of the API server agrees with
    the engine ("running" or not), [handleConnect] and
    [handleDisconnect] keep it so.  [handleConnect] answers 409 exactly
    when the engine is running, 200 leaves it running with the start
    time set, 500 leaves it in "error" and not connected;
    [handleDisconnect] answers 200 exactly when the engine is running and
    then leaves it stopped with the start time cleared, 409 otherwise;
    [handleStatus] then reports the flag. *)
Theorem api_flag_in_sync (now : Z) (s : Server) :
  inSync s ->
  (forall s' resp,
     handleConnect now s = Some (s', resp) ->
     inSync s' /\
     (responseCode resp = StatusConflict <-> status (engine s) = StatusRunning) /\
     (responseCode resp = StatusOK ->
      status (engine s') = StatusRunning /\ startTime s' = Some now) /\
     (responseCode resp = StatusInternalServerError ->
      status (engine s') = StatusError /\ connected s' = false)) /\
  (let '(s', resp) := handleDisconnect s in
   inSync s' /\
   (responseCode resp = StatusConflict <-> status (engine s) <> StatusRunning) /\
   (responseCode resp = StatusOK <-> status (engine s) = StatusRunning) /\
   (responseCode resp = StatusOK ->
    status (engine s') = StatusStopped /\ startTime s' = None)) /\
  (exists r, handleStatus now s = WriteStatus r /\ Connected r = connected s).
Proof.
  unfold inSync, Status. intros Hsync. split; [|split].
  - intros s' resp. unfold handleConnect.
    destruct (connected s) eqn:Hc.
    + intros [= <- <-]. pose proof Hsync as Hrun. symmetry in Hrun.
      apply statusEqb_eq in Hrun. cbn [responseCode].
      split; [now rewrite Hc|]. split; [tauto|]. split; discriminate.
    + pose proof Hsync as Hrun. symmetry in Hrun. apply statusEqb_running in Hrun.
      destruct (Start (engine s)) as [[e err]|] eqn:Hstart; [|discriminate].
      pose proof (Start_result _ _ _ Hstart) as Ho.
      destruct err as [err|]; intros [= <- <-]; cbn [responseCode engine
        connected setEngine startTime].
      * assert (Hs : status e = StatusError).
        { destruct err; try contradiction; tauto. }
        rewrite Hc, Hs.
        split; [reflexivity|]. split; [split; [discriminate | tauto]|].
        split; [discriminate | auto].
      * destruct Ho as (_ & Hs & _). rewrite Hs.
        split; [reflexivity|]. split; [split; [discriminate | tauto]|].
        split; [auto | discriminate].
  - unfold handleDisconnect. destruct (connected s) eqn:Hc; cbn [negb].
    + pose proof Hsync as Hrun. symmetry in Hrun. apply statusEqb_eq in Hrun.
      destruct (Stop_running (engine s) Hrun) as (e' & Hstop & Hs & _).
      rewrite Hstop. cbn [responseCode engine connected startTime].
      rewrite Hs.
      split; [reflexivity|]. split; [split; [discriminate | tauto]|].
      split; [tauto | auto].
    + pose proof Hsync as Hrun. symmetry in Hrun. apply statusEqb_running in Hrun.
      cbn [responseCode].
      split; [now rewrite Hc|]. split; [tauto|].
      split; [split; [discriminate | tauto] | discriminate].
  - eexists. split; [reflexivity|]. cbn [Connected]. now rewrite Hsync.
Qed.

Lemma api_flag_in_sync_witness :
  exists r,
    handleStatus 0 (NewServer "127.0.0.1:9876"
                      (Samples.serverEngine StatusStopped ":443")) = WriteStatus r /\
    Connected r = false.
Proof.
  apply (proj2 (proj2 (api_flag_in_sync 0
           (NewServer "127.0.0.1:9876" (Samples.serverEngine StatusStopped ":443"))
           eq_refl))).
Defined.

Lemma pow1024_pos k : 0 <= k -> 0 < 1024 ^ k.
Proof. intros. apply Z.pow_pos_nonneg; lia. Qed.

Lemma pow1024_succ k : 0 <= k -> 1024 ^ (k + 1) = 1024 ^ k * 1024.
Proof. intros. rewrite Z.pow_add_r by lia. reflexivity. Qed.

Lemma formatLoop_spec b (Hb : b <= GoInt.max_int) (m : nat) : forall fuel k,
  (m < fuel)%nat -> 0 <= k ->
  1024 ^ (k + 1) <= b ->
  b / 1024 ^ (k + 1) < 1024 ^ Z.of_nat m ->
  exists k',
    formatLoop fuel (b / 1024 ^ (k + 1)) (1024 ^ (k + 1)) k
    = Some (1024 ^ (k' + 1), k') /\
    k <= k' /\ 1024 ^ (k' + 1) <= b < 1024 * 1024 ^ (k' + 1).
Proof.
  induction m as [|m IH]; intros fuel k Hf Hk Hdiv Hn.
  - exfalso. cbn in Hn.
    assert (0 < 1024 ^ (k + 1)) by (apply pow1024_pos; lia).
    assert (1 <= b / 1024 ^ (k + 1)) by (apply Z.div_le_lower_bound; lia).
    lia.
  - destruct fuel as [|fuel]; [lia|]. cbn [formatLoop].
    assert (Hp : 0 < 1024 ^ (k + 1)) by (apply pow1024_pos; lia).
    destruct (Z.leb_spec 1024 (b / 1024 ^ (k + 1))) as [Hge|Hlt].
    + assert (Hdiv' : 1024 ^ (k + 1 + 1) <= b).
      { rewrite (pow1024_succ (k + 1)) by lia.
        pose proof (Z.mul_div_le b (1024 ^ (k + 1)) Hp) as Hm.
        assert (1024 ^ (k + 1) * 1024 <= 1024 ^ (k + 1) * (b / 1024 ^ (k + 1)))
          by (apply Z.mul_le_mono_nonneg_l; lia).
        lia. }
      assert (Hw : GoInt.wrap (1024 ^ (k + 1) * 1024) = 1024 ^ (k + 1 + 1)).
      { rewrite <- (pow1024_succ (k + 1)) by lia. apply wrap_small.
        unfold GoInt.min_int, GoInt.max_int in *.
        assert (0 < 1024 ^ (k + 1 + 1)) by (apply pow1024_pos; lia). lia. }
      assert (Hk6 : k + 1 + 1 <= 6).
      { destruct (Z.le_gt_cases (k + 1 + 1) 6) as [|Hgt]; [assumption|].
        exfalso. assert (1024 ^ 7 <= 1024 ^ (k + 1 + 1))
          by (apply Z.pow_le_mono_r; lia).
        unfold GoInt.max_int in Hb. change (1024 ^ 7) with 1180591620717411303424 in *.
        change (2 ^ 63) with 9223372036854775808 in Hb. lia. }
      assert (He : GoInt.add k 1 = k + 1).
      { unfold GoInt.add. apply wrap_small.
        unfold GoInt.min_int, GoInt.max_int.
        change (2 ^ 63) with 9223372036854775808. lia. }
      rewrite Hw, He.
      assert (Hnn : b / 1024 ^ (k + 1) / 1024 = b / 1024 ^ (k + 1 + 1)).
      { rewrite Z.div_div by lia. now rewrite <- pow1024_succ by lia. }
      rewrite Hnn.
      destruct (IH fuel (k + 1)) as (k' & Hr & Hk' & Hbound); try lia.
      * rewrite <- Hnn. apply Z.div_lt_upper_bound; [lia|].
        replace (Z.of_nat (S m)) with (Z.of_nat m + 1) in Hn by lia.
        rewrite (pow1024_succ (Z.of_nat m)) in Hn by lia. lia.
      * exists k'. split; [exact Hr|]. split; [lia | exact Hbound].
    + exists k. split; [reflexivity|]. split; [lia|]. split; [exact Hdiv|].
      assert (Hq : 1024 ^ (k + 1) * (b / 1024 ^ (k + 1)) <= 1024 ^ (k + 1) * 1023)
        by (apply Z.mul_le_mono_nonneg_l; lia).
      pose proof (Z.mod_pos_bound b (1024 ^ (k + 1)) Hp).
      pose proof (Z.div_mod b (1024 ^ (k + 1))). lia.
Qed.

(** X27: [FormatBytes] of an [int64] below 1024 is the decimal text
    and " B".  From 1024 on, the loop ends with the power of 1024 that is
    at most the value and more than the value over 1024, at most the
    sixth, and the result is the quotient (as the "%.1f" verb prints
    it), a space, the letter of "KMGTPE" for that power, and "B": the
    index is always within the six letters. *)
Theorem FormatBytes_spec (sprintf1f : Z -> Z -> string) (b : Z) :
  GoInt.in_range b = true ->
  (b < 1024 -> FormatBytes sprintf1f b = Some (GoStr.Itoa b ++ " B")%string) /\
  (1024 <= b ->
   exists exp letter,
     0 <= exp <= 5 /\
     1024 ^ (exp + 1) <= b < 1024 * 1024 ^ (exp + 1) /\
     String.get (Z.to_nat exp) "KMGTPE" = Some letter /\
     FormatBytes sprintf1f b
     = Some (sprintf1f b (1024 ^ (exp + 1)) ++ " " ++ String letter "B")%string).
Proof.
  intros Hr. unfold GoInt.in_range in Hr.
  apply andb_true_iff in Hr as [_ Hmax]. apply Z.leb_le in Hmax.
  unfold FormatBytes. split.
  - intros Hlt. now rewrite (proj2 (Z.ltb_lt _ _) Hlt).
  - intros Hge. rewrite (proj2 (Z.ltb_ge _ _) Hge).
    destruct (formatLoop_spec b Hmax 6 64 0) as (k' & Hl & Hk' & Hb1 & Hb2);
      try lia.
    { apply Z.div_lt_upper_bound; [lia|]. unfold GoInt.max_int in Hmax.
      change (2 ^ 63) with 9223372036854775808 in Hmax.
      change (1024 ^ (0 + 1) * 1024 ^ Z.of_nat 6)
        with 1180591620717411303424. lia. }
    change (1024 ^ (0 + 1)) with 1024 in Hl. rewrite Hl.
    assert (Hk5 : k' <= 5).
    { destruct (Z.le_gt_cases k' 5) as [|Hgt]; [assumption|]. exfalso.
      assert (1024 ^ 7 <= 1024 ^ (k' + 1)) by (apply Z.pow_le_mono_r; lia).
      unfold GoInt.max_int in Hmax.
      change (1024 ^ 7) with 1180591620717411303424 in *.
      change (2 ^ 63) with 9223372036854775808 in Hmax. lia. }
    rewrite (proj2 (Z.leb_le 0 k')), (proj2 (Z.ltb_lt k' 6)) by lia. cbn [andb].
    assert (Hletter : exists letter,
              String.get (Z.to_nat k') "KMGTPE" = Some letter).
    { assert (Hcases : k' = 0 \/ k' = 1 \/ k' = 2 \/ k' = 3 \/ k' = 4 \/ k' = 5)
        by lia.
      destruct Hcases as [->|[->|[->|[->|[->| ->]]]]]; eexists; reflexivity. }
    destruct Hletter as (letter & Hg). rewrite Hg.
    exists k', letter. repeat split; try lia; assumption.
Qed.

Lemma FormatBytes_spec_witness :
  exists letter,
    FormatBytes (fun _ _ => "1.5") 1536 = Some ("1.5 " ++ String letter "B")%string.
Proof.
  destruct (proj2 (FormatBytes_spec (fun _ _ => "1.5") 1536 eq_refl))
    as (exp & letter & _ & _ & _ & H); [lia|].
  exists letter. exact H.
Defined.

End ApiMore.

(** ** The commands *)

Section Commands.

Import Tunnel.

Lemma mapLookup_In name m fp :
  Camouflage.mapLookup name m = Some fp -> In (name, fp) m.
Proof.
  induction m as [|[k v] m IH]; cbn; [discriminate|].
  destruct (String.eqb_spec k name) as [->|_].
  - intros [= ->]. now left.
  - intros H. right. now apply IH.
Qed.

(** X28: [SelectFingerprint] returns the identifier the
    table [SupportedFingerprints] has for the name, and the "unsupported
    fingerprint" error exactly for the names the table lacks, the empty
    name among them; the fingerprint [ClientConfig.Validate] fills in for
    an empty one is in the table. *)
Theorem SelectFingerprint_spec :
  (forall name fp,
     Camouflage.SelectFingerprint name = Ok fp <->
     In (name, fp) Camouflage.SupportedFingerprints) /\
  (forall name,
     ~ In name (map fst Camouflage.SupportedFingerprints) ->
     Camouflage.SelectFingerprint name
     = Err (Camouflage.ErrUnsupportedFingerprint name)) /\
  Camouflage.SelectFingerprint ""
  = Err (Camouflage.ErrUnsupportedFingerprint "") /\
  (forall c : ClientConfig,
     snd (ValidateClient c) = None -> CFingerprint c = "" ->
     Camouflage.SelectFingerprint (CFingerprint (fst (ValidateClient c)))
     = Ok "HelloChrome_Auto").
Proof.
  split; [|split; [|split]].
  - intros name fp. unfold Camouflage.SelectFingerprint. split.
    + destruct (Camouflage.mapLookup name Camouflage.SupportedFingerprints)
        as [v|] eqn:Hl; [|discriminate].
      intros [= <-]. now apply mapLookup_In.
    + intros Hin. cbn in Hin.
      repeat (destruct Hin as [[= <- <-]|Hin]; [reflexivity|]). contradiction.
  - intros name Hn. unfold Camouflage.SelectFingerprint.
    destruct (Camouflage.mapLookup name Camouflage.SupportedFingerprints)
      as [v|] eqn:Hl; [|reflexivity].
    exfalso. apply Hn. apply mapLookup_In in Hl.
    apply in_map_iff. exists (name, v). now split.
  - reflexivity.
  - intros c Hok Hf.
    destruct (ValidateClient_changes c) as (_ & _ & Hd & _). cbv zeta in Hd.
    destruct (Hd Hok) as (_ & -> & _). now rewrite Hf.
Qed.

Lemma SelectFingerprint_spec_witness :
  Camouflage.SelectFingerprint
    (CFingerprint (fst (ValidateClient
       {| Server := "1.2.3.4:443"; CUUID := "u"; CSNI := "g.com";
          CFingerprint := ""; PublicKey := "pk"; ShortID := "";
          LocalListen := ""; HTTPListen := ""; CLogLevel := "";
          CSportsMode := false; APIListen := "" |})))
  = Ok "HelloChrome_Auto".
Proof.
  apply (proj2 (proj2 (proj2 SelectFingerprint_spec))); reflexivity.
Defined.

Lemma NewEngine_cases L cfg :
  match Validate cfg with
  | (_, Some v) => NewEngine L (Some cfg) = Err (ErrInvalidConfig v)
  | (c', None) =>
      exists e0,
        NewEngine L (Some cfg) = Ok e0 /\ config e0 = Some c' /\
        mode e0 = ModeServer /\ status e0 = StatusStopped /\ loader e0 = L /\
        JSONConfig e0 = None
  end.
Proof.
  unfold NewEngine. destruct (Validate cfg) as [c' [v|]]; [reflexivity|].
  eexists. split; [reflexivity|]. repeat split.
Qed.

Lemma NewClientEngine_cases L cfg :
  match ValidateClient cfg with
  | (_, Some v) => NewClientEngine L (Some cfg) = Err (ErrInvalidConfig v)
  | (c', None) =>
      exists e0,
        NewClientEngine L (Some cfg) = Ok e0 /\ clientConfig e0 = Some c' /\
        mode e0 = ModeClient /\ status e0 = StatusStopped /\ loader e0 = L /\
        JSONConfig e0 = None
  end.
Proof.
  unfold NewClientEngine. destruct (ValidateClient cfg) as [c' [v|]]; [reflexivity|].
  eexists. split; [reflexivity|]. repeat split.
Qed.

Lemma Start_compiled e j :
  status e <> StatusRunning -> compiled e = Some (Ok j) ->
  match loader e j with
  | Err msg => exists e', Start e = Some (e', Some (ErrLoadFailed msg))
  | Ok inst =>
      match InstStart inst with
      | Some msg =>
          exists e', Start e = Some (e', Some (ErrInstanceStartFailed msg))
      | None =>
          exists e',
            Start e = Some (e', None) /\ status e' = StatusRunning /\
            instance e' = Some inst /\ jsonConfig e' = Some j /\
            config e' = config e /\ clientConfig e' = clientConfig e
      end
  end.
Proof.
  intros Hs Hc.
  destruct (loader e j) as [inst|msg] eqn:HL.
  - destruct (InstStart inst) as [msg|] eqn:HI.
    + unfold Start, compiled in *.
      apply statusEqb_running in Hs. rewrite Hs.
      cbn [mode config clientConfig setStatus].
      destruct (mode e);
        [destruct (config e) as [c|] | destruct (clientConfig e) as [c|] |];
        try discriminate.
      * assert (Hb : BuildServerJSON (Some c) = Ok j) by congruence.
        rewrite Hb. unfold startBuilt.
        cbn [loader logTo setJSONConfig setStatus]. rewrite HL, HI. eauto.
      * assert (Hb : BuildClientJSON (Some c) = Ok j) by congruence.
        rewrite Hb. unfold startBuilt.
        cbn [loader logTo setJSONConfig setStatus]. rewrite HL, HI. eauto.
    + destruct (Start_not_running e j inst Hs Hc HL HI)
        as (e' & H1 & H2 & H3 & H4 & _ & H5 & H6 & _).
      exists e'. repeat split; assumption.
  - unfold Start, compiled in *.
    apply statusEqb_running in Hs. rewrite Hs.
    cbn [mode config clientConfig setStatus].
    destruct (mode e);
      [destruct (config e) as [c|] | destruct (clientConfig e) as [c|] |];
      try discriminate.
    + assert (Hb : BuildServerJSON (Some c) = Ok j) by congruence.
      rewrite Hb. unfold startBuilt.
      cbn [loader logTo setJSONConfig setStatus]. rewrite HL. eauto.
    + assert (Hb : BuildClientJSON (Some c) = Ok j) by congruence.
      rewrite Hb. unfold startBuilt.
      cbn [loader logTo setJSONConfig setStatus]. rewrite HL. eauto.
Qed.

(** X29: [runServer], with whatever loader the build has set, fails at
    the first of these that occurs: the logger cannot be created; the
    configuration file does not load; [Validate] rejects the
    configuration (the engine is not created); the listen address or a
    fallback address does not parse (the engine does not start, with
    the build error [showConfig] returns for the same file); the loader
    rejects the document; the instance does not start.  Otherwise the
    engine is running with the loader's instance while the command
    waits, it holds the validated configuration and the JSON document
    [showConfig] prints for the same file, and it is stopped after the
    signal.  The stub loader accepts every document built, so with it
    the last two failures do not occur. *)
Theorem runServer_spec (NewProduction : option string)
    (LoadConfig : string -> result Config string) (L : XrayLoader)
    (configPath : string) :
  let run := EntropyServer.runServer NewProduction LoadConfig L configPath in
  let show := EntropyServer.showConfig LoadConfig configPath in
  (forall msg, NewProduction = Some msg ->
     run = Some (Err (EntropyServer.ErrCreateLogger msg))) /\
  (NewProduction = None ->
   (forall msg, LoadConfig configPath = Err msg ->
      run = Some (Err (EntropyServer.ErrLoadConfig msg))) /\
   (forall cfg, LoadConfig configPath = Ok cfg ->
      (forall v, snd (Validate cfg) = Some v ->
         run = Some (Err (EntropyServer.ErrCreateEngine (ErrInvalidConfig v)))) /\
      (snd (Validate cfg) = None ->
       (isOk (BuildServerJSON (Some cfg)) = true <->
        parses (Listen cfg) /\
        Forall (fun fb => parses (FbListen fb)) (Fallbacks cfg)) /\
       (forall b, BuildServerJSON (Some cfg) = Err b ->
          run = Some (Err (EntropyServer.ErrStartEngine (ErrBuildFailed b))) /\
          show = Err (EntropyServer.ErrBuild b)) /\
       (forall j, BuildServerJSON (Some cfg) = Ok j ->
          show = Ok j /\
          stubLoader j = Ok stubInstance /\
          InstStart stubInstance = None /\
          match L j with
          | Err msg =>
              run = Some (Err (EntropyServer.ErrStartEngine (ErrLoadFailed msg)))
          | Ok inst =>
              match InstStart inst with
              | Some msg =>
                  run = Some (Err (EntropyServer.ErrStartEngine
                                     (ErrInstanceStartFailed msg)))
              | None =>
                  exists serving final,
                    run = Some (Ok (serving, final)) /\
                    status serving = StatusRunning /\
                    instance serving = Some inst /\
                    config serving = Some (fst (Validate cfg)) /\
                    JSONConfig serving = Some j /\
                    status final = StatusStopped /\ instance final = None
              end
          end)))).
Proof.
  cbv zeta. unfold EntropyServer.runServer, EntropyServer.showConfig.
  split; [intros msg ->; reflexivity|]. intros ->.
  split; [intros msg ->; reflexivity|]. intros cfg ->.
  pose proof (NewEngine_cases L cfg) as Hnew.
  pose proof (BuildServerJSON_Validate cfg) as Hsame.
  destruct (Validate cfg) as [c' [v|]] eqn:Hv; cbn [fst snd] in *.
  - rewrite Hnew. split; [|discriminate]. now intros v' [= <-].
  - destruct Hnew as (e0 & -> & Hcfg & Hmode & Hst & Hload0 & _).
    assert (Hcomp : compiled e0 = Some (BuildServerJSON (Some cfg))).
    { unfold compiled. now rewrite Hmode, Hcfg, Hsame. }
    split; [discriminate|]. intros _. split; [|split].
    + split.
      * intros Hok.
        destruct (parses_dec (Listen cfg)) as [HL|HL];
          [destruct (Forall_parses_dec (Fallbacks cfg)) as [HF|HF]|];
          [now split| |].
        all: destruct (serverXrayConfig_err cfg ltac:(tauto)) as (b & Hxc & _);
          unfold BuildServerJSON in Hok; rewrite Hxc in Hok; discriminate.
      * intros [HL HF].
        destruct (serverXrayConfig_ok cfg HL HF) as (xc & Hxc & _).
        unfold BuildServerJSON. now rewrite Hxc.
    + intros b Hb. rewrite Hb in *.
      destruct (Start_build_failed e0 b) as (e1 & Hstart & _);
        [rewrite Hst; discriminate | exact Hcomp |].
      rewrite Hstart. split; reflexivity.
    + intros j Hj. rewrite Hj in *. split; [reflexivity|].
      split; [now apply (stubLoader_compiled e0)|]. split; [reflexivity|].
      pose proof (Start_compiled e0 j ltac:(rewrite Hst; discriminate) Hcomp)
        as Hstart.
      rewrite Hload0 in Hstart.
      destruct (L j) as [inst|msg].
      * destruct (InstStart inst) as [msg|].
        -- destruct Hstart as (e1 & ->). reflexivity.
        -- destruct Hstart as (e1 & -> & Hs1 & Hi1 & Hj1 & Hc1 & _).
           destruct (Stop_running e1 Hs1) as (e2 & Hstop & Hs2 & Hi2 & _).
           rewrite Hstop. cbn [fst]. exists e1, e2.
           repeat split; try assumption. congruence.
      * destruct Hstart as (e1 & ->). reflexivity.
Qed.

Lemma runServer_spec_witness :
  exists serving final,
    EntropyServer.runServer None (fun _ => Ok (Samples.server ":443" []))
      stubLoader "server.yaml" = Some (Ok (serving, final)) /\
    status serving = StatusRunning /\ status final = StatusStopped.
Proof.
  destruct (BuildServerJSON (Some (Samples.server ":443" []))) as [j|b] eqn:Hb;
    [|vm_compute in Hb; discriminate Hb].
  destruct (proj2 (runServer_spec None (fun _ => Ok (Samples.server ":443" []))
                     stubLoader "server.yaml") eq_refl) as (_ & H).
  destruct (H _ eq_refl) as (_ & H1).
  destruct (H1 eq_refl) as (_ & _ & H2).
  destruct (H2 j Hb) as (_ & Hstub & _ & Hrun).
  rewrite Hstub in Hrun. cbn [InstStart stubInstance] in Hrun.
  destruct Hrun as (serving & final & Hr & Hs & _ & _ & _ & Hf & _).
  exists serving, final. repeat split; assumption.
Defined.

(** X30: [runClient], with whatever loader the build has set, takes the
    configuration of the file when a path is given and of the flags
    otherwise, and fails at the first of these that occurs: the logger
    cannot be created; the file does not load; [Validate] rejects the
    configuration; the fingerprint is not in the table; the local listen
    address does not parse (the build fails in [Start]); the loader
    rejects the document; the instance does not start.  Otherwise the
    engine is running with the validated configuration and the loader's
    instance, and the API server is created on the API address around
    that engine with its [connected] flag false, so the flag disagrees
    with the engine.  The stub loader accepts every document built, so
    with it the last two failures do not occur. *)
Theorem runClient_spec (NewProduction : option string)
    (LoadClientConfig : string -> result ClientConfig string)
    (L : XrayLoader)
    (configPath server uuid sni fingerprint publicKey shortID localListen
       apiListen : string) (sportsMode : bool) :
  let run :=
    EntropyClient.runClient NewProduction LoadClientConfig L configPath server
      uuid sni fingerprint publicKey shortID localListen apiListen sportsMode in
  let flags :=
    {| Server := server; CUUID := uuid; CSNI := sni;
       CFingerprint := fingerprint; PublicKey := publicKey;
       ShortID := shortID; LocalListen := localListen; HTTPListen := "";
       CLogLevel := ""; CSportsMode := sportsMode; APIListen := apiListen |} in
  (forall msg, NewProduction = Some msg ->
     run = Some (Err (EntropyClient.ErrCreateLogger msg))) /\
  (NewProduction = None ->
   (forall msg, configPath <> "" -> LoadClientConfig configPath = Err msg ->
      run = Some (Err (EntropyClient.ErrLoadConfig msg))) /\
   (forall cfg,
      (configPath <> "" /\ LoadClientConfig configPath = Ok cfg) \/
      (configPath = "" /\ cfg = flags) ->
      let c' := fst (ValidateClient cfg) in
      (forall v, snd (ValidateClient cfg) = Some v ->
         run = Some (Err (EntropyClient.ErrInvalidConfiguration v))) /\
      (snd (ValidateClient cfg) = None ->
       (forall fe, Camouflage.SelectFingerprint (CFingerprint c') = Err fe ->
          run = Some (Err (EntropyClient.ErrFingerprint fe))) /\
       (isOk (Camouflage.SelectFingerprint (CFingerprint c')) = true ->
        (isOk (BuildClientJSON (Some c')) = true <-> parses (LocalListen c')) /\
        (forall b, BuildClientJSON (Some c') = Err b ->
           run = Some (Err (EntropyClient.ErrStartTunnel (ErrBuildFailed b)))) /\
        (forall j, BuildClientJSON (Some c') = Ok j ->
           stubLoader j = Ok stubInstance /\
           InstStart stubInstance = None /\
           match L j with
           | Err msg =>
               run = Some (Err (EntropyClient.ErrStartTunnel (ErrLoadFailed msg)))
           | Ok inst =>
               match InstStart inst with
               | Some msg =>
                   run = Some (Err (EntropyClient.ErrStartTunnel
                                      (ErrInstanceStartFailed msg)))
               | None =>
                   exists e s,
                     run = Some (Ok (e, s)) /\ status e = StatusRunning /\
                     instance e = Some inst /\ clientConfig e = Some c' /\
                     JSONConfig e = Some j /\ Api.engine s = e /\
                     Api.addr s = APIListen c' /\ Api.connected s = false /\
                     ~ Api.inSync s
               end
           end))))).
Proof.
  cbv zeta. unfold EntropyClient.runClient.
  split; [intros msg ->; reflexivity|]. intros ->.
  split.
  { intros msg Hp Hl. unfold EntropyClient.clientConfigOf.
    apply String.eqb_neq in Hp. rewrite Hp. cbn [negb]. now rewrite Hl. }
  intros cfg Hcfg.
  assert (Hof : EntropyClient.clientConfigOf LoadClientConfig configPath server
                  uuid sni fingerprint publicKey shortID localListen apiListen
                  sportsMode = Ok cfg).
  { unfold EntropyClient.clientConfigOf.
    destruct Hcfg as [[Hp Hl]|[-> ->]].
    - apply String.eqb_neq in Hp. rewrite Hp. cbn [negb]. now rewrite Hl.
    - reflexivity. }
  rewrite Hof.
  destruct (ValidateClient_changes cfg) as (_ & _ & _ & Hidem). cbv zeta in Hidem.
  destruct (ValidateClient cfg) as [c' [v|]] eqn:Hv; cbn [fst snd] in *.
  - split; [|discriminate]. now intros v' [= <-].
  - split; [discriminate|]. intros _.
    destruct (Camouflage.SelectFingerprint (CFingerprint c')) as [fp|fe] eqn:Hfp.
    + split; [discriminate|]. intros _.
      pose proof (NewClientEngine_cases L c') as Hnew.
      rewrite Hidem in Hnew.
      destruct Hnew as (e0 & -> & Hcc & Hmode & Hst & Hload0 & _).
      assert (Hcomp : compiled e0 = Some (BuildClientJSON (Some c'))).
      { unfold compiled. now rewrite Hmode, Hcc. }
      split; [|split].
      * split.
        -- intros Hok. destruct (parses_dec (LocalListen c')) as [HL|HL];
             [exact HL|].
           destruct (clientXrayConfig_err c' HL) as (a & Hxc).
           unfold BuildClientJSON in Hok. rewrite Hxc in Hok. discriminate.
        -- intros HL. destruct (clientXrayConfig_ok c' HL) as (xc & Hxc & _).
           unfold BuildClientJSON. now rewrite Hxc.
      * intros b Hb. rewrite Hb in Hcomp.
        destruct (Start_build_failed e0 _ ltac:(rewrite Hst; discriminate) Hcomp)
          as (e1 & Hstart & _).
        now rewrite Hstart.
      * intros j Hj. rewrite Hj in Hcomp.
        split; [now apply (stubLoader_compiled e0)|]. split; [reflexivity|].
        pose proof (Start_compiled e0 j ltac:(rewrite Hst; discriminate) Hcomp)
          as Hstart.
        rewrite Hload0 in Hstart.
        destruct (L j) as [inst|msg].
        -- destruct (InstStart inst) as [msg|].
           ++ destruct Hstart as (e1 & ->). reflexivity.
           ++ destruct Hstart as (e1 & -> & Hs1 & Hi1 & Hj1 & _ & Hc1).
              exists e1, (Api.NewServer (APIListen c') e1).
              repeat split; try assumption; try congruence.
              unfold Api.inSync, Status.
              cbn [Api.connected Api.NewServer Api.engine].
              rewrite Hs1. discriminate.
        -- destruct Hstart as (e1 & ->). reflexivity.
    + split; [|discriminate]. now intros fe' [= <-].
Qed.

Lemma runClient_spec_witness :
  exists e s,
    EntropyClient.runClient None (fun _ => Err "no file") stubLoader ""
      "1.2.3.4:443" "u" "g.com" "chrome" "pk" "" "127.0.0.1:1080"
      "127.0.0.1:9876" false
    = Some (Ok (e, s)) /\
    status e = StatusRunning /\ Api.connected s = false.
Proof.
  destruct (proj2 (runClient_spec None (fun _ => Err "no file") stubLoader ""
                     "1.2.3.4:443" "u" "g.com" "chrome" "pk" ""
                     "127.0.0.1:1080" "127.0.0.1:9876" false) eq_refl)
    as (_ & H).
  destruct (H _ (or_intror (conj eq_refl eq_refl))) as (_ & H1).
  destruct (H1 eq_refl) as (_ & H2). destruct (H2 eq_refl) as (_ & _ & H3).
  match type of H3 with
  | forall j, ?b = Ok j -> _ =>
      destruct b as [j|a] eqn:Hb; [|vm_compute in Hb; discriminate Hb]
  end.
  destruct (H3 j eq_refl) as (Hstub & _ & Hrun).
  rewrite Hstub in Hrun. cbn [InstStart stubInstance] in Hrun.
  destruct Hrun as (e & s & Hr & Hs & _ & _ & _ & _ & _ & Hc & _).
  exists e, s. repeat split; assumption.
Defined.

End Commands.

(** ** The auto-rotation and its goroutines *)

Section AutoRotationRuns.

Import Rotation.

Local Arguments String.append : simpl nomatch.



















End AutoRotationRuns.

(** ** The rounds of the health monitor *)

Section MonitorRounds.

Import Rotation.

Local Arguments String.append : simpl nomatch.

Lemma checkAll_app pre : forall post hc,
  checkAll (pre ++ post) hc
  = (fst (checkAll post (fst (checkAll pre hc))),
     snd (checkAll pre hc) ++ snd (checkAll post (fst (checkAll pre hc)))).
Proof.
  induction pre as [|[ep env] pre IH]; intros post hc.
  - cbn [app checkAll fst snd]. now destruct (checkAll post hc).
  - cbn [app checkAll]. destruct (checkOne env hc ep) as [hc1 started].
    rewrite IH. destruct (checkAll pre hc1) as [hc2 more]. cbn [fst snd].
    now rewrite app_assoc.
Qed.

Lemma checkAll_one ep env hc : checkAll [(ep, env)] hc = checkOne env hc ep.
Proof.
  cbn [checkAll]. destruct (checkOne env hc ep) as [hc1 started].
  now rewrite app_nil_r.
Qed.

Lemma runRounds_app rounds : forall more hc,
  runRounds (rounds ++ more) hc
  = (fst (runRounds more (fst (runRounds rounds hc))),
     snd (runRounds rounds hc)
     ++ snd (runRounds more (fst (runRounds rounds hc)))).
Proof.
  induction rounds as [|probes rounds IH]; intros more hc.
  - cbn [app runRounds fst snd]. now destruct (runRounds more hc).
  - cbn [app runRounds]. destruct (checkAll probes hc) as [hc1 started].
    rewrite IH. destruct (runRounds rounds hc1) as [hc2 st2]. cbn [fst snd].
    now rewrite app_assoc.
Qed.

Lemma runRounds_one probes hc : runRounds [probes] hc = checkAll probes hc.
Proof.
  cbn [runRounds]. destruct (checkAll probes hc) as [hc1 started].
  now rewrite app_nil_r.
Qed.

Lemma runRounds_cons probes rounds hc :
  runRounds (probes :: rounds) hc
  = (fst (runRounds rounds (fst (checkAll probes hc))),
     snd (checkAll probes hc)
     ++ snd (runRounds rounds (fst (checkAll probes hc)))).
Proof.
  cbn [runRounds]. destruct (checkAll probes hc) as [hc1 started].
  cbn [fst snd]. now destruct (runRounds rounds hc1).
Qed.

Lemma previousFailCount_checkOne env hc ep :
  previousFailCount (fst (checkOne env hc ep)) (ID ep)
  = FailCount (checkEndpoint hc env ep).
Proof.
  unfold previousFailCount. rewrite checkOne_results.
  now rewrite lookup_insert_eq.
Qed.

(** An endpoint whose probes keep failing: the counter counts the
    failures, and a goroutine is started at every failure from the one
    that makes the counter [3]. *)
Lemma failing_rounds ep envs : forall hc k,
  previousFailCount hc (ID ep) = Z.of_nat k ->
  Z.of_nat (k + length envs) < GoInt.max_int ->
  Forall (fun env => probeOutcome env ep <> None) envs ->
  let r := runRounds (map (fun env => [(ep, env)]) envs) hc in
  snd r = repeat (RetireThenRotate ep) (length envs + Nat.min k 2 - 2) /\
  previousFailCount (fst r) (ID ep) = Z.of_nat (k + length envs).
Proof.
  induction envs as [|env envs IH]; intros hc k Hk Hb Hall; cbv zeta.
  - cbn [map runRounds fst snd length]. split.
    + replace (0 + Nat.min k 2 - 2)%nat with O by lia. reflexivity.
    + rewrite Hk. f_equal. lia.
  - apply Forall_cons in Hall as [Henv Hall].
    cbn [map]. rewrite runRounds_cons, checkAll_one. cbn [fst snd].
    destruct (probeOutcome env ep) as [err|] eqn:Ho; [|congruence].
    pose proof (checkEndpoint_failure hc env ep err Ho) as Hr.
    assert (Ha : GoInt.add (Z.of_nat k) 1 = Z.of_nat (S k)).
    { unfold GoInt.add. rewrite wrap_small; [lia|].
      cbn [length] in Hb. unfold GoInt.min_int, GoInt.max_int in *. lia. }
    rewrite Hk, Ha in Hr.
    assert (Hk' : previousFailCount (fst (checkOne env hc ep)) (ID ep)
                  = Z.of_nat (S k)).
    { rewrite previousFailCount_checkOne, Hr. reflexivity. }
    cbn [length] in Hb.
    destruct (IH (fst (checkOne env hc ep)) (S k) Hk' ltac:(lia) Hall)
      as [Hs Hp]. cbv zeta in Hs, Hp.
    rewrite Hs, Hp, checkOne_started, Hr. cbn [Healthy FailCount negb andb].
    split; [|f_equal; cbn [length]; lia].
    cbn [length].
    destruct (Z.leb_spec 3 (Z.of_nat (S k))) as [H3|H3].
    + change ([RetireThenRotate ep]) with (repeat (RetireThenRotate ep) 1).
      rewrite <- repeat_app. f_equal. lia.
    + cbn [app]. f_equal. lia.
Qed.

(** C5: take any rounds of the monitor and one more round, [probes]
    (fewer probes in all than the largest [int], so that no counter wraps
    around).  The round is [checkAll] on the checker the earlier rounds
    leave, and the goroutines it starts come after theirs.  After it
    every stored counter is at least [0], and it is [0] exactly when the
    last probe of that endpoint was healthy.  For each probe of the
    round, with [before] what [checkAll] has done up to it and [after]
    what it has done once the probe is dealt with: the result is stored
    under the identifier of the endpoint and no other entry changes; a
    successful probe sets the counter to [0] and [healthy] to [true] and
    starts nothing; a failed probe adds [1] to the previous counter ([0]
    when there is none), sets [healthy] to [false], records the text of
    the error, and, when the counter is then [3] or more, [checkAll]
    starts one goroutine for that endpoint, and none otherwise.  So for
    an endpoint whose probes fail round after round the counter counts
    the failures and a goroutine is started at the third failure and at
    each later one.  The goroutine calls [Retire] of the endpoint,
    dropping its result, and then [Rotate]: the first endpoint with that
    identifier, if there is one, leaves the list and a new endpoint is
    appended. *)
Theorem C5_health_counter (rounds : list (list (Endpoint * ProbeEnv)))
    (probes : list (Endpoint * ProbeEnv)) :
  Z.of_nat (probeCount rounds + length probes) < GoInt.max_int ->
  let earlier := runRounds rounds NewHealthChecker in
  let hc := fst earlier in
  runRounds (rounds ++ [probes]) NewHealthChecker
  = (fst (checkAll probes hc), snd earlier ++ snd (checkAll probes hc)) /\
  (forall id r, results (fst (checkAll probes hc)) !! id = Some r ->
     0 <= FailCount r /\ (FailCount r = 0 <-> Healthy r = true)) /\
  (forall pre ep env post, probes = pre ++ (ep, env) :: post ->
     let before := checkAll pre hc in
     let after := checkAll (pre ++ [(ep, env)]) hc in
     (exists r,
        results (fst after) !! ID ep = Some r /\
        EndpointID r = ID ep /\ LastCheck r = clock env /\
        Latency r = elapsed env /\
        match probeOutcome env ep with
        | None =>
            Healthy r = true /\ FailCount r = 0 /\ Error r = "" /\
            snd after = snd before
        | Some err =>
            Healthy r = false /\
            FailCount r = previousFailCount (fst before) (ID ep) + 1 /\
            Error r = err /\
            snd after
            = snd before
              ++ (if 3 <=? FailCount r then [RetireThenRotate ep] else [])
        end) /\
     (forall id, id <> ID ep ->
        results (fst after) !! id = results (fst before) !! id) /\
     checkAll probes hc
     = (fst (checkAll post (fst after)),
        snd after ++ snd (checkAll post (fst after)))) /\
  (forall ep envs,
     Forall (fun env => probeOutcome env ep <> None) envs ->
     Z.of_nat (length envs) < GoInt.max_int ->
     let r := runRounds (map (fun env => [(ep, env)]) envs) NewHealthChecker in
     previousFailCount (fst r) (ID ep) = Z.of_nat (length envs) /\
     snd r = repeat (RetireThenRotate ep) (length envs - 2)) /\
  (forall t1 t2 ep c,
     let c' := runTask t1 t2 (RetireThenRotate ep) c in
     exists new,
       endpoints c'
       = match removeFirst (ID ep) (endpoints c) with
         | Some rest => rest
         | None => endpoints c
         end ++ [new] /\
       new = snd (Rotate t1 t2 (fst (Retire c ep))) /\
       ExpiresAt new = t2 + hour /\
       counter c' = GoInt.add (counter c) 1).
Proof.
  intros Hn. cbv zeta.
  assert (Hw : countersWithin (Z.of_nat (probeCount rounds))
                 (fst (runRounds rounds NewHealthChecker))).
  { pose proof (runRounds_within rounds 0 NewHealthChecker) as H.
    rewrite Z.add_0_l in H.
    apply H; [lia | unfold GoInt.max_int in *; lia |].
    intros id r Hr. cbn in Hr. rewrite lookup_empty in Hr. discriminate. }
  split; [|split; [|split; [|split]]].
  - rewrite runRounds_app, runRounds_one. reflexivity.
  - intros id r Hr.
    pose proof (checkAll_within probes (Z.of_nat (probeCount rounds)) _
                  ltac:(lia) ltac:(unfold GoInt.max_int in *; lia) Hw) as Hw'.
    destruct (Hw' id r Hr) as [Hb Hh]. split; [lia | exact Hh].
  - intros pre ep env post ->.
    rewrite (checkAll_app pre [(ep, env)]), checkAll_one. cbn [fst snd].
    set (hc1 := fst (checkAll pre (fst (runRounds rounds NewHealthChecker)))).
    assert (Hw1 : countersWithin (Z.of_nat (probeCount rounds)
                                  + Z.of_nat (length pre)) hc1).
    { apply checkAll_within; [lia| |exact Hw].
      rewrite length_app in Hn. unfold GoInt.max_int in *. lia. }
    split; [|split].
    + exists (checkEndpoint hc1 env ep). rewrite checkOne_results.
      split; [apply lookup_insert_eq|]. rewrite checkOne_started.
      destruct (probeOutcome env ep) as [err|] eqn:Ho.
      * rewrite (checkEndpoint_failure _ _ _ _ Ho).
        cbn [EndpointID LastCheck Latency Healthy FailCount Error negb andb].
        pose proof (previousFailCount_within
                      (Z.of_nat (probeCount rounds) + Z.of_nat (length pre))
                      hc1 (ID ep) ltac:(lia) Hw1) as Hp.
        unfold GoInt.add. rewrite wrap_small.
        2:{ rewrite length_app in Hn.
            unfold GoInt.min_int, GoInt.max_int in *. lia. }
        repeat split.
      * rewrite (checkEndpoint_success _ _ _ Ho).
        cbn [EndpointID LastCheck Latency Healthy FailCount Error negb andb].
        rewrite app_nil_r. repeat split.
    + intros id Hid. rewrite checkOne_results.
      now rewrite lookup_insert_ne by congruence.
    + change ((ep, env) :: post) with ([(ep, env)] ++ post).
      rewrite app_assoc, (checkAll_app (pre ++ [(ep, env)]) post).
      rewrite (checkAll_app pre [(ep, env)]), checkAll_one. reflexivity.
  - intros ep envs Hall Hlen.
    destruct (failing_rounds ep envs NewHealthChecker O) as [Hs Hp];
      [reflexivity | lia | exact Hall |].
    cbv zeta in Hs, Hp. split; [exact Hp|]. rewrite Hs. f_equal. lia.
  - intros t1 t2 ep c. eexists. split; [|split; [reflexivity|split]].
    + unfold runTask, Retire.
      destruct (removeFirst (ID ep) (endpoints c)); reflexivity.
    + reflexivity.
    + unfold runTask, Retire.
      destruct (removeFirst (ID ep) (endpoints c)); reflexivity.
Qed.

Lemma C5_health_counter_witness :
  snd (checkAll [(Samples.endpoint "noop-1" "noop",
                  Samples.deadProbe (2 * Samples.minute))]
         (fst (runRounds (take 2 Samples.deadRounds) NewHealthChecker)))
  = [RetireThenRotate (Samples.endpoint "noop-1" "noop")].
Proof.
  assert (Hn : Z.of_nat (probeCount (take 2 Samples.deadRounds)
                         + length [(Samples.endpoint "noop-1" "noop",
                                    Samples.deadProbe (2 * Samples.minute))])
               < GoInt.max_int) by (vm_compute; reflexivity).
  destruct (C5_health_counter (take 2 Samples.deadRounds) _ Hn)
    as (_ & _ & Hstep & _).
  destruct (Hstep [] (Samples.endpoint "noop-1" "noop")
              (Samples.deadProbe (2 * Samples.minute)) [] eq_refl)
    as ((r & _ & _ & _ & _ & Hfail) & _ & _).
  cbn [app] in Hfail.
  change (probeOutcome (Samples.deadProbe (2 * Samples.minute))
            (Samples.endpoint "noop-1" "noop"))
    with (Some "TCP probe failed") in Hfail.
  destruct Hfail as (_ & Hc & _ & Hs).
  rewrite Hs, Hc. vm_compute. reflexivity.
Defined.

End MonitorRounds.
